(** * pyLegoMario: the [Mario] session object of [pyLegoMario/mario.py]

    A shallow embedding of the driver class [Mario]: hook registration and
    removal, the notification decoder [_handle_events] with its dispatch
    helpers, the command methods [set_volume] and [request_port_value], and
    the [connect] / [disconnect] pair with the asyncio task queue that drives
    them.

    Conventions of the embedding.
    - A Python [int] is a [Z]; a [bytearray] is a [list Z] whose elements are
      in [range(256)]; a [str] is a [string]; a [dict] is a [gmap].
    - A method that mutates [self] or performs I/O is a computation of the
      monad [M]: it takes the world, returns the new world and either a value
      or the exception that was raised.  Mutations made before a [raise]
      stay in the world, as in Python.
    - Whatever the program does to the outside is appended to the world's
      list of [Effect]s, oldest first: calls of registered hooks, lines sent
      to stdout, scans and transport operations.
    - A hook is code of the caller.  Its call is recorded as an effect,
      together with the arguments and the session it is given; the hook is
      taken to return normally and to leave the session as it found it.
    - [await c] of a coroutine is the call of [c]; a coroutine handed to
      [create_task] is appended to the world's task queue and run later by
      [run], each task to its end before the next one starts. *)

From Stdlib Require Import ZArith Lia Ascii String.
From stdpp Require Import base option list gmap strings pretty.

Set Warnings "-register-all".
Open Scope Z_scope.

(** ** Python values used by the module *)

Inductive exn :=
| IndexError
| AssertionError
| ValueError
| OSError
| BleakError
| AttributeError.

Inductive result (A : Type) :=
| Ok (a : A)
| Raise (e : exn).
Arguments Ok {A} a.
Arguments Raise {A} e.

#[global] Instance exn_eq_dec : EqDecision exn.
Proof. solve_decision. Defined.

(** A hook is a Python function object.  Functions compare by identity, so a
    hook is represented by the name of that identity. *)
Definition Hook := nat.

(** The values a caller can pass where the methods expect "a callable or an
    iterable of callables": [None], an [int], a function, or a list (tuple)
    of such values. *)
Inductive pyobj :=
| PyNone
| PyInt (n : Z)
| PyFunc (f : Hook)
| PyList (items : list pyobj).

(** [callable(o)] *)
Definition callable (o : pyobj) : bool :=
  match o with PyFunc _ => true | _ => false end.

(** [hasattr(o, '__iter__')] *)
Definition has_iter (o : pyobj) : bool :=
  match o with PyList _ => true | _ => false end.

(** ** String formatting primitives *)

Definition digit_char (d : Z) : ascii :=
  nth (Z.to_nat d) (list_ascii_of_string "0123456789abcdef") "0"%char.

Fixpoint digits_go (fuel : nat) (base n : Z) (acc : string) : string :=
  match fuel with
  | O => acc
  | S fuel' =>
      let acc' := String (digit_char (n mod base)) acc in
      if n / base =? 0 then acc' else digits_go fuel' base (n / base) acc'
  end.

(** The digits of [n >= 0] in [base], most significant first. *)
Definition to_base (base n : Z) : string :=
  digits_go (S (Z.to_nat (Z.log2 n))) base n "".

(** [hex(n)] and [bin(n)] *)
Definition hex (n : Z) : string :=
  if n <? 0 then "-0x" +:+ to_base 16 (- n) else "0x" +:+ to_base 16 n.

Definition bin (n : Z) : string :=
  if n <? 0 then "-0b" +:+ to_base 2 (- n) else "0b" +:+ to_base 2 n.

(** [bytearray.hex()]: two lower-case digits per byte. *)
Fixpoint bytes_hex (data : list Z) : string :=
  match data with
  | [] => ""
  | b :: rest =>
      String (digit_char (b / 16)) (String (digit_char (b mod 16)) (bytes_hex rest))
  end.

(** [str(n)] and the [%i] conversion of an [int]. *)
Definition str_int (n : Z) : string := pretty n.

(** [s.ljust(width)] *)
Definition ljust (width : nat) (s : string) : string :=
  s +:+ string_of_list_ascii (replicate (width - String.length s) " "%char).

Definition ascii_lower (c : ascii) : ascii :=
  let n := nat_of_ascii c in
  if ((65 <=? n) && (n <=? 90))%nat then ascii_of_nat (n + 32) else c.

(** [s.lower()] on ASCII text *)
Fixpoint lower (s : string) : string :=
  match s with
  | EmptyString => EmptyString
  | String c s' => String (ascii_lower c) (lower s')
  end.

(** [s.startswith(p)] *)
Definition startswith (s p : string) : bool := String.prefix p s.

(** [int.from_bytes(bs, "big")] *)
Definition int_from_bytes_big (bs : list Z) : Z :=
  fold_left (fun acc b => acc * 256 + b) bs 0.

(** [data[i:j]] and [data[i:]] for [0 <= i <= j] *)
Definition slice (i j : nat) (data : list Z) : list Z := take (j - i) (drop i data).
Definition slice_from (i : nat) (data : list Z) : list Z := drop i data.

(** [bytearray(values)]: every value must be in [range(256)]. *)
Definition bytearray (values : list Z) : result (list Z) :=
  if forallb (fun v => (0 <=? v) && (v <? 256)) values then Ok values
  else Raise ValueError.

(** [l.remove(x)]: drops the first element equal to [x]; [None] stands for
    the [ValueError] of an absent element. *)
Fixpoint list_remove (x : Hook) (l : list Hook) : option (list Hook) :=
  match l with
  | [] => None
  | y :: l' => if decide (x = y) then Some l' else cons y <$> list_remove x l'
  end.

(** ** The function [signed] *)

Definition signed (char : Z) : Z :=
  if char >? 127 then char - 256 else char.

(** ** The constants of [LEGO_MARIO_DATA]

    [mario.py] takes its lookup tables and command byte strings from the
    module [LEGO_MARIO_DATA] ([from .LEGO_MARIO_DATA import *]).  The
    development is parametric in them. *)

Record LEGO_MARIO_DATA := {
  HEX_TO_RGB_TILE : gmap Z string;
  HEX_TO_COLOR_TILE : gmap Z string;
  HEX_TO_PANTS : gmap Z string;
  HEX_TO_HUB_ACTIONS : gmap Z string;
  HEX_TO_HUB_PROPERTIES : gmap Z string;
  (** a [dict] iterated with [.keys()]: insertion order matters *)
  BINARY_GESTURES : list (Z * string);
  LEGO_CHARACTERISTIC_UUID : string;
  SUBSCRIBE_IMU_COMMAND : list Z;
  SUBSCRIBE_RGB_COMMAND : list Z;
  SUBSCRIBE_PANTS_COMMAND : list Z;
  (** the value [REQUEST_RGB_COMMAND] has when the module is loaded *)
  REQUEST_RGB_COMMAND_0 : list Z;
  MUTE_COMMAND : list Z;
  DISCONNECT_COMMAND : list Z;
  TURN_OFF_COMMAND : list Z
}.

(** [d.get(key, dflt)] *)
Definition dict_get (d : gmap Z string) (key : Z) (dflt : string) : string :=
  default dflt (d !! key).

(** ** The session object *)

(** A [BleakClient]: the object is determined by the address it was built
    for. *)
Record BleakClient := { address : string }.

(** A scan result of [BleakScanner.discover()]. *)
Record BLEDevice := { d_name : option string; d_address : string }.

Record Mario := mkMario {
  _doLog : bool;
  _run : bool;
  _autoReconnect : bool;
  _client : option BleakClient;
  defaultVolume : option Z;
  pants : option string;
  ground : option string;
  acceleration : option (Z * Z * Z);
  recentTile : option string;
  _accelerometerEventHooks : list Hook;
  _tileEventHooks : list Hook;
  _pantsEventHooks : list Hook;
  _logEventHooks : list Hook
}.

(** The four hook lists.  [self.ALLHOOKS] is a tuple of references to the
    very list objects held by the four attributes (the attributes are never
    rebound, the lists are only mutated in place), so an entry of [ALLHOOKS]
    is the name of a list, resolved by [hooks] against the current session. *)
Inductive HookList :=
| AccelerometerEventHooks
| PantsEventHooks
| TileEventHooks
| LogEventHooks.

#[global] Instance HookList_eq_dec : EqDecision HookList.
Proof. solve_decision. Defined.

Definition ALLHOOKS : list HookList :=
  [AccelerometerEventHooks; PantsEventHooks; TileEventHooks; LogEventHooks].

Definition hooks (c : HookList) (m : Mario) : list Hook :=
  match c with
  | AccelerometerEventHooks => _accelerometerEventHooks m
  | PantsEventHooks => _pantsEventHooks m
  | TileEventHooks => _tileEventHooks m
  | LogEventHooks => _logEventHooks m
  end.

Definition set_hooks (c : HookList) (l : list Hook) (m : Mario) : Mario :=
  match c with
  | AccelerometerEventHooks =>
      mkMario (_doLog m) (_run m) (_autoReconnect m) (_client m) (defaultVolume m)
        (pants m) (ground m) (acceleration m) (recentTile m)
        l (_tileEventHooks m) (_pantsEventHooks m) (_logEventHooks m)
  | PantsEventHooks =>
      mkMario (_doLog m) (_run m) (_autoReconnect m) (_client m) (defaultVolume m)
        (pants m) (ground m) (acceleration m) (recentTile m)
        (_accelerometerEventHooks m) (_tileEventHooks m) l (_logEventHooks m)
  | TileEventHooks =>
      mkMario (_doLog m) (_run m) (_autoReconnect m) (_client m) (defaultVolume m)
        (pants m) (ground m) (acceleration m) (recentTile m)
        (_accelerometerEventHooks m) l (_pantsEventHooks m) (_logEventHooks m)
  | LogEventHooks =>
      mkMario (_doLog m) (_run m) (_autoReconnect m) (_client m) (defaultVolume m)
        (pants m) (ground m) (acceleration m) (recentTile m)
        (_accelerometerEventHooks m) (_tileEventHooks m) (_pantsEventHooks m) l
  end.

Definition set_run (b : bool) (m : Mario) : Mario :=
  mkMario (_doLog m) b (_autoReconnect m) (_client m) (defaultVolume m)
    (pants m) (ground m) (acceleration m) (recentTile m)
    (_accelerometerEventHooks m) (_tileEventHooks m) (_pantsEventHooks m) (_logEventHooks m).

Definition set_autoReconnect (b : bool) (m : Mario) : Mario :=
  mkMario (_doLog m) (_run m) b (_client m) (defaultVolume m)
    (pants m) (ground m) (acceleration m) (recentTile m)
    (_accelerometerEventHooks m) (_tileEventHooks m) (_pantsEventHooks m) (_logEventHooks m).

Definition set_client (c : option BleakClient) (m : Mario) : Mario :=
  mkMario (_doLog m) (_run m) (_autoReconnect m) c (defaultVolume m)
    (pants m) (ground m) (acceleration m) (recentTile m)
    (_accelerometerEventHooks m) (_tileEventHooks m) (_pantsEventHooks m) (_logEventHooks m).

Definition set_pants (v : string) (m : Mario) : Mario :=
  mkMario (_doLog m) (_run m) (_autoReconnect m) (_client m) (defaultVolume m)
    (Some v) (ground m) (acceleration m) (recentTile m)
    (_accelerometerEventHooks m) (_tileEventHooks m) (_pantsEventHooks m) (_logEventHooks m).

Definition set_ground (v : string) (m : Mario) : Mario :=
  mkMario (_doLog m) (_run m) (_autoReconnect m) (_client m) (defaultVolume m)
    (pants m) (Some v) (acceleration m) (recentTile m)
    (_accelerometerEventHooks m) (_tileEventHooks m) (_pantsEventHooks m) (_logEventHooks m).

Definition set_acceleration (v : Z * Z * Z) (m : Mario) : Mario :=
  mkMario (_doLog m) (_run m) (_autoReconnect m) (_client m) (defaultVolume m)
    (pants m) (ground m) (Some v) (recentTile m)
    (_accelerometerEventHooks m) (_tileEventHooks m) (_pantsEventHooks m) (_logEventHooks m).

Definition set_recentTile (v : string) (m : Mario) : Mario :=
  mkMario (_doLog m) (_run m) (_autoReconnect m) (_client m) (defaultVolume m)
    (pants m) (ground m) (acceleration m) (Some v)
    (_accelerometerEventHooks m) (_tileEventHooks m) (_pantsEventHooks m) (_logEventHooks m).

(** ** Hook registration and removal

    The four [Add...Hook] methods have the same body and differ in the list
    they append to; [add_hooks] is that body, with the list as a parameter.
    The recursion of the source on the elements of an iterable is the
    recursion on the items of a [PyList]. *)

Fixpoint add_hooks (c : HookList) (funcs : pyobj) (m : Mario) : Mario :=
  match funcs with
  | PyFunc f =>                       (* callable(funcs) *)
      set_hooks c (hooks c m ++ [f]) m
  | PyList items =>                   (* hasattr(funcs, '__iter__') *)
      fold_left (fun m' hook_function => add_hooks c hook_function m') items m
  | PyNone | PyInt _ => m
  end.

Definition AddLogHook : pyobj -> Mario -> Mario := add_hooks LogEventHooks.
Definition AddTileHook : pyobj -> Mario -> Mario := add_hooks TileEventHooks.
Definition AddAccelerometerHook : pyobj -> Mario -> Mario :=
  add_hooks AccelerometerEventHooks.
Definition AddPantsHook : pyobj -> Mario -> Mario := add_hooks PantsEventHooks.

(** The loop [for hooktype in self.ALLHOOKS] of [RemoveEventsHook] for one
    callable. *)
Fixpoint remove_from (f : Hook) (lists : list HookList) (m : Mario) : result Mario :=
  match lists with
  | [] => Ok m
  | hooktype :: rest =>
      if decide (f ∈ hooks hooktype m) then
        match list_remove f (hooks hooktype m) with
        | Some l' => remove_from f rest (set_hooks hooktype l' m)
        | None => Raise ValueError
        end
      else remove_from f rest m
  end.

Fixpoint RemoveEventsHook (funcs : pyobj) (m : Mario) : result Mario :=
  match funcs with
  | PyFunc f => remove_from f ALLHOOKS m
  | PyList items =>
      fold_left
        (fun r hook_function =>
           match r with
           | Ok m' => RemoveEventsHook hook_function m'
           | Raise e => Raise e
           end)
        items (Ok m)
  | PyNone | PyInt _ => Ok m
  end.

(** ** The world around the session *)

Inductive HookArgs :=
| ArgStr (s : string)
| ArgXYZ (x y z : Z).

(** What the program does to the outside.  [HookCall c func args sender]
    is the call [func(self, *args)] of a hook taken from list [c];
    [sender] is the session as the hook finds it when it is entered. *)
Inductive Effect :=
| HookCall (c : HookList) (func : Hook) (args : HookArgs) (sender : Mario)
| Print (text : string)
| Discover
| ClientConnect (client : BleakClient)
| StartNotify (client : BleakClient) (uuid : string)
| WriteGattChar (client : BleakClient) (uuid : string) (command : list Z)
| ClientDisconnect (client : BleakClient)
| Sleep (milliseconds : Z).

(** The coroutines the module hands to [create_task]. *)
Inductive Task :=
| TaskConnect
| TaskDisconnect
| TaskCheckConnectionLoop
| TaskWriteGattChar (client : BleakClient) (uuid : string) (command : list Z).

(** [REQUEST_RGB_COMMAND] is a module-level [bytearray] that
    [request_port_value] writes into, hence part of the mutable world. *)
Record World := mkWorld {
  self : Mario;
  effects : list Effect;
  tasks : list Task;
  REQUEST_RGB_COMMAND : list Z
}.

(** The environment: what the radio answers.  The answer may depend on
    the moment of the question, measured by the number of effects so far. *)
Record Env := {
  (** the result of [BleakScanner.discover()] *)
  discover : nat -> list BLEDevice;
  (** a transport operation either completes or raises *)
  transport : nat -> option exn;
  (** the attribute [client.is_connected] *)
  is_connected : nat -> bool
}.

Definition M (A : Type) : Type := World -> result A * World.

#[global] Instance M_ret : MRet M := fun A a w => (Ok a, w).

#[global] Instance M_bind : MBind M := fun A B k m w =>
  match m w with
  | (Ok a, w') => k a w'
  | (Raise e, w') => (Raise e, w')
  end.

Definition raise {A : Type} (e : exn) : M A := fun w => (Raise e, w).

Definition gets {A : Type} (f : World -> A) : M A := fun w => (Ok (f w), w).

Definition modify (f : World -> World) : M unit := fun w => (Ok tt, f w).

(** [try: body  except <catches>: handler] *)
Definition try_except {A : Type} (body : M A) (catches : exn -> bool)
    (handler : M A) : M A := fun w =>
  match body w with
  | (Raise e, w') => if catches e then handler w' else (Raise e, w')
  | r => r
  end.

Definition add_effect (e : Effect) (w : World) : World :=
  mkWorld (self w) (effects w ++ [e]) (tasks w) (REQUEST_RGB_COMMAND w).

Definition with_self (f : Mario -> Mario) (w : World) : World :=
  mkWorld (f (self w)) (effects w) (tasks w) (REQUEST_RGB_COMMAND w).

Definition add_task (t : Task) (w : World) : World :=
  mkWorld (self w) (effects w) (tasks w ++ [t]) (REQUEST_RGB_COMMAND w).

Definition emit (e : Effect) : M unit := modify (add_effect e).

Definition update_self (f : Mario -> Mario) : M unit := modify (with_self f).

(** [asyncio.get_event_loop().create_task(coro)] *)
Definition create_task (t : Task) : M unit := modify (add_task t).

(** [data[i]] *)
Definition index (data : list Z) (i : nat) : M Z :=
  match data !! i with
  | Some b => mret b
  | None => raise IndexError
  end.

Definition CR : string := String "013"%char "".
Definition LF : string := String "010"%char "".

(** [for func in <list c>: func(self, *args)] *)
Definition call_hooks (c : HookList) (args : HookArgs) : M unit := fun w =>
  (Ok tt,
   fold_left (fun w' func => add_effect (HookCall c func args (self w')) w')
     (hooks c (self w)) w).

Definition _log (msg : string) (end_ : string) : M unit :=
  call_hooks LogEventHooks (ArgStr msg);;
  m ← gets self;
  if _doLog m then
    let address :=
      match _client m with
      | None => "Not Connected"
      | Some client => address client
      end in
    emit (Print (ljust 100 (CR +:+ address +:+ ": " +:+ msg) +:+ end_))
  else mret tt.

Definition _callTileHooks (tile : string) : M unit :=
  update_self (set_ground tile);;
  call_hooks TileEventHooks (ArgStr tile).

Definition _callAccelerometerHooks (x y z : Z) : M unit :=
  update_self (set_acceleration (x, y, z));;
  call_hooks AccelerometerEventHooks (ArgXYZ x y z).

Definition _callPantsHooks (powerup : string) : M unit :=
  update_self (set_pants powerup);;
  call_hooks PantsEventHooks (ArgStr powerup).

Section Driver.

Variable D : LEGO_MARIO_DATA.
Variable E : Env.

(** The gesture string of [_handle_events]: the labels of the keys of
    [BINARY_GESTURES] that share a bit with [integer_data], in the order of
    the dictionary. *)
Definition gesture_of (integer_data : Z) : string :=
  fold_left
    (fun gesture '(bin_gest, label) =>
       if Z.land integer_data bin_gest =? 0 then gesture else gesture +:+ label)
    (BINARY_GESTURES D) "".

(** [data] is never written to, so an element that is read several times
    in the source is read once here, at the place of its first read. *)
Definition _handle_events (sender : Z) (data : list Z) : M unit :=
  let hex_data := bytes_hex data in
  d2 ← index data 2;
  if d2 =? 0x45 then
    (* Port Value *)
    d3 ← index data 3;
    if d3 =? 0x01 then
      (* Camera Sensor Data *)
      d5 ← index data 5;
      d6 ← index data 6;
      if (d5 =? d6) && (d6 =? 0xff) then
        _log ("IDLE?, Hex: " +:+ hex_data) LF
      else if d5 =? 0x00 then
        (* RGB code *)
        d4 ← index data 4;
        let tile :=
          dict_get (HEX_TO_RGB_TILE D) d4 ("Unkown Tile Code: " +:+ hex d4) in
        update_self (set_recentTile tile);;
        _log (tile +:+ " Tile, Hex: " +:+ hex_data) LF;;
        _callTileHooks tile
      else if d5 =? 0xff then
        (* Ground Colors *)
        let color :=
          dict_get (HEX_TO_COLOR_TILE D) d6 ("Unkown Color: " +:+ hex d6) in
        _log (color +:+ " Ground, Hex: " +:+ hex_data) LF;;
        _callTileHooks color
      else mret tt
    else if d3 =? 0x00 then
      (* Accelerometer data *)
      if bool_decide (slice 4 6 data = slice_from 6 data) then
        (* Gesture Mode *)
        let integer_data := int_from_bytes_big (slice 4 6 data) in
        _log (gesture_of integer_data) LF
      else
        (* RAW Mode *)
        d4 ← index data 4;
        let x := signed d4 in
        d5 ← index data 5;
        let y := signed d5 in
        d6 ← index data 6;
        let z := signed d6 in
        _log ("X: " +:+ str_int x +:+ " Y: " +:+ str_int y +:+ " Z: " +:+ str_int z) "";;
        _callAccelerometerHooks x y z
    else if d3 =? 0x02 then
      (* Pants data *)
      d4 ← index data 4;
      let pants := dict_get (HEX_TO_PANTS D) d4 "Unkown" in
      let binary_pants := bin d4 in
      _log (pants +:+ " Pants, " +:+ "Pants-Only Binary: " +:+ binary_pants +:+ ","
            +:+ "Hex: " +:+ hex_data) LF;;
      _callPantsHooks pants
    else if d3 =? 0x03 then
      (* Port 3 data *)
      d4 ← index data 4;
      jumped ← (if d4 =? 0x13 then d5 ← index data 5; mret (d5 =? 0x01)
                else mret false);
      if jumped : bool then
        d6 ← index data 6;
        let tile := dict_get (HEX_TO_RGB_TILE D) d6 "Unkown Tile" in
        _log ("Port 3: Jumped on " +:+ tile +:+ ", Hex: " +:+ hex_data) LF
      else
        _log ("Unknown value from port 3: " +:+ bytes_hex (slice_from 4 data) +:+ ", "
              +:+ "Hex: " +:+ hex_data) LF
    else
      _log ("Unknown value from port " +:+ str_int d3 +:+ ": "
            +:+ bytes_hex (slice_from 4 data) +:+ ", Hex: " +:+ hex_data) LF
  else if d2 =? 0x02 then
    (* Hub Actions *)
    d3 ← index data 3;
    let action :=
      dict_get (HEX_TO_HUB_ACTIONS D) d3 ("Unkown Hub Action, Hex: " +:+ hex_data) in
    _log (action +:+ ", Hex: " +:+ hex_data) LF;;
    if d3 =? 0x31 then create_task TaskDisconnect else mret tt
  else if d2 =? 0x04 then
    (* Hub Attached I/O *)
    d4 ← index data 4;
    d3 ← index data 3;
    if negb (d4 =? 0) then
      _log ("Port " +:+ str_int d3 +:+ " got attached, Hex: " +:+ hex_data) LF
    else
      _log ("Port " +:+ str_int d3 +:+ " got detached, "
            +:+ "this shouldn't happen. Hex: " +:+ hex_data) LF
  else if d2 =? 0x47 then
    (* Port Input Format Handshake *)
    d3 ← index data 3;
    d4 ← index data 4;
    d9 ← index data 9;
    _log ("Port " +:+ str_int d3 +:+ " changed to mode " +:+ str_int d4 +:+ " "
          +:+ "with" +:+ (if d9 =? 0 then "out" else "") +:+ " notifications, "
          +:+ "Hex: " +:+ hex_data) LF
  else
    is_property ← (if d2 =? 0x01 then d4 ← index data 4; mret (d4 =? 0x06)
                   else mret false);
    if is_property : bool then
      d3 ← index data 3;
      let property := dict_get (HEX_TO_HUB_PROPERTIES D) d3 "Unknown Property" in
      _log ("Hub Update About " +:+ property +:+ ": "
            +:+ bytes_hex (slice_from 5 data) +:+ ", "
            +:+ "Hex: " +:+ hex_data) LF
    else
      _log ("Unknown message - check Lego Wireless Protocol, "
            +:+ "Hex: " +:+ hex_data) LF.

(** ** Transport operations *)

(** An awaited operation of the scanner or of the client: it is recorded,
    and completes or raises as the environment says. *)
Definition io (e : Effect) : M unit := fun w =>
  let now := length (effects w) in
  match transport E now with
  | None => (Ok tt, add_effect e w)
  | Some err => (Raise err, add_effect e w)
  end.

(** [await BleakScanner.discover()] *)
Definition scan : M (list BLEDevice) := fun w =>
  (Ok (discover E (length (effects w))), add_effect Discover w).

Definition lift {A : Type} (r : result A) : M A :=
  match r with
  | Ok a => mret a
  | Raise e => raise e
  end.

(** [except (OSError, BleakError)] and the bare [except] *)
Definition OSError_or_BleakError (e : exn) : bool :=
  match e with OSError | BleakError => true | _ => false end.

Definition any_exception (e : exn) : bool := true.

(** ** Command methods *)

Definition set_volume (new_volume : Z) : M unit :=
  let new_volume := Z.min (Z.max new_volume 0) 100 in
  m ← gets self;
  match _client m with
  | Some client =>
      try_except
        (command ← lift (bytearray (take 5 (MUTE_COMMAND D) ++ [new_volume]));
         create_task
           (TaskWriteGattChar client (LEGO_CHARACTERISTIC_UUID D) command))
        OSError_or_BleakError
        (_log "Connection error while setting volume" LF;;
         create_task TaskDisconnect)
  | None => mret tt
  end.

Definition disconnect : M unit :=
  try_except
    (_log "Disconnecting... " LF;;
     m ← gets self;
     match _client m with
     | Some client =>
         io (WriteGattChar client (LEGO_CHARACTERISTIC_UUID D) (DISCONNECT_COMMAND D));;
         io (ClientDisconnect client);;
         update_self (set_client None)
     | None => mret tt
     end)
    OSError_or_BleakError
    (_log "Connection error while disconnecting" LF;;
     update_self (set_client None));;
  m ← gets self;
  if _autoReconnect m then create_task TaskConnect
  else update_self (set_run false).

(** [command[3] = port] on the module-level [REQUEST_RGB_COMMAND] *)
Definition store_port (port : Z) : M (list Z) := fun w =>
  let command := REQUEST_RGB_COMMAND w in
  if decide (3 < length command)%nat then
    let command' := <[3%nat := port]> command in
    (Ok command', mkWorld (self w) (effects w) (tasks w) command')
  else (Raise IndexError, w).

Definition request_port_value (port : Z) : M unit :=
  if negb (bool_decide (port ∈ [0; 1; 2; 3; 4; 6])) then raise AssertionError
  else
    m ← gets self;
    match _client m with
    | Some client =>
        try_except
          (command ← store_port port;
           command ← lift (bytearray command);
           io (WriteGattChar client (LEGO_CHARACTERISTIC_UUID D) command))
          OSError_or_BleakError
          (_log "Connection error while requesting port value" LF;;
           disconnect)
    | None => mret tt
    end.

Definition turn_off : M unit :=
  try_except
    (_log "Turning Off... " LF;;
     m ← gets self;
     match _client m with
     | Some client =>
         io (WriteGattChar client (LEGO_CHARACTERISTIC_UUID D) (TURN_OFF_COMMAND D))
     | None => raise AttributeError   (* [None] has no [write_gatt_char] *)
     end;;
     disconnect)
    OSError_or_BleakError
    (_log "Connection error while turning off" LF;;
     disconnect).

(** ** Connecting *)

(** The test [d.name and (d.name.lower().startswith("lego luigi") or
    d.name.lower().startswith("lego mario"))] *)
Definition is_mario (d : BLEDevice) : bool :=
  match d_name d with
  | Some name =>
      negb (bool_decide (name = "")) &&
      (startswith (lower name) "lego luigi" || startswith (lower name) "lego mario")
  | None => false
  end.

(** The [try] block of [connect] for a device that passed the test. *)
Definition connect_to (d : BLEDevice) : M bool :=
  try_except
    (let client := {| address := d_address d |} in
     io (ClientConnect client);;
     update_self (set_client (Some client));;
     _log ("Mario Connected: " +:+ address client) LF;;
     (* subscribe to events *)
     io (StartNotify client (LEGO_CHARACTERISTIC_UUID D));;
     emit (Sleep 100);;
     io (WriteGattChar client (LEGO_CHARACTERISTIC_UUID D) (SUBSCRIBE_IMU_COMMAND D));;
     emit (Sleep 100);;
     io (WriteGattChar client (LEGO_CHARACTERISTIC_UUID D) (SUBSCRIBE_RGB_COMMAND D));;
     emit (Sleep 100);;
     io (WriteGattChar client (LEGO_CHARACTERISTIC_UUID D) (SUBSCRIBE_PANTS_COMMAND D));;
     (* [client.is_connected] is read here and the value dropped *)
     create_task TaskCheckConnectionLoop;;
     (* change volume to provided default *)
     m ← gets self;
     match defaultVolume m with
     | Some v => set_volume v
     | None => mret tt
     end;;
     mret true)
    any_exception
    (_log "Error connecting" LF;;
     disconnect;;
     mret false).

(** How the [while] loop of [connect] is left. *)
Inductive LoopExit :=
| Returned (b : bool)   (* a [return] inside the loop *)
| Broke                 (* [break], or the loop condition became false *)
| OutOfFuel.            (* the budget of the model ran out *)

(** [for d in devices]: the first device that passes the test ends the
    method, whatever the outcome of the attempt. *)
Fixpoint for_devices (devices : list BLEDevice) : M LoopExit :=
  match devices with
  | [] => mret Broke
  | d :: rest =>
      if is_mario d then b ← connect_to d; mret (Returned b)
      else for_devices rest
  end.

Fixpoint connect_loop (fuel : nat) (retries : Z) : M LoopExit :=
  match fuel with
  | O => mret OutOfFuel
  | S fuel' =>
      m ← gets self;
      if _run m then
        let retries := retries + 1 in
        if retries >? 3 then
          _log "Stopped after 3 attempts, disconnecting..." LF;;
          mret Broke
        else
          _log "Searching for device..." LF;;
          devices ← scan;
          r ← for_devices devices;
          match r with
          | Returned b => mret (Returned b)
          | _ => connect_loop fuel' retries
          end
      else mret Broke
  end.

(** [connect] returns [None] only if the loop budget was too small, which
    does not happen ([connect_fuel]). *)
Definition connect : M (option bool) :=
  update_self (set_run true);;
  let retries := 0 in
  r ← connect_loop 4 retries;
  match r with
  | Returned b => mret (Some b)
  | Broke => disconnect;; mret (Some false)
  | OutOfFuel => mret None
  end.

(** One turn of the [while self._client] loop of [check_connection_loop];
    the turns that follow the [sleep] are a task of their own. *)
Definition check_connection_loop : M unit :=
  m ← gets self;
  match _client m with
  | Some client =>
      try_except
        (connected ← gets (fun w => is_connected E (length (effects w)));
         (if negb connected then
            _log "Disconnect detected during connection check" LF;;
            disconnect
          else mret tt);;
         emit (Sleep 3000))
        OSError_or_BleakError
        (_log "Error during connection check" LF;;
         disconnect);;
      create_task TaskCheckConnectionLoop
  | None => mret tt
  end.

(** ** The constructor and the event loop *)

Definition Mario_init (doLog : bool)
    (accelerometerEventHooks tileEventHooks pantsEventHooks logEventHooks : pyobj)
    (defaultVolume : option Z) : World :=
  let m := mkMario doLog false true None defaultVolume None None None None [] [] [] [] in
  let m := AddAccelerometerHook accelerometerEventHooks m in
  let m := AddTileHook tileEventHooks m in
  let m := AddPantsHook pantsEventHooks m in
  let m := AddLogHook logEventHooks m in
  mkWorld m [] [TaskConnect] (REQUEST_RGB_COMMAND_0 D).

Definition run_task (t : Task) : M unit :=
  match t with
  | TaskConnect => connect;; mret tt
  | TaskDisconnect => disconnect
  | TaskCheckConnectionLoop => check_connection_loop
  | TaskWriteGattChar client uuid command => io (WriteGattChar client uuid command)
  end.

Definition pop_task : M (option Task) := fun w =>
  match tasks w with
  | [] => (Ok None, w)
  | t :: rest => (Ok (Some t), mkWorld (self w) (effects w) rest (REQUEST_RGB_COMMAND w))
  end.

(** [run()]: tasks are run in the order of their creation, each to its end,
    until none is left; an exception that leaves a task leaves [run].  The
    result tells whether the queue was emptied within [fuel] tasks. *)
Fixpoint run (fuel : nat) : M bool :=
  match fuel with
  | O => ts ← gets tasks; mret (match ts with [] => true | _ :: _ => false end)
  | S fuel' =>
      t ← pop_task;
      match t with
      | Some t => run_task t;; run fuel'
      | None => mret true
      end
  end.

End Driver.

(** ** Vocabulary of the statements *)

Definition add_effects (es : list Effect) (w : World) : World :=
  mkWorld (self w) (effects w ++ es) (tasks w) (REQUEST_RGB_COMMAND w).

(** The calls made by one pass over hook list [c] of session [m]. *)
Definition hook_calls (c : HookList) (args : HookArgs) (m : Mario) : list Effect :=
  map (fun func => HookCall c func args m) (hooks c m).

(** The effects of [self._log(msg, end)] on session [m]. *)
Definition log_effects (m : Mario) (msg end_ : string) : list Effect :=
  hook_calls LogEventHooks (ArgStr msg) m ++
  (if _doLog m then
     [Print (ljust 100
               (CR +:+ match _client m with
                       | None => "Not Connected"
                       | Some client => address client
                       end +:+ ": " +:+ msg) +:+ end_)]
   else []).

Definition is_scan (e : Effect) : bool :=
  match e with Discover => true | _ => false end.

(** The number of scans among the effects. *)
Definition scans (es : list Effect) : nat := length (filter is_scan es).

(** The hooks that were called, in the order of the calls. *)
Definition called (c : HookList) (es : list Effect) : list Hook :=
  omap (fun e => match e with
                 | HookCall c' func _ _ => if decide (c' = c) then Some func else None
                 | _ => None
                 end) es.

(** The cached reading a hook call finds is the one it is called with. *)
Definition cache_current (e : Effect) : Prop :=
  match e with
  | HookCall TileEventHooks _ (ArgStr tile) sender => ground sender = Some tile
  | HookCall AccelerometerEventHooks _ (ArgXYZ x y z) sender =>
      acceleration sender = Some (x, y, z)
  | HookCall PantsEventHooks _ (ArgStr powerup) sender => pants sender = Some powerup
  | HookCall LogEventHooks _ _ _ => True
  | HookCall _ _ _ _ => False
  | _ => True
  end.

(** The session has given up: [connect] is not running and nothing is left
    to run. *)
Definition Stopped (w : World) : Prop := _run (self w) = false /\ tasks w = [].

Definition is_byte (v : Z) : Prop := 0 <= v < 256.

(** A computation that always returns. *)
Definition total {A : Type} (m : M A) : Prop :=
  forall w, exists a w', m w = (Ok a, w').

(** A computation that only reads: it returns, or raises [IndexError], and
    leaves the world as it was. *)
Definition reader {A : Type} (m : M A) : Prop :=
  forall w, (exists a, m w = (Ok a, w)) \/ m w = (Raise IndexError, w).

(** A computation that returns or else raises [IndexError] without having
    changed the world. *)
Definition fails_clean {A : Type} (m : M A) : Prop :=
  forall w, (exists a w', m w = (Ok a, w')) \/ m w = (Raise IndexError, w).

(** The callables inside an argument, in the order the registration
    methods meet them. *)
Fixpoint callables (funcs : pyobj) : list Hook :=
  match funcs with
  | PyFunc f => [f]
  | PyList items => concat (map callables items)
  | PyNone | PyInt _ => []
  end.

(** [l] after [if f in l: l.remove(f)]. *)
Definition without_first (f : Hook) (l : list Hook) : list Hook :=
  default l (list_remove f l).

(** The name [_handle_events] gives to a tile code. *)
Definition tile_name (D : LEGO_MARIO_DATA) (code : Z) : string :=
  dict_get (HEX_TO_RGB_TILE D) code ("Unkown Tile Code: " +:+ hex code).

(** The line [_handle_events] logs for a raw accelerometer reading. *)
Definition xyz_message (x y z : Z) : string :=
  "X: " +:+ str_int x +:+ " Y: " +:+ str_int y +:+ " Z: " +:+ str_int z.

(** A computation in which every hook call finds the cached reading it is
    called with. *)
Definition cache_first {A : Type} (m : M A) : Prop :=
  forall w, exists r w' new,
    m w = (r, w') /\ effects w' = effects w ++ new /\ Forall cache_current new.

(** What one unsuccessful turn of the loop of [connect] does. *)
Definition search_effects (m : Mario) : list Effect :=
  log_effects m "Searching for device..." LF ++ [Discover].

(** What [connect] does when none of its scans finds a device. *)
Definition exhausted_effects (m : Mario) : list Effect :=
  search_effects m ++ search_effects m ++ search_effects m ++
  log_effects m "Stopped after 3 attempts, disconnecting..." LF ++
  log_effects m "Disconnecting... " LF.

(** No scan ever finds a device that passes the name test. *)
Definition nothing_found (E : Env) : Prop :=
  forall t, forallb (fun d => negb (is_mario d)) (discover E t) = true.

(** ** Sample data for the closed examples *)

Definition sample_data : LEGO_MARIO_DATA := {|
  HEX_TO_RGB_TILE := {[ 0xb8 := "Start" ]};
  HEX_TO_COLOR_TILE := {[ 0x13 := "White" ]};
  HEX_TO_PANTS := {[ 0x21 := "Mario" ]};
  HEX_TO_HUB_ACTIONS := {[ 0x31 := "Hub Will Disconnect" ]};
  HEX_TO_HUB_PROPERTIES := ∅;
  BINARY_GESTURES := [(1, "Bump"); (2, "Shake")];
  LEGO_CHARACTERISTIC_UUID := "00001624-1212-efde-1623-785feabcd123";
  SUBSCRIBE_IMU_COMMAND := [0x0A; 0x00; 0x41; 0x00; 0x00; 0x05; 0x00; 0x00; 0x00; 0x01];
  SUBSCRIBE_RGB_COMMAND := [0x0A; 0x00; 0x41; 0x01; 0x00; 0x05; 0x00; 0x00; 0x00; 0x01];
  SUBSCRIBE_PANTS_COMMAND := [0x0A; 0x00; 0x41; 0x02; 0x00; 0x05; 0x00; 0x00; 0x00; 0x01];
  REQUEST_RGB_COMMAND_0 := [0x05; 0x00; 0x21; 0x01; 0x00];
  MUTE_COMMAND := [0x06; 0x00; 0x01; 0x12; 0x01; 0x00];
  DISCONNECT_COMMAND := [0x04; 0x00; 0x02; 0x02];
  TURN_OFF_COMMAND := [0x04; 0x00; 0x02; 0x01]
|}.

(** A radio that finds nothing and never fails. *)
Definition silent_radio : Env := {|
  discover := fun _ => [];
  transport := fun _ => None;
  is_connected := fun _ => true
|}.

(** A session with tile hooks [1; 2], pants hook [3] and log hook [9]. *)
Definition sample_world : World :=
  Mario_init sample_data false PyNone (PyList [PyFunc 1%nat; PyFunc 2%nat])
    (PyFunc 3%nat) (PyFunc 9%nat) None.

(** The same session once connected. *)
Definition connected_world : World :=
  with_self (set_client (Some {| address := "AA:BB" |})) sample_world.

(** ** Vocabulary of the further properties *)

(** Two sessions that agree on everything but the hook lists. *)
Definition same_state (m m' : Mario) : Prop :=
  _doLog m' = _doLog m /\ _run m' = _run m /\
  _autoReconnect m' = _autoReconnect m /\ _client m' = _client m /\
  defaultVolume m' = defaultVolume m /\ pants m' = pants m /\
  ground m' = ground m /\ acceleration m' = acceleration m /\
  recentTile m' = recentTile m.

(** The names [_handle_events] gives to a ground colour code and to a pants
    code. *)
Definition color_name (D : LEGO_MARIO_DATA) (code : Z) : string :=
  dict_get (HEX_TO_COLOR_TILE D) code ("Unkown Color: " +:+ hex code).

Definition pants_name (D : LEGO_MARIO_DATA) (code : Z) : string :=
  dict_get (HEX_TO_PANTS D) code "Unkown".

(** The line [_handle_events] logs for a pants frame. *)
Definition pants_message (D : LEGO_MARIO_DATA) (code : Z) (data : list Z) : string :=
  pants_name D code +:+ " Pants, " +:+ "Pants-Only Binary: " +:+ bin code +:+ ","
  +:+ "Hex: " +:+ bytes_hex data.

(** The line [_handle_events] logs for a hub action. *)
Definition action_message (D : LEGO_MARIO_DATA) (code : Z) (data : list Z) : string :=
  dict_get (HEX_TO_HUB_ACTIONS D) code ("Unkown Hub Action, Hex: " +:+ bytes_hex data)
  +:+ ", Hex: " +:+ bytes_hex data.

(** The line [_handle_events] logs for a port mode acknowledgment. *)
Definition port_mode_message (d3 d4 d9 : Z) (data : list Z) : string :=
  "Port " +:+ str_int d3 +:+ " changed to mode " +:+ str_int d4 +:+ " "
  +:+ "with" +:+ (if d9 =? 0 then "out" else "") +:+ " notifications, "
  +:+ "Hex: " +:+ bytes_hex data.

(** Two sessions that agree on the hook lists and on everything that is not
    a cached reading. *)
Definition kept (m m' : Mario) : Prop :=
  (forall c, hooks c m' = hooks c m) /\
  _doLog m' = _doLog m /\ _run m' = _run m /\
  _autoReconnect m' = _autoReconnect m /\ _client m' = _client m /\
  defaultVolume m' = defaultVolume m.

(** An effect that stays inside the process: a hook call or a printed line. *)
Definition is_local (e : Effect) : Prop :=
  match e with
  | HookCall _ _ _ _ | Print _ => True
  | _ => False
  end.

Definition is_print (e : Effect) : bool :=
  match e with Print _ => true | _ => false end.

(** A computation that touches nothing but the cached readings, does
    nothing outside the process, prints nothing when logging is off, and
    schedules nothing but [disconnect]. *)
Definition decodes {A : Type} (m : M A) : Prop :=
  forall w r w', m w = (r, w') ->
    kept (self w) (self w') /\
    REQUEST_RGB_COMMAND w' = REQUEST_RGB_COMMAND w /\
    exists new ts,
      effects w' = effects w ++ new /\ tasks w' = tasks w ++ ts /\
      Forall is_local new /\
      (_doLog (self w) = false -> Forall (fun e => is_print e = false) new) /\
      Forall (fun t => t = TaskDisconnect) ts.

(** A radio whose transport operations all complete. *)
Definition reliable (E : Env) : Prop := forall t, transport E t = None.

(** A radio whose transport operations raise nothing but [OSError] and
    [BleakError]. *)
Definition tame (E : Env) : Prop :=
  forall t e, transport E t = Some e -> OSError_or_BleakError e = true.

(** The transport operations [connect] performs on a fresh client, the
    pauses between them included. *)
Definition subscribe_effects (D : LEGO_MARIO_DATA) (client : BleakClient) : list Effect :=
  [StartNotify client (LEGO_CHARACTERISTIC_UUID D);
   Sleep 100;
   WriteGattChar client (LEGO_CHARACTERISTIC_UUID D) (SUBSCRIBE_IMU_COMMAND D);
   Sleep 100;
   WriteGattChar client (LEGO_CHARACTERISTIC_UUID D) (SUBSCRIBE_RGB_COMMAND D);
   Sleep 100;
   WriteGattChar client (LEGO_CHARACTERISTIC_UUID D) (SUBSCRIBE_PANTS_COMMAND D)].

(** The tasks a successful [connect] schedules. *)
Definition connected_tasks (D : LEGO_MARIO_DATA) (client : BleakClient)
    (volume : option Z) : list Task :=
  TaskCheckConnectionLoop ::
  match volume with
  | Some v =>
      [TaskWriteGattChar client (LEGO_CHARACTERISTIC_UUID D)
         (take 5 (MUTE_COMMAND D) ++ [Z.min (Z.max v 0) 100])]
  | None => []
  end.

(** A computation that does not scan. *)
Definition scanless {A : Type} (m : M A) : Prop :=
  forall w r w', m w = (r, w') ->
    exists new, effects w' = effects w ++ new /\ scans new = 0%nat.

(** A radio on which every transport operation raises [err]. *)
Definition broken_radio (err : exn) : Env := {|
  discover := fun _ => [];
  transport := fun _ => Some err;
  is_connected := fun _ => false
|}.

(** A radio that always finds one Mario and never fails. *)
Definition friendly_radio : Env := {|
  discover := fun _ =>
    [{| d_name := None; d_address := "00:01" |};
     {| d_name := Some "LEGO Mario_j_r"; d_address := "AA:BB" |}];
  transport := fun _ => None;
  is_connected := fun _ => true
|}.

(** A radio that finds the same Mario and cannot connect to it. *)
Definition refusing_radio : Env := {|
  discover := fun _ =>
    [{| d_name := None; d_address := "00:01" |};
     {| d_name := Some "LEGO Mario_j_r"; d_address := "AA:BB" |}];
  transport := fun _ => Some AttributeError;
  is_connected := fun _ => false
|}.

(** The sample session after [_autoReconnect] has been cleared. *)
Definition stopping_world : World :=
  with_self (set_autoReconnect false) sample_world.

(** * Properties *)

(** ** Formatting *)

Example formatting_examples :
  hex 0 = "0x0" /\ hex 10 = "0xa" /\ hex 184 = "0xb8" /\ hex 255 = "0xff" /\
  bin 5 = "0b101" /\ bin 0 = "0b0" /\ bytes_hex [8; 0; 69; 1; 184] = "08004501b8" /\
  lower "LEGO Mario_j_r" = "lego mario_j_r" /\
  startswith "lego mario_j_r" "lego mario" = true /\
  ljust 5 "ab" = "ab   " /\ int_from_bytes_big [1; 2] = 258.
Proof. repeat split; reflexivity. Qed.

(** ** Hook lists *)

Lemma hooks_set_hooks (c c' : HookList) (l : list Hook) (m : Mario) :
  hooks c' (set_hooks c l m) = if decide (c = c') then l else hooks c' m.
Proof. destruct c, c'; reflexivity. Qed.

Lemma set_hooks_hooks (c : HookList) (m : Mario) : set_hooks c (hooks c m) m = m.
Proof. destruct c, m; reflexivity. Qed.

Lemma add_hooks_callable (c : HookList) (f : Hook) (m : Mario) :
  hooks c (add_hooks c (PyFunc f) m) = hooks c m ++ [f].
Proof. simpl. rewrite hooks_set_hooks. by rewrite decide_True. Qed.

(** Induction on a value and, for a list, on each of its items. *)
Lemma pyobj_nested_ind (P : pyobj -> Prop) :
  P PyNone -> (forall n, P (PyInt n)) -> (forall f, P (PyFunc f)) ->
  (forall items, Forall P items -> P (PyList items)) ->
  forall o, P o.
Proof.
  intros HNone HInt HFunc HList. fix rec 1.
  intros [| n | f | items]; [exact HNone | apply HInt | apply HFunc |].
  apply HList. induction items as [| x l IH]; constructor; [apply rec | exact IH].
Qed.

Lemma add_hooks_other (c c' : HookList) (funcs : pyobj) (m : Mario) :
  c <> c' -> hooks c' (add_hooks c funcs m) = hooks c' m.
Proof.
  intros Hne. revert m.
  induction funcs as [| n | f | items IH] using pyobj_nested_ind;
    intros m; simpl; try reflexivity.
  - rewrite hooks_set_hooks. by rewrite decide_False.
  - revert m. induction IH as [| x l Hx _ IHl]; intros m; simpl; [done |].
    by rewrite IHl, Hx.
Qed.

Lemma set_hooks_twice (c : HookList) (l1 l2 : list Hook) (m : Mario) :
  set_hooks c l2 (set_hooks c l1 m) = set_hooks c l2 m.
Proof. destruct c; reflexivity. Qed.

(** Registration appends the callables of its argument, in order, to the
    one list it is for, and changes nothing else. *)
Lemma add_hooks_appends (c : HookList) (funcs : pyobj) (m : Mario) :
  add_hooks c funcs m = set_hooks c (hooks c m ++ callables funcs) m.
Proof.
  revert m.
  induction funcs as [| n | f | items IH] using pyobj_nested_ind; intros m; simpl.
  - by rewrite app_nil_r, set_hooks_hooks.
  - by rewrite app_nil_r, set_hooks_hooks.
  - reflexivity.
  - revert m. induction IH as [| x l Hx _ IHl]; intros m; simpl.
    + by rewrite app_nil_r, set_hooks_hooks.
    + rewrite IHl, Hx, set_hooks_twice, hooks_set_hooks, decide_True by done.
      by rewrite (assoc_L (++)).
Qed.

Lemma add_hooks_hooks (c : HookList) (funcs : pyobj) (m : Mario) :
  hooks c (add_hooks c funcs m) = hooks c m ++ callables funcs.
Proof. rewrite add_hooks_appends, hooks_set_hooks. by rewrite decide_True. Qed.

Lemma add_hooks_repeat (c : HookList) (f : Hook) (n : nat) (m : Mario) :
  hooks c (Nat.iter n (add_hooks c (PyFunc f)) m) = hooks c m ++ replicate n f.
Proof.
  induction n as [| n IH].
  - simpl. by rewrite app_nil_r.
  - rewrite Nat.iter_succ, add_hooks_callable, IH, <- (assoc_L (++)). f_equal.
    clear IH. induction n as [| n IH]; [done |]. simpl. by rewrite IH.
Qed.

(** ** [list.remove] *)

Lemma list_remove_first (x : Hook) (l1 l2 : list Hook) :
  x ∉ l1 -> list_remove x (l1 ++ x :: l2) = Some (l1 ++ l2).
Proof.
  induction l1 as [| y l1 IH]; intros Hnot; simpl.
  - by rewrite decide_True.
  - apply not_elem_of_cons in Hnot as [Hne Hnot].
    rewrite decide_False by done. by rewrite (IH Hnot).
Qed.

Lemma list_remove_absent (x : Hook) (l : list Hook) :
  x ∉ l -> list_remove x l = None.
Proof.
  induction l as [| y l IH]; intros Hnot; simpl; [done |].
  apply not_elem_of_cons in Hnot as [Hne Hnot].
  rewrite decide_False by done. by rewrite (IH Hnot).
Qed.

Lemma elem_of_first_split (x : Hook) (l : list Hook) :
  x ∈ l -> exists l1 l2, l = l1 ++ x :: l2 /\ x ∉ l1.
Proof.
  induction l as [| y l IH]; intros Hin; [by apply elem_of_nil in Hin |].
  destruct (decide (x = y)) as [-> | Hne].
  - exists [], l. split; [done | apply not_elem_of_nil].
  - apply elem_of_cons in Hin as [? | Hin]; [done |].
    destruct (IH Hin) as (l1 & l2 & -> & Hnot).
    exists (y :: l1), l2. split; [done |].
    apply not_elem_of_cons. by split.
Qed.

Lemma list_remove_count (x y : Hook) (l l' : list Hook) :
  list_remove x l = Some l' ->
  count_occ Nat.eq_dec l y = (count_occ Nat.eq_dec l' y + if decide (x = y) then 1 else 0)%nat.
Proof.
  revert l'. induction l as [| z l IH]; intros l' Hrem; simpl in Hrem; [done |].
  destruct (decide (x = z)) as [-> | Hne].
  - injection Hrem as <-. simpl.
    destruct (Nat.eq_dec z y), (decide (z = y)); try done; lia.
  - destruct (list_remove x l) as [l0 |] eqn:Hl; [| done].
    injection Hrem as <-. simpl. rewrite (IH l0 eq_refl).
    destruct (Nat.eq_dec z y); lia.
Qed.

Lemma remove_from_spec (f : Hook) (lists : list HookList) (m : Mario) :
  NoDup lists ->
  exists m', remove_from f lists m = Ok m' /\
    (forall c, hooks c m' = if decide (c ∈ lists) then without_first f (hooks c m)
                            else hooks c m) /\
    ((forall c, c ∈ lists -> f ∉ hooks c m) -> m' = m).
Proof.
  intros Hnd. revert m.
  induction Hnd as [| c0 rest Hnotin Hnd IH]; intros m; cbn [remove_from].
  - exists m. split; [done |]. split; [| done].
    intros c. case_decide as Hc; [by apply elem_of_nil in Hc | done].
  - destruct (decide (f ∈ hooks c0 m)) as [Hin | Hout].
    + destruct (elem_of_first_split _ _ Hin) as (l1 & l2 & Heq & Hl1).
      rewrite Heq, (list_remove_first _ _ _ Hl1).
      destruct (IH (set_hooks c0 (l1 ++ l2) m)) as (m' & Hrun & Hhooks & _).
      exists m'. split; [done |]. split.
      * intros c. rewrite Hhooks, hooks_set_hooks.
        destruct (decide (c0 = c)) as [<- | Hne].
        -- rewrite (decide_False (P := c0 ∈ rest)) by done.
           rewrite (decide_True (P := c0 ∈ c0 :: rest)) by apply list_elem_of_here.
           unfold without_first. by rewrite Heq, (list_remove_first _ _ _ Hl1).
        -- destruct (decide (c ∈ rest)) as [Hr | Hr].
           ++ rewrite decide_True; [done | by apply list_elem_of_further].
           ++ rewrite decide_False; [done |].
              intros [? | ?]%elem_of_cons; congruence.
      * intros Habs. exfalso. apply (Habs c0); [apply list_elem_of_here | done].
    + destruct (IH m) as (m' & Hrun & Hhooks & Hsame).
      exists m'. split; [done |]. split.
      * intros c. rewrite Hhooks.
        destruct (decide (c ∈ rest)) as [Hr | Hr].
        -- rewrite decide_True; [done | by apply list_elem_of_further].
        -- destruct (decide (c = c0)) as [-> | Hne].
           ++ rewrite decide_True by apply list_elem_of_here.
              unfold without_first. by rewrite (list_remove_absent _ _ Hout).
           ++ rewrite decide_False; [done |].
              intros [? | ?]%elem_of_cons; congruence.
      * intros Habs. apply Hsame. intros c Hc. apply Habs.
        by apply list_elem_of_further.
Qed.

Lemma ALLHOOKS_complete (c : HookList) : c ∈ ALLHOOKS.
Proof. destruct c; by apply (bool_decide_unpack _). Qed.

Lemma ALLHOOKS_NoDup : NoDup ALLHOOKS.
Proof. by apply (bool_decide_unpack _). Qed.

(** ** The monad *)

Lemma bind_ok {A B : Type} (m : M A) (k : A -> M B) (w w' : World) (a : A) :
  m w = (Ok a, w') -> (m ≫= k) w = k a w'.
Proof. intros H. unfold mbind, M_bind. by rewrite H. Qed.

Lemma bind_raise {A B : Type} (m : M A) (k : A -> M B) (w w' : World) (e : exn) :
  m w = (Raise e, w') -> (m ≫= k) w = (Raise e, w').
Proof. intros H. unfold mbind, M_bind. by rewrite H. Qed.

Lemma add_effects_nil (w : World) : add_effects [] w = w.
Proof. destruct w. unfold add_effects. simpl. by rewrite app_nil_r. Qed.

Lemma add_effects_app (es1 es2 : list Effect) (w : World) :
  add_effects es2 (add_effects es1 w) = add_effects (es1 ++ es2) w.
Proof. unfold add_effects. simpl. by rewrite (assoc_L (++)). Qed.

Lemma add_effect_add_effects (e : Effect) (w : World) :
  add_effect e w = add_effects [e] w.
Proof. reflexivity. Qed.

(** ** Dispatch *)

Lemma fold_calls (c : HookList) (args : HookArgs) (l : list Hook) (w : World) :
  fold_left (fun w' func => add_effect (HookCall c func args (self w')) w') l w
  = add_effects (map (fun func => HookCall c func args (self w)) l) w.
Proof.
  revert w. induction l as [| f l IH]; intros w; simpl.
  - by rewrite add_effects_nil.
  - rewrite IH. simpl. by rewrite add_effect_add_effects, add_effects_app.
Qed.

(** One pass over a hook list calls every entry once, in the order of the
    list, each with the same arguments and the same session. *)
Lemma call_hooks_spec (c : HookList) (args : HookArgs) (w : World) :
  call_hooks c args w = (Ok tt, add_effects (hook_calls c args (self w)) w).
Proof. unfold call_hooks, hook_calls. by rewrite fold_calls. Qed.

Lemma _log_spec (msg end_ : string) (w : World) :
  _log msg end_ w = (Ok tt, add_effects (log_effects (self w) msg end_) w).
Proof.
  unfold _log. rewrite (bind_ok _ _ _ _ _ (call_hooks_spec _ _ _)).
  unfold mbind, M_bind, gets, log_effects. simpl.
  destruct (_doLog (self w)).
  - unfold emit, modify. by rewrite add_effect_add_effects, add_effects_app.
  - unfold mret, M_ret. by rewrite app_nil_r.
Qed.

Lemma _callTileHooks_spec (tile : string) (w : World) :
  _callTileHooks tile w =
  (Ok tt, add_effects (hook_calls TileEventHooks (ArgStr tile) (set_ground tile (self w)))
            (with_self (set_ground tile) w)).
Proof.
  unfold _callTileHooks, update_self, modify, mbind, M_bind.
  by rewrite call_hooks_spec.
Qed.

Lemma _callAccelerometerHooks_spec (x y z : Z) (w : World) :
  _callAccelerometerHooks x y z w =
  (Ok tt, add_effects (hook_calls AccelerometerEventHooks (ArgXYZ x y z)
                         (set_acceleration (x, y, z) (self w)))
            (with_self (set_acceleration (x, y, z)) w)).
Proof.
  unfold _callAccelerometerHooks, update_self, modify, mbind, M_bind.
  by rewrite call_hooks_spec.
Qed.

Lemma _callPantsHooks_spec (powerup : string) (w : World) :
  _callPantsHooks powerup w =
  (Ok tt, add_effects (hook_calls PantsEventHooks (ArgStr powerup) (set_pants powerup (self w)))
            (with_self (set_pants powerup) w)).
Proof.
  unfold _callPantsHooks, update_self, modify, mbind, M_bind.
  by rewrite call_hooks_spec.
Qed.

Lemma called_app (c : HookList) (es1 es2 : list Effect) :
  called c (es1 ++ es2) = called c es1 ++ called c es2.
Proof. unfold called. apply omap_app. Qed.

Lemma called_hook_calls (c c' : HookList) (args : HookArgs) (m : Mario) :
  called c (hook_calls c' args m) = if decide (c' = c) then hooks c' m else [].
Proof.
  unfold called, hook_calls.
  destruct (decide (c' = c)) as [Heq | Hne];
    induction (hooks c' m) as [| f l IH]; [done | | done |].
  - cbn [map omap list_omap]. rewrite decide_True by done. f_equal. exact IH.
  - cbn [map omap list_omap]. rewrite decide_False by done. exact IH.
Qed.

Lemma called_log_effects (c : HookList) (m : Mario) (msg end_ : string) :
  called c (log_effects m msg end_) = if decide (LogEventHooks = c) then hooks LogEventHooks m else [].
Proof.
  unfold log_effects. rewrite called_app, called_hook_calls.
  destruct (_doLog m); simpl; by rewrite app_nil_r.
Qed.

(** C9: an argument that is neither callable nor iterable, such as [None],
    makes each of [AddTileHook], [AddAccelerometerHook], [AddPantsHook] and
    [AddLogHook] return without an error and with the session, hence every
    hook list, exactly as it was. *)
Theorem add_hook_ignores_other_values (funcs : pyobj) (m : Mario) :
  callable funcs = false -> has_iter funcs = false ->
  AddTileHook funcs m = m /\ AddAccelerometerHook funcs m = m /\
  AddPantsHook funcs m = m /\ AddLogHook funcs m = m.
Proof. intros Hc Hi. destruct funcs; try discriminate; repeat split. Qed.

Lemma add_hook_ignores_other_values_witness :
  callable PyNone = false /\ has_iter PyNone = false /\
  AddTileHook PyNone (self sample_world) = self sample_world /\
  AddAccelerometerHook PyNone (self sample_world) = self sample_world /\
  AddPantsHook PyNone (self sample_world) = self sample_world /\
  AddLogHook PyNone (self sample_world) = self sample_world.
Proof.
  split; [reflexivity |]. split; [reflexivity |].
  apply (add_hook_ignores_other_values PyNone (self sample_world)); reflexivity.
Defined.

(** The constructor called with its defaults leaves the four lists empty. *)
Lemma Mario_init_defaults (D : LEGO_MARIO_DATA) (doLog : bool) (volume : option Z)
    (c : HookList) :
  hooks c (self (Mario_init D doLog PyNone PyNone PyNone PyNone volume)) = [].
Proof. by destruct c. Qed.

(** C10: [RemoveEventsHook(f)] for a callable [f] returns normally; in every
    hook list that holds [f] it removes the first occurrence and nothing
    else, so later duplicates keep their place and are called by the next
    pass over the list; a list that does not hold [f] is unchanged, and when
    no list holds [f] the session is unchanged. *)
Theorem RemoveEventsHook_removes_first (f : Hook) (m : Mario) :
  exists m', RemoveEventsHook (PyFunc f) m = Ok m' /\
    (forall c l1 l2, hooks c m = l1 ++ f :: l2 -> f ∉ l1 -> hooks c m' = l1 ++ l2) /\
    (forall c, f ∉ hooks c m -> hooks c m' = hooks c m) /\
    ((forall c, f ∉ hooks c m) -> m' = m) /\
    (forall c args w l1 l2, self w = m' -> hooks c m = l1 ++ f :: l2 -> f ∉ l1 ->
       exists w', call_hooks c args w = (Ok tt, w') /\
         called c (effects w') = called c (effects w) ++ l1 ++ l2).
Proof.
  destruct (remove_from_spec f ALLHOOKS m ALLHOOKS_NoDup) as (m' & Hrun & Hhooks & Hsame).
  assert (Hfirst : forall c l1 l2,
             hooks c m = l1 ++ f :: l2 -> f ∉ l1 -> hooks c m' = l1 ++ l2).
  { intros c l1 l2 Heq Hl1. rewrite Hhooks, decide_True by apply ALLHOOKS_complete.
    unfold without_first. by rewrite Heq, list_remove_first. }
  exists m'. split; [exact Hrun |]. split; [exact Hfirst |]. split; [| split].
  - intros c Habs. rewrite Hhooks, decide_True by apply ALLHOOKS_complete.
    unfold without_first. by rewrite list_remove_absent.
  - intros Habs. apply Hsame. intros c _. apply Habs.
  - intros c args w l1 l2 Hw Heq Hl1. eexists. split; [apply call_hooks_spec |].
    simpl. rewrite called_app, called_hook_calls, decide_True by done.
    by rewrite Hw, (Hfirst c l1 l2).
Qed.

Lemma RemoveEventsHook_removes_first_witness :
  exists m',
    RemoveEventsHook (PyFunc 1%nat)
      (AddTileHook (PyList [PyFunc 1%nat; PyFunc 2%nat; PyFunc 1%nat]) (self sample_world))
    = Ok m' /\
    hooks TileEventHooks m' = [2; 1; 2; 1]%nat.
Proof.
  destruct (RemoveEventsHook_removes_first 1%nat
              (AddTileHook (PyList [PyFunc 1%nat; PyFunc 2%nat; PyFunc 1%nat])
                 (self sample_world)))
    as (m' & Hrun & Hfirst & _).
  exists m'. split; [exact Hrun |].
  apply (Hfirst TileEventHooks [] [2; 1; 2; 1]%nat); [reflexivity | apply not_elem_of_nil].
Defined.

(** ** Computations that return, read, or fail before they write *)

Create HintDb mario discriminated.

Lemma total_mret {A : Type} (a : A) : total (mret a : M A).
Proof. intros w. by exists a, w. Qed.

Lemma total_bind {A B : Type} (m : M A) (k : A -> M B) :
  total m -> (forall a, total (k a)) -> total (m ≫= k).
Proof.
  intros Hm Hk w. destruct (Hm w) as (a & w1 & H1).
  destruct (Hk a w1) as (b & w2 & H2). exists b, w2.
  by rewrite (bind_ok _ _ _ _ _ H1).
Qed.

Lemma total_modify (f : World -> World) : total (modify f).
Proof. intros w. by exists tt, (f w). Qed.

Lemma total_log (msg end_ : string) : total (_log msg end_).
Proof. intros w. eexists _, _. apply _log_spec. Qed.

Lemma total_callTileHooks (tile : string) : total (_callTileHooks tile).
Proof. intros w. eexists _, _. apply _callTileHooks_spec. Qed.

Lemma total_callAccelerometerHooks (x y z : Z) : total (_callAccelerometerHooks x y z).
Proof. intros w. eexists _, _. apply _callAccelerometerHooks_spec. Qed.

Lemma total_callPantsHooks (powerup : string) : total (_callPantsHooks powerup).
Proof. intros w. eexists _, _. apply _callPantsHooks_spec. Qed.

Lemma reader_mret {A : Type} (a : A) : reader (mret a : M A).
Proof. intros w. left. by exists a. Qed.

Lemma reader_index (data : list Z) (i : nat) : reader (index data i).
Proof.
  intros w. unfold index. destruct (data !! i) as [b |].
  - left. by exists b.
  - by right.
Qed.

Lemma reader_bind {A B : Type} (m : M A) (k : A -> M B) :
  reader m -> (forall a, reader (k a)) -> reader (m ≫= k).
Proof.
  intros Hm Hk w. destruct (Hm w) as [(a & H1) | H1].
  - rewrite (bind_ok _ _ _ _ _ H1). apply Hk.
  - right. by rewrite (bind_raise _ _ _ _ _ H1).
Qed.

Lemma total_fails_clean {A : Type} (m : M A) : total m -> fails_clean m.
Proof. intros Hm w. left. apply Hm. Qed.

Lemma fails_clean_bind {A B : Type} (m : M A) (k : A -> M B) :
  reader m -> (forall a, fails_clean (k a)) -> fails_clean (m ≫= k).
Proof.
  intros Hm Hk w. destruct (Hm w) as [(a & H1) | H1].
  - rewrite (bind_ok _ _ _ _ _ H1). apply Hk.
  - right. by rewrite (bind_raise _ _ _ _ _ H1).
Qed.

#[local] Hint Resolve total_mret total_modify total_log total_callTileHooks
  total_callAccelerometerHooks total_callPantsHooks reader_mret reader_index : mario.

(** Splits the conditionals of a computation and discharges each branch
    with the lemmas above. *)
Ltac reads :=
  repeat match goal with
    | |- reader (if ?b then _ else _) => destruct b
    | |- reader (_ ≫= _) => apply reader_bind; [| intros ?]
    | |- reader _ => solve [auto with mario]
    end.

Ltac returns :=
  repeat match goal with
    | |- total (if ?b then _ else _) => destruct b
    | |- total (_ ≫= _) => apply total_bind; [| intros ?]
    | |- total (update_self _) => apply total_modify
    | |- total (create_task _) => apply total_modify
    | |- total (emit _) => apply total_modify
    | |- total _ => solve [auto with mario]
    end.

Ltac cleanly :=
  repeat match goal with
    | |- fails_clean (if ?b then _ else _) => destruct b
    | |- fails_clean (index _ _ ≫= _) => apply fails_clean_bind; [apply reader_index | intros ?]
    | |- fails_clean ((if _ then _ else _) ≫= _) => apply fails_clean_bind; [reads | intros ?]
    | |- fails_clean _ => apply total_fails_clean; returns
    end.

(** Decoding a notification either runs to its end or raises [IndexError]
    at a read of [data], before anything was logged, stored or dispatched. *)
Lemma _handle_events_fails_clean (D : LEGO_MARIO_DATA) (sender : Z) (data : list Z) :
  fails_clean (_handle_events D sender data).
Proof. unfold _handle_events. cbv zeta. cleanly. Qed.

Lemma index_ok (data : list Z) (i : nat) (b : Z) (w : World) :
  data !! i = Some b -> index data i w = (Ok b, w).
Proof. intros H. unfold index. by rewrite H. Qed.

Lemma index_short (data : list Z) (i : nat) (w : World) :
  (length data <= i)%nat -> index data i w = (Raise IndexError, w).
Proof. intros H. unfold index. by rewrite (lookup_ge_None_2 _ _ H). Qed.




(** ** The camera port *)

Lemma handle_events_tile_run (D : LEGO_MARIO_DATA) (sender : Z) (data : list Z) (code d6 : Z) (w : World) :
  data !! 2%nat = Some 0x45 -> data !! 3%nat = Some 0x01 ->
  data !! 4%nat = Some code -> data !! 5%nat = Some 0x00 -> data !! 6%nat = Some d6 ->
  _handle_events D sender data w =
  (Ok tt,
   add_effects
     (log_effects (set_recentTile (tile_name D code) (self w))
        (tile_name D code +:+ " Tile, Hex: " +:+ bytes_hex data) LF ++
      hook_calls TileEventHooks (ArgStr (tile_name D code))
        (set_ground (tile_name D code) (set_recentTile (tile_name D code) (self w))))
     (with_self (fun m => set_ground (tile_name D code) (set_recentTile (tile_name D code) m)) w)).
Proof.
  intros H2 H3 H4 H5 H6. unfold _handle_events. cbv zeta.
  rewrite (bind_ok _ _ _ _ _ (index_ok _ _ _ _ H2)). cbn [Z.eqb Pos.eqb].
  rewrite (bind_ok _ _ _ _ _ (index_ok _ _ _ _ H3)). cbn [Z.eqb Pos.eqb].
  rewrite (bind_ok _ _ _ _ _ (index_ok _ _ _ _ H5)).
  rewrite (bind_ok _ _ _ _ _ (index_ok _ _ _ _ H6)).
  replace ((0 =? d6) && (d6 =? 255)) with false
    by (destruct (Z.eqb_spec 0 d6) as [<- |]; reflexivity).
  cbn [Z.eqb].
  rewrite (bind_ok _ _ _ _ _ (index_ok _ _ _ _ H4)).
  fold (tile_name D code).
  unfold update_self, modify. unfold mbind at 1. unfold M_bind at 1.
  rewrite (bind_ok _ _ _ _ _ (_log_spec _ _ _)).
  rewrite _callTileHooks_spec. simpl. unfold add_effects, with_self. simpl.
  by rewrite (assoc_L (++)).
Qed.


(** C3 (amended): for every frame of at least 7 bytes with [data[2] = 0x45],
    [data[3] = 0x01] and [data[5] = 0x00], [_handle_events] returns; the tile
    it stores in [recentTile] and [ground] and passes to every tile hook, in
    the order of the list, is the name of [data[4]]: the entry of
    [HEX_TO_RGB_TILE] for that code, or, for a code without an entry, the
    text "Unkown Tile Code: " followed by the code in hexadecimal. *)
Theorem handle_events_tile (D : LEGO_MARIO_DATA) (sender : Z) (data : list Z)
    (code d6 : Z) (w : World) :
  data !! 2%nat = Some 0x45 -> data !! 3%nat = Some 0x01 ->
  data !! 4%nat = Some code -> data !! 5%nat = Some 0x00 -> data !! 6%nat = Some d6 ->
  exists w', _handle_events D sender data w = (Ok tt, w') /\
    recentTile (self w') = Some (tile_name D code) /\
    ground (self w') = Some (tile_name D code) /\
    effects w' =
      effects w ++
      log_effects (set_recentTile (tile_name D code) (self w))
        (tile_name D code +:+ " Tile, Hex: " +:+ bytes_hex data) LF ++
      hook_calls TileEventHooks (ArgStr (tile_name D code))
        (set_ground (tile_name D code) (set_recentTile (tile_name D code) (self w))) /\
    (forall name, HEX_TO_RGB_TILE D !! code = Some name -> tile_name D code = name) /\
    (HEX_TO_RGB_TILE D !! code = None ->
     tile_name D code = "Unkown Tile Code: " +:+ hex code).
Proof.
  intros H2 H3 H4 H5 H6. eexists. split.
  { apply (handle_events_tile_run D sender data code d6 w); assumption. }
  repeat split.
  - intros name Hname. unfold tile_name, dict_get. by rewrite Hname.
  - intros Hnone. unfold tile_name, dict_get. by rewrite Hnone.
Qed.

Lemma handle_events_tile_witness :
  exists w',
    _handle_events sample_data 0 [8; 0; 0x45; 0x01; 0xb8; 0x00; 0x00; 0x00] sample_world
    = (Ok tt, w') /\
    ground (self w') = Some "Start" /\
    called TileEventHooks (effects w') = [1; 2]%nat.
Proof.
  destruct (handle_events_tile sample_data 0
              [8; 0; 0x45; 0x01; 0xb8; 0x00; 0x00; 0x00] 0xb8 0x00 sample_world
              eq_refl eq_refl eq_refl eq_refl eq_refl)
    as (w' & Hrun & _ & Hground & Heffects & _).
  exists w'. split; [exact Hrun |]. split; [exact Hground |].
  rewrite Heffects. reflexivity.
Defined.

(** A frame of six bytes has [data[2] = 0x45], [data[3] = 0x01] and
    [data[5] = 0x00], and is not decoded: the idle test reads [data[6]]. *)
Lemma six_byte_tile_frame_raises :
  [6; 0; 0x45; 0x01; 0xb8; 0x00] !! 2%nat = Some 0x45 /\
  [6; 0; 0x45; 0x01; 0xb8; 0x00] !! 3%nat = Some 0x01 /\
  [6; 0; 0x45; 0x01; 0xb8; 0x00] !! 5%nat = Some 0x00 /\
  _handle_events sample_data 0 [6; 0; 0x45; 0x01; 0xb8; 0x00] sample_world
  = (Raise IndexError, sample_world).
Proof. repeat split. Qed.

(** The placeholder of an unknown tile determines the code. *)
Lemma unknown_tile_carries_code (a b : Z) :
  is_byte a -> is_byte b ->
  "Unkown Tile Code: " +:+ hex a = "Unkown Tile Code: " +:+ hex b -> a = b.
Proof.
  intros Ha Hb Heq.
  assert (Hall : forallb (fun x => forallb (fun y =>
            implb (String.eqb ("Unkown Tile Code: " +:+ hex (Z.of_nat x))
                             ("Unkown Tile Code: " +:+ hex (Z.of_nat y)))
                  (Nat.eqb x y)) (seq 0 256)) (seq 0 256) = true)
    by (vm_compute; reflexivity).
  assert (Hina : In (Z.to_nat a) (seq 0 256))
    by (apply in_seq; unfold is_byte in *; lia).
  assert (Hinb : In (Z.to_nat b) (seq 0 256))
    by (apply in_seq; unfold is_byte in *; lia).
  rewrite forallb_forall in Hall. specialize (Hall _ Hina).
  rewrite forallb_forall in Hall. specialize (Hall _ Hinb).
  rewrite !Z2Nat.id in Hall by (unfold is_byte in *; lia).
  rewrite Heq, String.eqb_refl in Hall. simpl in Hall.
  apply Nat.eqb_eq in Hall. unfold is_byte in *. lia.
Qed.

(** ** The motion port *)

Lemma signed_range (b : Z) : 0 <= b <= 255 -> -128 <= signed b <= 127.
Proof. intros Hb. unfold signed. destruct (Z.gtb_spec b 127); lia. Qed.

Lemma signed_mod (b : Z) : 0 <= b <= 255 -> signed b mod 256 = b.
Proof.
  intros Hb. unfold signed. destruct (Z.gtb_spec b 127).
  - symmetry. apply (Z.mod_unique _ _ (-1)); lia.
  - apply Z.mod_small. lia.
Qed.

Lemma handle_events_raw_run (D : LEGO_MARIO_DATA) (sender : Z) (data : list Z)
    (d4 d5 d6 : Z) (w : World) :
  data !! 2%nat = Some 0x45 -> data !! 3%nat = Some 0x00 ->
  data !! 4%nat = Some d4 -> data !! 5%nat = Some d5 -> data !! 6%nat = Some d6 ->
  slice 4 6 data <> slice_from 6 data ->
  _handle_events D sender data w =
  (Ok tt,
   add_effects
     (log_effects (self w) (xyz_message (signed d4) (signed d5) (signed d6)) "" ++
      hook_calls AccelerometerEventHooks (ArgXYZ (signed d4) (signed d5) (signed d6))
        (set_acceleration (signed d4, signed d5, signed d6) (self w)))
     (with_self (set_acceleration (signed d4, signed d5, signed d6)) w)).
Proof.
  intros H2 H3 H4 H5 H6 Hraw. unfold _handle_events. cbv zeta.
  rewrite (bind_ok _ _ _ _ _ (index_ok _ _ _ _ H2)). cbn [Z.eqb Pos.eqb].
  rewrite (bind_ok _ _ _ _ _ (index_ok _ _ _ _ H3)). cbn [Z.eqb Pos.eqb].
  rewrite (bool_decide_eq_false_2 _ Hraw).
  rewrite (bind_ok _ _ _ _ _ (index_ok _ _ _ _ H4)).
  rewrite (bind_ok _ _ _ _ _ (index_ok _ _ _ _ H5)).
  rewrite (bind_ok _ _ _ _ _ (index_ok _ _ _ _ H6)).
  fold (xyz_message (signed d4) (signed d5) (signed d6)).
  rewrite (bind_ok _ _ _ _ _ (_log_spec _ _ _)).
  rewrite _callAccelerometerHooks_spec. simpl. unfold add_effects, with_self. simpl.
  by rewrite (assoc_L (++)).
Qed.

(** C4: on a raw byte [b] in 0..255, [signed] returns [b - 256] when
    [b > 127] and [b] otherwise, which is the value of the byte read as an
    8-bit two's-complement number; it maps 0x00 to 0, 0x7F to 127, 0x80 to
    -128 and 0xFF to -1; and the raw-mode branch of the motion port stores
    and dispatches [signed] of the bytes 4, 5 and 6 of the frame. *)
Theorem signed_byte_decoding (D : LEGO_MARIO_DATA) (b : Z) (sender : Z)
    (data : list Z) (d4 d5 d6 : Z) (w : World) :
  0 <= b <= 255 ->
  data !! 2%nat = Some 0x45 -> data !! 3%nat = Some 0x00 ->
  data !! 4%nat = Some d4 -> data !! 5%nat = Some d5 -> data !! 6%nat = Some d6 ->
  slice 4 6 data <> slice_from 6 data ->
  (b > 127 -> signed b = b - 256) /\ (b <= 127 -> signed b = b) /\
  -128 <= signed b <= 127 /\ signed b mod 256 = b /\
  signed 0x00 = 0 /\ signed 0x7F = 127 /\ signed 0x80 = -128 /\ signed 0xFF = -1 /\
  exists w', _handle_events D sender data w = (Ok tt, w') /\
    acceleration (self w') = Some (signed d4, signed d5, signed d6) /\
    effects w' =
      effects w ++
      log_effects (self w) (xyz_message (signed d4) (signed d5) (signed d6)) "" ++
      hook_calls AccelerometerEventHooks (ArgXYZ (signed d4) (signed d5) (signed d6))
        (set_acceleration (signed d4, signed d5, signed d6) (self w)).
Proof.
  intros Hb H2 H3 H4 H5 H6 Hraw.
  split; [intros Hgt; unfold signed; destruct (Z.gtb_spec b 127); lia |].
  split; [intros Hle; unfold signed; destruct (Z.gtb_spec b 127); lia |].
  split; [by apply signed_range |].
  split; [by apply signed_mod |].
  do 4 (split; [reflexivity |]).
  eexists. split.
  { apply (handle_events_raw_run D sender data d4 d5 d6 w); assumption. }
  split; reflexivity.
Qed.

Lemma signed_byte_decoding_witness :
  0 <= 200 <= 255 /\ signed 200 = -56 /\
  exists w',
    _handle_events sample_data 0 [8; 0; 0x45; 0x00; 0xff; 0x80; 0x7f; 0x00] sample_world
    = (Ok tt, w') /\
    acceleration (self w') = Some (-1, -128, 127).
Proof.
  assert (Hraw : slice 4 6 [8; 0; 0x45; 0x00; 0xff; 0x80; 0x7f; 0x00]
                 <> slice_from 6 [8; 0; 0x45; 0x00; 0xff; 0x80; 0x7f; 0x00])
    by discriminate.
  assert (Hb : 0 <= 200 <= 255) by lia.
  destruct (signed_byte_decoding sample_data 200 0
              [8; 0; 0x45; 0x00; 0xff; 0x80; 0x7f; 0x00] 0xff 0x80 0x7f sample_world
              Hb eq_refl eq_refl eq_refl eq_refl eq_refl Hraw)
    as (Hgt & _ & _ & _ & _ & _ & _ & _ & w' & Hrun & Hacc & _).
  split; [exact Hb |]. split; [apply Hgt; lia |].
  exists w'. split; [exact Hrun | exact Hacc].
Defined.

(** ** The cache is written before the hooks run *)

Lemma cache_first_bind {A B : Type} (m : M A) (k : A -> M B) :
  cache_first m -> (forall a, cache_first (k a)) -> cache_first (m ≫= k).
Proof.
  intros Hm Hk w. destruct (Hm w) as (r1 & w1 & n1 & H1 & He1 & Hc1).
  destruct r1 as [a | e].
  - destruct (Hk a w1) as (r2 & w2 & n2 & H2 & He2 & Hc2).
    exists r2, w2, (n1 ++ n2). rewrite (bind_ok _ _ _ _ _ H1).
    split; [done |]. split; [by rewrite He2, He1, (assoc_L (++)) |].
    by apply Forall_app.
  - exists (Raise e), w1, n1. by rewrite (bind_raise _ _ _ _ _ H1).
Qed.

Lemma cache_first_quiet {A : Type} (m : M A) :
  (forall w, exists r w', m w = (r, w') /\ effects w' = effects w) -> cache_first m.
Proof.
  intros Hm w. destruct (Hm w) as (r & w' & H & He).
  exists r, w', []. rewrite app_nil_r. by repeat split.
Qed.

Lemma cache_first_mret {A : Type} (a : A) : cache_first (mret a : M A).
Proof. apply cache_first_quiet. intros w. by exists (Ok a), w. Qed.

Lemma cache_first_index (data : list Z) (i : nat) : cache_first (index data i).
Proof.
  apply cache_first_quiet. intros w. unfold index.
  destruct (data !! i) as [b |]; by eexists _, w.
Qed.

Lemma cache_first_update_self (f : Mario -> Mario) : cache_first (update_self f).
Proof. apply cache_first_quiet. intros w. by eexists _, _. Qed.

Lemma cache_first_create_task (t : Task) : cache_first (create_task t).
Proof. apply cache_first_quiet. intros w. by eexists _, _. Qed.

Lemma Forall_hook_calls (P : Effect -> Prop) (c : HookList) (args : HookArgs)
    (m : Mario) :
  (forall func, P (HookCall c func args m)) -> Forall P (hook_calls c args m).
Proof.
  intros HP. unfold hook_calls.
  induction (hooks c m) as [| f l IH]; constructor; [apply HP | exact IH].
Qed.

Lemma cache_current_log_effects (m : Mario) (msg end_ : string) :
  Forall cache_current (log_effects m msg end_).
Proof.
  unfold log_effects. apply Forall_app. split.
  - by apply Forall_hook_calls.
  - destruct (_doLog m); by repeat constructor.
Qed.

Lemma cache_first_log (msg end_ : string) : cache_first (_log msg end_).
Proof.
  intros w. eexists _, _, _. split; [apply _log_spec |].
  split; [reflexivity | apply cache_current_log_effects].
Qed.

Lemma cache_first_callTileHooks (tile : string) : cache_first (_callTileHooks tile).
Proof.
  intros w. eexists _, _, _. split; [apply _callTileHooks_spec |].
  split; [reflexivity |]. by apply Forall_hook_calls.
Qed.

Lemma cache_first_callAccelerometerHooks (x y z : Z) :
  cache_first (_callAccelerometerHooks x y z).
Proof.
  intros w. eexists _, _, _. split; [apply _callAccelerometerHooks_spec |].
  split; [reflexivity |]. by apply Forall_hook_calls.
Qed.

Lemma cache_first_callPantsHooks (powerup : string) :
  cache_first (_callPantsHooks powerup).
Proof.
  intros w. eexists _, _, _. split; [apply _callPantsHooks_spec |].
  split; [reflexivity |]. by apply Forall_hook_calls.
Qed.

#[local] Hint Resolve cache_first_mret cache_first_index cache_first_update_self
  cache_first_create_task cache_first_log cache_first_callTileHooks
  cache_first_callAccelerometerHooks cache_first_callPantsHooks : mario.

Ltac caches :=
  repeat match goal with
    | |- cache_first (if ?b then _ else _) => destruct b
    | |- cache_first (_ ≫= _) => apply cache_first_bind; [| intros ?]
    | |- cache_first _ => solve [auto with mario]
    end.

Lemma _handle_events_cache_first (D : LEGO_MARIO_DATA) (sender : Z) (data : list Z) :
  cache_first (_handle_events D sender data).
Proof. unfold _handle_events. cbv zeta. caches. Qed.

(** C8: each of [_callTileHooks], [_callAccelerometerHooks] and
    [_callPantsHooks] first stores its argument in [ground], [acceleration]
    or [pants], and only then calls the hooks of its list, so that every
    hook is entered with the cached field already holding the value it is
    called with; and in the handling of any frame every call of a tile,
    accelerometer or pants hook finds the cache in that state. *)
Theorem cache_update_precedes_dispatch (D : LEGO_MARIO_DATA) (sender : Z)
    (data : list Z) (tile powerup : string) (x y z : Z) (w : World) :
  (exists w', _callTileHooks tile w = (Ok tt, w') /\
     ground (self w') = Some tile /\
     effects w' = effects w ++
       map (fun func => HookCall TileEventHooks func (ArgStr tile) (set_ground tile (self w)))
         (_tileEventHooks (self w)) /\
     ground (set_ground tile (self w)) = Some tile) /\
  (exists w', _callAccelerometerHooks x y z w = (Ok tt, w') /\
     acceleration (self w') = Some (x, y, z) /\
     effects w' = effects w ++
       map (fun func => HookCall AccelerometerEventHooks func (ArgXYZ x y z)
                          (set_acceleration (x, y, z) (self w)))
         (_accelerometerEventHooks (self w)) /\
     acceleration (set_acceleration (x, y, z) (self w)) = Some (x, y, z)) /\
  (exists w', _callPantsHooks powerup w = (Ok tt, w') /\
     pants (self w') = Some powerup /\
     effects w' = effects w ++
       map (fun func => HookCall PantsEventHooks func (ArgStr powerup)
                          (set_pants powerup (self w)))
         (_pantsEventHooks (self w)) /\
     pants (set_pants powerup (self w)) = Some powerup) /\
  (exists r w' new, _handle_events D sender data w = (r, w') /\
     effects w' = effects w ++ new /\ Forall cache_current new).
Proof.
  split; [| split; [| split]].
  - eexists. split; [apply _callTileHooks_spec |]. by repeat split.
  - eexists. split; [apply _callAccelerometerHooks_spec |]. by repeat split.
  - eexists. split; [apply _callPantsHooks_spec |]. by repeat split.
  - apply _handle_events_cache_first.
Qed.

(** ** Order of the calls *)

Lemma called_add_effects (c : HookList) (es : list Effect) (w : World) :
  called c (effects (add_effects es w)) = called c (effects w) ++ called c es.
Proof. simpl. apply called_app. Qed.

(** C7: registration appends to the list of its category and never drops a
    duplicate: after [A] then [B] the list ends with [A; B], and [n]
    registrations of one hook add [n] entries.  Each dispatcher
    ([_callTileHooks], [_callAccelerometerHooks], [_callPantsHooks] and, for
    log hooks, [_log]) calls the entries of its list one after the other in
    the order of the list, once per entry.  In particular a tile frame
    delivered after registering [A] then [B] calls the earlier tile hooks,
    then [A], then [B]. *)
Theorem hooks_called_in_registration_order (D : LEGO_MARIO_DATA) (sender : Z)
    (c : HookList) (A B : Hook) (n : nat) (msg end_ tile powerup : string)
    (x y z : Z) (m : Mario) (w : World) :
  hooks c (add_hooks c (PyFunc B) (add_hooks c (PyFunc A) m)) = hooks c m ++ [A; B] /\
  hooks c (Nat.iter n (add_hooks c (PyFunc A)) m) = hooks c m ++ replicate n A /\
  (exists w', _callTileHooks tile w = (Ok tt, w') /\
     called TileEventHooks (effects w') =
     called TileEventHooks (effects w) ++ _tileEventHooks (self w)) /\
  (exists w', _callAccelerometerHooks x y z w = (Ok tt, w') /\
     called AccelerometerEventHooks (effects w') =
     called AccelerometerEventHooks (effects w) ++ _accelerometerEventHooks (self w)) /\
  (exists w', _callPantsHooks powerup w = (Ok tt, w') /\
     called PantsEventHooks (effects w') =
     called PantsEventHooks (effects w) ++ _pantsEventHooks (self w)) /\
  (exists w', _log msg end_ w = (Ok tt, w') /\
     called LogEventHooks (effects w') =
     called LogEventHooks (effects w) ++ _logEventHooks (self w)) /\
  (exists w',
     _handle_events D sender [8; 0; 0x45; 0x01; 0xb8; 0x00; 0x00; 0x00]
       (with_self (fun m0 => AddTileHook (PyFunc B) (AddTileHook (PyFunc A) m0)) w)
     = (Ok tt, w') /\
     called TileEventHooks (effects w') =
     called TileEventHooks (effects w) ++ _tileEventHooks (self w) ++ [A; B]).
Proof.
  split; [by rewrite !add_hooks_callable, <- (assoc_L (++)) |].
  split; [apply add_hooks_repeat |].
  split; [| split; [| split; [| split]]].
  - eexists. split; [apply _callTileHooks_spec |].
    by rewrite called_add_effects, called_hook_calls, decide_True.
  - eexists. split; [apply _callAccelerometerHooks_spec |].
    by rewrite called_add_effects, called_hook_calls, decide_True.
  - eexists. split; [apply _callPantsHooks_spec |].
    by rewrite called_add_effects, called_hook_calls, decide_True.
  - eexists. split; [apply _log_spec |].
    by rewrite called_add_effects, called_log_effects, decide_True.
  - eexists. split.
    { by apply (handle_events_tile_run D sender _ 0xb8 0x00). }
    rewrite called_add_effects, called_app, called_log_effects, called_hook_calls.
    rewrite decide_False, decide_True by done. simpl.
    by rewrite <- (assoc_L (++)).
Qed.

(** ** Commands *)

Lemma bytearray_ok (values : list Z) :
  Forall is_byte values -> bytearray values = Ok values.
Proof.
  intros Hall. unfold bytearray.
  replace (forallb _ values) with true; [done |].
  symmetry. apply forallb_forall. intros v Hin.
  rewrite Forall_forall in Hall. specialize (Hall v).
  rewrite list_elem_of_In in Hall. specialize (Hall Hin).
  unfold is_byte in Hall. apply andb_true_iff. split; [apply Z.leb_le | apply Z.ltb_lt]; lia.
Qed.

Lemma set_volume_run (D : LEGO_MARIO_DATA) (new_volume : Z) (w : World) :
  Forall is_byte (MUTE_COMMAND D) ->
  set_volume D new_volume w =
  (Ok tt,
   match _client (self w) with
   | Some client =>
       add_task (TaskWriteGattChar client (LEGO_CHARACTERISTIC_UUID D)
                   (take 5 (MUTE_COMMAND D) ++ [Z.min (Z.max new_volume 0) 100])) w
   | None => w
   end).
Proof.
  intros Hmute. unfold set_volume. cbv zeta.
  unfold mbind at 1. unfold M_bind at 1. unfold gets.
  destruct (_client (self w)) as [client |]; [| done].
  unfold try_except. rewrite bytearray_ok; [done |].
  apply Forall_app. split.
  - by apply Forall_take.
  - constructor; [unfold is_byte; lia | constructor].
Qed.

(** C5: [set_volume] replaces its argument by [min(max(v, 0), 100)], a
    value of 0..100, before it builds the command, and returns normally for
    every integer: it schedules the write of [MUTE_COMMAND[:5]] followed by
    the clamped value when a client is present and does nothing otherwise.
    Hence [set_volume(v)] is [set_volume] of the clamped [v]; in particular
    [set_volume(-5)] is [set_volume(0)] and [set_volume(150)] is
    [set_volume(100)]. *)
Theorem set_volume_clamps (D : LEGO_MARIO_DATA) (new_volume : Z) (w : World) :
  Forall is_byte (MUTE_COMMAND D) ->
  0 <= Z.min (Z.max new_volume 0) 100 <= 100 /\
  (new_volume < 0 -> Z.min (Z.max new_volume 0) 100 = 0) /\
  (100 < new_volume -> Z.min (Z.max new_volume 0) 100 = 100) /\
  (0 <= new_volume <= 100 -> Z.min (Z.max new_volume 0) 100 = new_volume) /\
  set_volume D new_volume w =
    (Ok tt,
     match _client (self w) with
     | Some client =>
         add_task (TaskWriteGattChar client (LEGO_CHARACTERISTIC_UUID D)
                     (take 5 (MUTE_COMMAND D) ++ [Z.min (Z.max new_volume 0) 100])) w
     | None => w
     end) /\
  set_volume D new_volume w = set_volume D (Z.min (Z.max new_volume 0) 100) w /\
  set_volume D (-5) w = set_volume D 0 w /\
  set_volume D 150 w = set_volume D 100 w.
Proof.
  intros Hmute.
  split; [lia |]. split; [lia |]. split; [lia |]. split; [lia |].
  split; [by apply set_volume_run |].
  split; [| split].
  - rewrite !set_volume_run by done.
    by replace (Z.min (Z.max (Z.min (Z.max new_volume 0) 100) 0) 100)
      with (Z.min (Z.max new_volume 0) 100) by lia.
  - by rewrite !set_volume_run.
  - by rewrite !set_volume_run.
Qed.

Lemma sample_mute_bytes : Forall is_byte (MUTE_COMMAND sample_data).
Proof. repeat constructor; unfold is_byte; lia. Defined.

Lemma set_volume_clamps_witness :
  Forall is_byte (MUTE_COMMAND sample_data) /\
  set_volume sample_data 150 connected_world =
  (Ok tt,
   add_task (TaskWriteGattChar {| address := "AA:BB" |}
               (LEGO_CHARACTERISTIC_UUID sample_data) [0x06; 0x00; 0x01; 0x12; 0x01; 100])
     connected_world).
Proof.
  split; [exact sample_mute_bytes |].
  destruct (set_volume_clamps sample_data 150 connected_world sample_mute_bytes)
    as (_ & _ & _ & _ & Hrun & _).
  exact Hrun.
Defined.

Lemma store_port_ok (port : Z) (w : World) :
  (3 < length (REQUEST_RGB_COMMAND w))%nat ->
  store_port port w =
  (Ok (<[3%nat := port]> (REQUEST_RGB_COMMAND w)),
   mkWorld (self w) (effects w) (tasks w) (<[3%nat := port]> (REQUEST_RGB_COMMAND w))).
Proof. intros Hlen. unfold store_port. by rewrite decide_True. Qed.

(** C6: for a port outside {0, 1, 2, 3, 4, 6} [request_port_value] raises
    the [AssertionError] of its first statement, with the world, and so the
    session and the list of transport writes, as before.  For port 2, with
    a client present and a transport that completes the write,
    [request_port_value] returns normally after exactly one write, that of
    [REQUEST_RGB_COMMAND] with the port stored at index 3. *)
Theorem request_port_value_validates (D : LEGO_MARIO_DATA) (E : Env) (port : Z)
    (client : BleakClient) (w : World) :
  (port ∉ [0; 1; 2; 3; 4; 6] ->
   request_port_value D E port w = (Raise AssertionError, w)) /\
  (_client (self w) = Some client ->
   (3 < length (REQUEST_RGB_COMMAND w))%nat ->
   Forall is_byte (REQUEST_RGB_COMMAND w) ->
   transport E (length (effects w)) = None ->
   request_port_value D E 2 w =
   (Ok tt,
    mkWorld (self w)
      (effects w ++
       [WriteGattChar client (LEGO_CHARACTERISTIC_UUID D)
          (<[3%nat := 2]> (REQUEST_RGB_COMMAND w))])
      (tasks w)
      (<[3%nat := 2]> (REQUEST_RGB_COMMAND w)))).
Proof.
  split.
  - intros Hport. unfold request_port_value.
    by rewrite (bool_decide_eq_false_2 _ Hport).
  - intros Hclient Hlen Hbytes Hradio. unfold request_port_value.
    rewrite bool_decide_eq_true_2 by (by apply (bool_decide_unpack _)).
    cbn [negb]. unfold mbind at 1. unfold M_bind at 1. unfold gets.
    rewrite Hclient. unfold try_except.
    rewrite (bind_ok _ _ _ _ _ (store_port_ok _ _ Hlen)).
    rewrite bytearray_ok.
    + unfold lift, mbind, M_bind, mret, M_ret, io. simpl. by rewrite Hradio.
    + apply Forall_insert; [done | unfold is_byte; lia].
Qed.

Lemma request_port_value_validates_witness :
  (5 ∉ [0; 1; 2; 3; 4; 6]) /\
  request_port_value sample_data silent_radio 5 connected_world
  = (Raise AssertionError, connected_world) /\
  request_port_value sample_data silent_radio 2 connected_world
  = (Ok tt,
     mkWorld (self connected_world)
       [WriteGattChar {| address := "AA:BB" |} (LEGO_CHARACTERISTIC_UUID sample_data)
          [0x05; 0x00; 0x21; 0x02; 0x00]]
       (tasks connected_world)
       [0x05; 0x00; 0x21; 0x02; 0x00]).
Proof.
  assert (Hport : 5 ∉ [0; 1; 2; 3; 4; 6]) by (by apply (bool_decide_unpack _)).
  assert (Hbytes : Forall is_byte (REQUEST_RGB_COMMAND connected_world))
    by (repeat constructor; unfold is_byte; lia).
  assert (Hlen : (3 < length (REQUEST_RGB_COMMAND connected_world))%nat)
    by (simpl; lia).
  destruct (request_port_value_validates sample_data silent_radio 5
              {| address := "AA:BB" |} connected_world) as [Hbad Hgood].
  split; [exact Hport |]. split; [exact (Hbad Hport) |].
  exact (Hgood eq_refl Hlen Hbytes eq_refl).
Defined.

(** ** Connecting *)

Section Connecting.

Variable D : LEGO_MARIO_DATA.
Variable E : Env.

Lemma for_devices_none (devices : list BLEDevice) (w : World) :
  forallb (fun d => negb (is_mario d)) devices = true ->
  for_devices D E devices w = (Ok Broke, w).
Proof.
  induction devices as [| d rest IH]; intros Hnone; simpl; [done |].
  simpl in Hnone. apply andb_true_iff in Hnone as [Hd Hrest].
  apply negb_true_iff in Hd. rewrite Hd. by apply IH.
Qed.

Lemma scans_app (es1 es2 : list Effect) : scans (es1 ++ es2) = (scans es1 + scans es2)%nat.
Proof. unfold scans. by rewrite filter_app, length_app. Qed.

Lemma scans_log_effects (m : Mario) (msg end_ : string) : scans (log_effects m msg end_) = 0%nat.
Proof.
  unfold log_effects, hook_calls. rewrite scans_app.
  replace (scans (map _ (hooks LogEventHooks m))) with 0%nat
    by (induction (hooks LogEventHooks m) as [| f l IH]; [done | exact IH]).
  by destruct (_doLog m).
Qed.

Lemma scans_search_effects (m : Mario) : scans (search_effects m) = 1%nat.
Proof. unfold search_effects. by rewrite scans_app, scans_log_effects. Qed.

Lemma scans_exhausted_effects (m : Mario) : scans (exhausted_effects m) = 3%nat.
Proof.
  unfold exhausted_effects.
  by rewrite !scans_app, !scans_search_effects, !scans_log_effects.
Qed.

(** The loop of [connect] needs at most [4 - retries] turns. *)
Lemma connect_loop_fuel (fuel : nat) (retries : Z) (w w' : World) :
  (0 < fuel)%nat -> 3 < retries + Z.of_nat fuel ->
  connect_loop D E fuel retries w <> (Ok OutOfFuel, w').
Proof.
  revert retries w. induction fuel as [| fuel IH]; intros retries w Hpos Hfuel.
  - lia.
  - cbn [connect_loop]. unfold mbind at 1. unfold M_bind at 1. unfold gets.
    destruct (_run (self w)); [| done].
    destruct (Z.gtb_spec (retries + 1) 3) as [Hgt | Hle].
    + rewrite (bind_ok _ _ _ _ _ (_log_spec _ _ _)). done.
    + rewrite (bind_ok _ _ _ _ _ (_log_spec _ _ _)).
      unfold mbind at 1. unfold M_bind at 1. unfold scan at 1.
      unfold mbind at 1. unfold M_bind at 1.
      destruct (for_devices D E _ _) as [[[b | |] | e] w2]; try done.
      * apply IH; lia.
      * apply IH; lia.
Qed.

(** [connect] always comes back with an answer. *)
Lemma connect_fuel (w w' : World) : connect D E w <> (Ok None, w').
Proof.
  unfold connect. unfold mbind at 1. unfold M_bind at 1.
  unfold update_self at 1. unfold modify at 1. cbv zeta.
  unfold mbind at 1. unfold M_bind at 1.
  destruct (connect_loop D E 4 0 _) as [[[b | |] | e] w1] eqn:Hloop; try done.
  - unfold mbind, M_bind. by destruct (disconnect D E w1) as [[[] | e] w2].
  - exfalso. apply (connect_loop_fuel 4 0 _ w1) in Hloop; [done | lia | lia].
Qed.

Lemma disconnect_no_client (w : World) :
  _client (self w) = None ->
  disconnect D E w =
  (Ok tt,
   let w1 := add_effects (log_effects (self w) "Disconnecting... " LF) w in
   if _autoReconnect (self w) then add_task TaskConnect w1
   else with_self (set_run false) w1).
Proof.
  intros Hclient. unfold disconnect.
  unfold mbind at 1. unfold M_bind at 1. unfold try_except.
  rewrite (bind_ok _ _ _ _ _ (_log_spec _ _ _)).
  unfold mbind at 1. unfold M_bind at 1. unfold gets at 1. simpl.
  rewrite Hclient. unfold mret, M_ret. unfold mbind, M_bind, gets. simpl.
  by destruct (_autoReconnect (self w)).
Qed.

Hypothesis Hnothing : nothing_found E.

Lemma connect_loop_search (fuel : nat) (retries : Z) (w : World) :
  _run (self w) = true -> retries + 1 <= 3 ->
  connect_loop D E (S fuel) retries w =
  connect_loop D E fuel (retries + 1) (add_effects (search_effects (self w)) w).
Proof.
  intros Hrun Hle. cbn [connect_loop].
  unfold mbind at 1. unfold M_bind at 1. unfold gets. rewrite Hrun.
  destruct (Z.gtb_spec (retries + 1) 3) as [Hgt | _]; [lia |].
  rewrite (bind_ok _ _ _ _ _ (_log_spec _ _ _)).
  unfold mbind at 1. unfold M_bind at 1. unfold scan at 1.
  rewrite (bind_ok _ _ _ _ _ (for_devices_none _ _ (Hnothing _))).
  unfold search_effects. by rewrite add_effect_add_effects, add_effects_app.
Qed.

Lemma connect_loop_stop (fuel : nat) (retries : Z) (w : World) :
  _run (self w) = true -> 3 < retries + 1 ->
  connect_loop D E (S fuel) retries w =
  (Ok Broke,
   add_effects (log_effects (self w) "Stopped after 3 attempts, disconnecting..." LF) w).
Proof.
  intros Hrun Hgt. cbn [connect_loop].
  unfold mbind at 1. unfold M_bind at 1. unfold gets. rewrite Hrun.
  destruct (Z.gtb_spec (retries + 1) 3) as [_ | Hle]; [| lia].
  by rewrite (bind_ok _ _ _ _ _ (_log_spec _ _ _)).
Qed.

(** When no scan finds a device, [connect] scans three times, gives up,
    and calls [disconnect], which consults [_autoReconnect]. *)
Lemma connect_gives_up (w : World) :
  _client (self w) = None ->
  connect D E w =
  (Ok (Some false),
   let m := set_run true (self w) in
   mkWorld (if _autoReconnect m then m else set_run false m)
     (effects w ++ exhausted_effects m)
     (if _autoReconnect m then tasks w ++ [TaskConnect] else tasks w)
     (REQUEST_RGB_COMMAND w)).
Proof.
  intros Hclient. unfold connect.
  unfold mbind at 1. unfold M_bind at 1. unfold update_self at 1. unfold modify at 1.
  cbv zeta. unfold mbind at 1. unfold M_bind at 1.
  rewrite connect_loop_search by (simpl; done || lia).
  rewrite connect_loop_search by (simpl; done || lia).
  rewrite connect_loop_search by (simpl; done || lia).
  rewrite connect_loop_stop by (simpl; done || lia).
  rewrite !add_effects_app.
  unfold mbind at 1. unfold M_bind at 1.
  rewrite disconnect_no_client by (simpl; by destruct w as [[]]; simpl in *).
  unfold mret, M_ret. f_equal. simpl.
  unfold exhausted_effects.
  destruct w as [m es ts rrc]. simpl in *.
  destruct (_autoReconnect m) eqn:Hauto.
  - unfold add_task, add_effects. simpl.
    replace (_autoReconnect (set_run true m)) with true by (by destruct m).
    f_equal. by rewrite <- !(assoc_L (++)).
  - unfold with_self, add_effects. simpl.
    replace (_autoReconnect (set_run true m)) with false by (by destruct m).
    f_equal. by rewrite <- !(assoc_L (++)).
Qed.

End Connecting.

Lemma run_connect_task (D : LEGO_MARIO_DATA) (E : Env) (k : nat) (w : World) :
  nothing_found E -> _client (self w) = None -> tasks w = [TaskConnect] ->
  run D E (S k) w =
  run D E k
    (let m := set_run true (self w) in
     mkWorld (if _autoReconnect m then m else set_run false m)
       (effects w ++ exhausted_effects m)
       (if _autoReconnect m then [TaskConnect] else [])
       (REQUEST_RGB_COMMAND w)).
Proof.
  intros Hnothing Hclient Htasks. cbn [run].
  unfold mbind at 1. unfold M_bind at 1. unfold pop_task. rewrite Htasks.
  unfold run_task. unfold mbind at 1. unfold M_bind at 1.
  unfold mbind at 1. unfold M_bind at 1.
  rewrite connect_gives_up by done. unfold mret at 1. unfold M_ret at 1. simpl.
  by destruct (_autoReconnect (set_run true (self w))).
Qed.

Lemma run_rescans (D : LEGO_MARIO_DATA) (E : Env) (k : nat) (w : World) :
  nothing_found E ->
  _autoReconnect (self w) = true -> _client (self w) = None ->
  tasks w = [TaskConnect] ->
  exists w', run D E k w = (Ok false, w') /\
    scans (effects w') = (scans (effects w) + 3 * k)%nat /\
    _autoReconnect (self w') = true /\ _client (self w') = None /\
    tasks w' = [TaskConnect] /\
    (_run (self w) = true \/ (0 < k)%nat -> _run (self w') = true).
Proof.
  intros Hnothing. revert w.
  induction k as [| k IH]; intros w Hauto Hclient Htasks.
  - exists w. split.
    { simpl. unfold mbind, M_bind, gets. by rewrite Htasks. }
    split; [lia |]. repeat (split; [done |]).
    intros [Hrun | Hk]; [done | lia].
  - rewrite run_connect_task by done. cbv zeta.
    replace (_autoReconnect (set_run true (self w))) with true
      by (by destruct (self w)).
    match goal with |- context [run D E k ?w1] => destruct (IH w1) as
        (w' & Hrun & Hscans & Hauto' & Hclient' & Htasks' & Hrun') end.
    + by destruct (self w).
    + by destruct (self w).
    + done.
    + exists w'. split; [exact Hrun |].
      split.
      { rewrite Hscans. simpl. rewrite scans_app, scans_exhausted_effects. lia. }
      repeat (split; [done |]).
      intros _. apply Hrun'. by left.
Qed.

(** C1 (what the code does where the claim fails): with [_autoReconnect]
    true, the value the constructor gives it, and a radio that never finds
    the device, every run of the [connect] task makes three scans, logs that
    it stopped, and through [disconnect] queues [connect] again.  After [k]
    tasks the session has made [3 * k] scans, [connect] is queued once
    more, and the session is not stopped: a fifth and a sixth scan follow
    the fourth as the fourth followed the third. *)
Theorem autoreconnect_rescans_without_bound (D : LEGO_MARIO_DATA) (E : Env)
    (w : World) (k : nat) :
  nothing_found E ->
  _autoReconnect (self w) = true -> _client (self w) = None ->
  tasks w = [TaskConnect] ->
  exists w', run D E k w = (Ok false, w') /\
    scans (effects w') = (scans (effects w) + 3 * k)%nat /\
    _autoReconnect (self w') = true /\
    tasks w' = [TaskConnect] /\
    ((0 < k)%nat -> _run (self w') = true) /\
    ~ Stopped w'.
Proof.
  intros Hnothing Hauto Hclient Htasks.
  destruct (run_rescans D E k w Hnothing Hauto Hclient Htasks)
    as (w' & Hrun & Hscans & Hauto' & _ & Htasks' & Hrun').
  exists w'. repeat (split; [done |]). split.
  - intros Hk. apply Hrun'. by right.
  - intros [_ Hempty]. congruence.
Qed.

Lemma silent_radio_finds_nothing : nothing_found silent_radio.
Proof. intros t. reflexivity. Defined.

Lemma autoreconnect_rescans_without_bound_witness :
  nothing_found silent_radio /\
  _autoReconnect (self sample_world) = true /\
  exists w', run sample_data silent_radio 2 sample_world = (Ok false, w') /\
    scans (effects w') = 6%nat /\ tasks w' = [TaskConnect] /\ ~ Stopped w'.
Proof.
  split; [exact silent_radio_finds_nothing |]. split; [reflexivity |].
  destruct (autoreconnect_rescans_without_bound sample_data silent_radio sample_world 2
              silent_radio_finds_nothing eq_refl eq_refl eq_refl)
    as (w' & Hrun & Hscans & _ & Htasks & _ & Hnot).
  exists w'. split; [exact Hrun |]. split; [exact Hscans |].
  split; [exact Htasks | exact Hnot].
Defined.

(** The bound the loop of [connect] does implement: once [_autoReconnect]
    has been set to false, a radio that never finds the device is scanned
    three times and the session stops. *)
Lemma retry_bound_without_autoreconnect (D : LEGO_MARIO_DATA) (E : Env) (w : World) :
  nothing_found E ->
  _autoReconnect (self w) = false -> _client (self w) = None ->
  tasks w = [TaskConnect] ->
  exists w', run D E 1 w = (Ok true, w') /\
    scans (effects w') = (scans (effects w) + 3)%nat /\
    Stopped w' /\
    forall k, run D E k w' = (Ok true, w').
Proof.
  intros Hnothing Hauto Hclient Htasks.
  rewrite run_connect_task by done. cbv zeta.
  replace (_autoReconnect (set_run true (self w))) with false
    by (by destruct (self w)).
  eexists. split; [reflexivity |]. split.
  { simpl. rewrite scans_app, scans_exhausted_effects. lia. }
  split; [split; reflexivity |].
  intros [| k]; reflexivity.
Qed.

(** * Further properties *)

(** ** Registration and removal *)

Lemma same_state_refl (m : Mario) : same_state m m.
Proof. by repeat split. Qed.

Lemma same_state_trans (m1 m2 m3 : Mario) :
  same_state m1 m2 -> same_state m2 m3 -> same_state m1 m3.
Proof.
  intros (A1 & A2 & A3 & A4 & A5 & A6 & A7 & A8 & A9)
         (B1 & B2 & B3 & B4 & B5 & B6 & B7 & B8 & B9).
  unfold same_state. repeat split; congruence.
Qed.

Lemma same_state_set_hooks (c : HookList) (l : list Hook) (m : Mario) :
  same_state m (set_hooks c l m).
Proof. destruct c; by repeat split. Qed.

(** A session is its nine scalar fields and its four lists. *)
Lemma Mario_ext (m m' : Mario) :
  same_state m m' -> (forall c, hooks c m' = hooks c m) -> m' = m.
Proof.
  intros (H1 & H2 & H3 & H4 & H5 & H6 & H7 & H8 & H9) Hl.
  pose proof (Hl AccelerometerEventHooks) as Ha. pose proof (Hl PantsEventHooks) as Hp.
  pose proof (Hl TileEventHooks) as Ht. pose proof (Hl LogEventHooks) as Hg.
  destruct m, m'. simpl in *. congruence.
Qed.

Lemma callables_flat (fs : list Hook) : callables (PyList (map PyFunc fs)) = fs.
Proof. simpl. induction fs as [| f fs IH]; [done |]. simpl. by rewrite IH. Qed.



Lemma without_first_sublist (f : Hook) (l : list Hook) :
  without_first f l `sublist_of` l.
Proof.
  unfold without_first.
  destruct (decide (f ∈ l)) as [Hin | Hout].
  - destruct (elem_of_first_split _ _ Hin) as (l1 & l2 & -> & Hl1).
    rewrite (list_remove_first _ _ _ Hl1). simpl.
    apply sublist_app; [done |]. by apply sublist_cons.
  - by rewrite (list_remove_absent _ _ Hout).
Qed.

Lemma remove_from_same_state (f : Hook) (lists : list HookList) (m m' : Mario) :
  remove_from f lists m = Ok m' -> same_state m m'.
Proof.
  revert m. induction lists as [| c rest IH]; intros m Hrun; cbn [remove_from] in Hrun.
  - injection Hrun as <-. apply same_state_refl.
  - destruct (decide (f ∈ hooks c m)); [| by apply IH].
    destruct (list_remove f (hooks c m)) as [l' |]; [| done].
    apply (same_state_trans _ (set_hooks c l' m)); [apply same_state_set_hooks |].
    by apply IH.
Qed.

Lemma RemoveEventsHook_callable (f : Hook) (m : Mario) :
  exists m', RemoveEventsHook (PyFunc f) m = Ok m' /\ same_state m m' /\
    forall c, hooks c m' = without_first f (hooks c m).
Proof.
  destruct (remove_from_spec f ALLHOOKS m ALLHOOKS_NoDup) as (m' & Hrun & Hhooks & _).
  exists m'. split; [exact Hrun |]. split.
  - by apply (remove_from_same_state f ALLHOOKS).
  - intros c. rewrite Hhooks. by rewrite decide_True by apply ALLHOOKS_complete.
Qed.

Lemma RemoveEventsHook_spec (funcs : pyobj) (m : Mario) :
  exists m', RemoveEventsHook funcs m = Ok m' /\ same_state m m' /\
    forall c, hooks c m' =
              fold_left (fun l f => without_first f l) (callables funcs) (hooks c m).
Proof.
  revert m.
  induction funcs as [| n | f | items IH] using pyobj_nested_ind; intros m.
  - exists m. split; [done |]. split; [apply same_state_refl | done].
  - exists m. split; [done |]. split; [apply same_state_refl | done].
  - apply RemoveEventsHook_callable.
  - cbn [RemoveEventsHook callables].
    revert m. induction IH as [| x l Hx _ IHl]; intros m.
    + exists m. split; [done |]. split; [apply same_state_refl | done].
    + destruct (Hx m) as (m1 & Hrun1 & Hs1 & Hh1).
      destruct (IHl m1) as (m2 & Hrun2 & Hs2 & Hh2).
      exists m2. cbn [fold_left map concat]. rewrite Hrun1.
      split; [exact Hrun2 |]. split; [by apply (same_state_trans _ m1) |].
      intros c. by rewrite Hh2, Hh1, fold_left_app.
Qed.

Lemma fold_without_first_sublist (fs l : list Hook) :
  fold_left (fun l f => without_first f l) fs l `sublist_of` l.
Proof.
  revert l. induction fs as [| f fs IH]; intros l; simpl; [done |].
  etrans; [apply IH | apply without_first_sublist].
Qed.


(** X4: registering a function that is in none of the four lists and then
    removing it gives back the session as it was. *)
Theorem add_then_remove_restores (c : HookList) (f : Hook) (m : Mario) :
  (forall c', f ∉ hooks c' m) ->
  RemoveEventsHook (PyFunc f) (add_hooks c (PyFunc f) m) = Ok m.
Proof.
  intros Habs.
  destruct (RemoveEventsHook_callable f (add_hooks c (PyFunc f) m))
    as (m' & Hrun & Hs & Hh).
  rewrite Hrun. f_equal. apply Mario_ext.
  - apply (same_state_trans _ (add_hooks c (PyFunc f) m)); [| exact Hs].
    rewrite add_hooks_appends. apply same_state_set_hooks.
  - intros c'. rewrite Hh. destruct (decide (c' = c)) as [-> | Hne].
    + rewrite add_hooks_callable. unfold without_first.
      rewrite list_remove_first by apply Habs. simpl. by rewrite app_nil_r.
    + rewrite add_hooks_other by done. unfold without_first.
      by rewrite list_remove_absent by apply Habs.
Qed.

Lemma add_then_remove_restores_witness :
  (forall c', 7%nat ∉ hooks c' (self sample_world)) /\
  RemoveEventsHook (PyFunc 7%nat) (AddPantsHook (PyFunc 7%nat) (self sample_world))
  = Ok (self sample_world).
Proof.
  assert (Habs : forall c', 7%nat ∉ hooks c' (self sample_world))
    by (intros []; by apply (bool_decide_unpack _)).
  split; [exact Habs |].
  exact (add_then_remove_restores PantsEventHooks 7%nat (self sample_world) Habs).
Defined.

(** X5: registering again a function that a list already holds and then
    removing it once does not undo the registration: the older entry is
    the one removed, so the function moves to the end of the list. *)
Theorem add_then_remove_moves_to_end (c : HookList) (f : Hook) (l1 l2 : list Hook)
    (m : Mario) :
  hooks c m = l1 ++ f :: l2 -> f ∉ l1 ->
  exists m', RemoveEventsHook (PyFunc f) (add_hooks c (PyFunc f) m) = Ok m' /\
    hooks c m' = l1 ++ l2 ++ [f].
Proof.
  intros Heq Hl1.
  destruct (RemoveEventsHook_callable f (add_hooks c (PyFunc f) m))
    as (m' & Hrun & _ & Hh).
  exists m'. split; [exact Hrun |].
  rewrite Hh, add_hooks_callable, Heq. unfold without_first.
  rewrite <- (assoc_L (++)). simpl.
  by rewrite (list_remove_first f l1 (l2 ++ [f]) Hl1).
Qed.

Lemma add_then_remove_moves_to_end_witness :
  hooks TileEventHooks (self sample_world) = [] ++ 1%nat :: [2%nat] /\
  (1%nat ∉ ([] : list Hook)) /\
  exists m',
    RemoveEventsHook (PyFunc 1%nat) (AddTileHook (PyFunc 1%nat) (self sample_world))
    = Ok m' /\
    hooks TileEventHooks m' = [2; 1]%nat.
Proof.
  split; [reflexivity |]. split; [apply not_elem_of_nil |].
  exact (add_then_remove_moves_to_end TileEventHooks 1%nat [] [2%nat] (self sample_world)
           eq_refl (not_elem_of_nil _)).
Defined.

(** ** [signed] and its inverse *)

(** X6: [signed] is one-to-one on bytes and onto -128..127: the byte of a
    value [v] of that range is [v mod 256], and [signed] gives [v] back. *)
Theorem signed_inverse (v b1 b2 : Z) :
  -128 <= v <= 127 -> 0 <= b1 <= 255 -> 0 <= b2 <= 255 ->
  0 <= v mod 256 <= 255 /\ signed (v mod 256) = v /\
  (signed b1 = signed b2 -> b1 = b2).
Proof.
  intros Hv Hb1 Hb2.
  assert (Hm : 0 <= v mod 256 < 256) by (apply Z.mod_pos_bound; lia).
  split; [lia |]. split.
  - unfold signed. destruct (Z.gtb_spec (v mod 256) 127) as [Hgt | Hle].
    + destruct (Z.le_gt_cases 0 v) as [Hpos | Hneg].
      * rewrite Z.mod_small in Hgt by lia. lia.
      * rewrite <- (Z.mod_unique v 256 (-1) (v + 256)); lia.
    + destruct (Z.le_gt_cases 0 v) as [Hpos | Hneg].
      * apply Z.mod_small. lia.
      * rewrite <- (Z.mod_unique v 256 (-1) (v + 256)) in Hle; lia.
  - intros Heq. rewrite <- (signed_mod b1 Hb1), <- (signed_mod b2 Hb2). by rewrite Heq.
Qed.

Lemma signed_inverse_witness :
  -128 <= -56 <= 127 /\ signed ((-56) mod 256) = -56 /\
  (signed 200 = signed 200 -> 200 = 200).
Proof.
  assert (Hv : -128 <= -56 <= 127) by lia.
  assert (Hb : 0 <= 200 <= 255) by lia.
  destruct (signed_inverse (-56) 200 200 Hv Hb Hb) as (_ & Hinv & Hinj).
  split; [exact Hv |]. split; [exact Hinv | exact Hinj].
Defined.

(** ** The other branches of the decoder *)

Ltac read H := rewrite (bind_ok _ _ _ _ _ (index_ok _ _ _ _ H)).

(** X7: a camera frame with [data[5] = 0xff] and another value in [data[6]]
    is a ground colour: [ground] becomes the name of [data[6]] (its entry in
    [HEX_TO_COLOR_TILE], or "Unkown Color: " and the code in hexadecimal),
    one line is logged, and every tile hook is called with that name.
    [data[4]] is not read and [recentTile] keeps its value. *)
Theorem handle_events_ground_colour (D : LEGO_MARIO_DATA) (sender : Z) (data : list Z)
    (d6 : Z) (w : World) :
  data !! 2%nat = Some 0x45 -> data !! 3%nat = Some 0x01 ->
  data !! 5%nat = Some 0xff -> data !! 6%nat = Some d6 -> d6 <> 0xff ->
  _handle_events D sender data w =
  (Ok tt,
   add_effects
     (log_effects (self w) (color_name D d6 +:+ " Ground, Hex: " +:+ bytes_hex data) LF ++
      hook_calls TileEventHooks (ArgStr (color_name D d6))
        (set_ground (color_name D d6) (self w)))
     (with_self (set_ground (color_name D d6)) w)) /\
  recentTile (set_ground (color_name D d6) (self w)) = recentTile (self w) /\
  (HEX_TO_COLOR_TILE D !! d6 = None ->
   color_name D d6 = "Unkown Color: " +:+ hex d6).
Proof.
  intros H2 H3 H5 H6 Hd6. split; [| split].
  - unfold _handle_events. cbv zeta.
    read H2. cbn [Z.eqb Pos.eqb]. read H3. cbn [Z.eqb Pos.eqb]. read H5. read H6.
    replace (d6 =? 255) with false by (symmetry; by apply Z.eqb_neq).
    rewrite andb_false_r. cbn [Z.eqb Pos.eqb].
    fold (color_name D d6).
    rewrite (bind_ok _ _ _ _ _ (_log_spec _ _ _)).
    rewrite _callTileHooks_spec. simpl. unfold add_effects, with_self. simpl.
    by rewrite (assoc_L (++)).
  - reflexivity.
  - intros Hnone. unfold color_name, dict_get. by rewrite Hnone.
Qed.

Lemma handle_events_ground_colour_witness :
  (0x13 <> 0xff) /\
  fst (_handle_events sample_data 0 [8; 0; 0x45; 0x01; 0x00; 0xff; 0x13; 0x00] sample_world)
  = Ok tt /\
  ground (self (snd (_handle_events sample_data 0 [8; 0; 0x45; 0x01; 0x00; 0xff; 0x13; 0x00]
                       sample_world))) = Some "White".
Proof.
  assert (Hne : 0x13 <> 0xff) by discriminate.
  destruct (handle_events_ground_colour sample_data 0
              [8; 0; 0x45; 0x01; 0x00; 0xff; 0x13; 0x00] 0x13 sample_world
              eq_refl eq_refl eq_refl eq_refl Hne) as (Hrun & _).
  split; [exact Hne |]. rewrite Hrun. split; reflexivity.
Defined.

(** X8: a camera frame with [data[5] = data[6] = 0xff] is only logged
    ("IDLE?"): no tile hook is called, whatever [data[4]] holds, and the
    session is unchanged. *)
Theorem handle_events_idle (D : LEGO_MARIO_DATA) (sender : Z) (data : list Z)
    (w : World) :
  data !! 2%nat = Some 0x45 -> data !! 3%nat = Some 0x01 ->
  data !! 5%nat = Some 0xff -> data !! 6%nat = Some 0xff ->
  _handle_events D sender data w =
  (Ok tt, add_effects (log_effects (self w) ("IDLE?, Hex: " +:+ bytes_hex data) LF) w) /\
  called TileEventHooks
    (log_effects (self w) ("IDLE?, Hex: " +:+ bytes_hex data) LF) = [].
Proof.
  intros H2 H3 H5 H6. split.
  - unfold _handle_events. cbv zeta.
    read H2. cbn [Z.eqb Pos.eqb]. read H3. cbn [Z.eqb Pos.eqb]. read H5. read H6.
    cbn [Z.eqb Pos.eqb andb]. apply _log_spec.
  - rewrite called_log_effects. by rewrite decide_False.
Qed.

Lemma handle_events_idle_witness :
  _handle_events sample_data 0 [8; 0; 0x45; 0x01; 0xb8; 0xff; 0xff; 0x00] sample_world =
  (Ok tt,
   add_effects
     (log_effects (self sample_world)
        ("IDLE?, Hex: " +:+ bytes_hex [8; 0; 0x45; 0x01; 0xb8; 0xff; 0xff; 0x00]) LF)
     sample_world).
Proof.
  exact (proj1 (handle_events_idle sample_data 0
                  [8; 0; 0x45; 0x01; 0xb8; 0xff; 0xff; 0x00] sample_world
                  eq_refl eq_refl eq_refl eq_refl)).
Defined.

(** X9: a camera frame of at least 7 bytes whose [data[5]] is neither 0x00
    nor 0xff is dropped without a trace: [_handle_events] returns and the
    world is as before: nothing is logged, stored or dispatched. *)
Theorem handle_events_camera_dropped (D : LEGO_MARIO_DATA) (sender : Z)
    (data : list Z) (d5 d6 : Z) (w : World) :
  data !! 2%nat = Some 0x45 -> data !! 3%nat = Some 0x01 ->
  data !! 5%nat = Some d5 -> data !! 6%nat = Some d6 ->
  d5 <> 0x00 -> d5 <> 0xff ->
  _handle_events D sender data w = (Ok tt, w).
Proof.
  intros H2 H3 H5 H6 Hd0 Hdf. unfold _handle_events. cbv zeta.
  read H2. cbn [Z.eqb Pos.eqb]. read H3. cbn [Z.eqb Pos.eqb]. read H5. read H6.
  replace ((d5 =? d6) && (d6 =? 255)) with false.
  - replace (d5 =? 0) with false by (symmetry; by apply Z.eqb_neq).
    by replace (d5 =? 255) with false by (symmetry; by apply Z.eqb_neq).
  - symmetry. apply andb_false_iff.
    destruct (Z.eqb_spec d5 d6) as [<- | Hne]; [right | by left].
    by apply Z.eqb_neq.
Qed.

Lemma handle_events_camera_dropped_witness :
  (0x01 <> 0x00) /\ (0x01 <> 0xff) /\
  _handle_events sample_data 0 [8; 0; 0x45; 0x01; 0xb8; 0x01; 0x00; 0x00] sample_world
  = (Ok tt, sample_world).
Proof.
  assert (H0 : 0x01 <> 0x00) by discriminate.
  assert (Hf : 0x01 <> 0xff) by discriminate.
  split; [exact H0 |]. split; [exact Hf |].
  exact (handle_events_camera_dropped sample_data 0
           [8; 0; 0x45; 0x01; 0xb8; 0x01; 0x00; 0x00] 0x01 0x00 sample_world
           eq_refl eq_refl eq_refl eq_refl H0 Hf).
Defined.

(** X10: a pants frame needs only 5 bytes.  [pants] becomes the name of
    [data[4]] (its entry in [HEX_TO_PANTS], or "Unkown"), one line is logged
    and every pants hook is called with that name; [ground], [recentTile]
    and [acceleration] keep their values. *)
Theorem handle_events_pants (D : LEGO_MARIO_DATA) (sender : Z) (data : list Z)
    (d4 : Z) (w : World) :
  data !! 2%nat = Some 0x45 -> data !! 3%nat = Some 0x02 -> data !! 4%nat = Some d4 ->
  _handle_events D sender data w =
  (Ok tt,
   add_effects
     (log_effects (self w) (pants_message D d4 data) LF ++
      hook_calls PantsEventHooks (ArgStr (pants_name D d4))
        (set_pants (pants_name D d4) (self w)))
     (with_self (set_pants (pants_name D d4)) w)) /\
  (HEX_TO_PANTS D !! d4 = None -> pants_name D d4 = "Unkown").
Proof.
  intros H2 H3 H4. split.
  - unfold _handle_events. cbv zeta.
    read H2. cbn [Z.eqb Pos.eqb]. read H3. cbn [Z.eqb Pos.eqb]. read H4.
    fold (pants_name D d4). fold (pants_message D d4 data).
    rewrite (bind_ok _ _ _ _ _ (_log_spec _ _ _)).
    rewrite _callPantsHooks_spec. simpl. unfold add_effects, with_self. simpl.
    by rewrite (assoc_L (++)).
  - intros Hnone. unfold pants_name, dict_get. by rewrite Hnone.
Qed.

Lemma handle_events_pants_witness :
  pants (self (snd (_handle_events sample_data 0 [5; 0; 0x45; 0x02; 0x7f] sample_world)))
  = Some "Unkown".
Proof.
  destruct (handle_events_pants sample_data 0 [5; 0; 0x45; 0x02; 0x7f] 0x7f sample_world
              eq_refl eq_refl eq_refl) as (Hrun & _).
  rewrite Hrun. reflexivity.
Defined.

Lemma gesture_of_zero (D : LEGO_MARIO_DATA) : gesture_of D 0 = "".
Proof.
  unfold gesture_of. induction (BINARY_GESTURES D) as [| [k label] l IH]; [done |].
  simpl. exact IH.
Qed.

(** X11: a motion frame whose bytes 4 and 5 are repeated by the rest of the
    frame ([data[4:6] == data[6:]]) is taken for a gesture: it is logged and
    nothing else happens; no accelerometer hook is called and [acceleration]
    keeps its value, so a reading of this shape is never dispatched.  A
    motion frame of four bytes is of that kind and logs the empty gesture. *)
Theorem handle_events_gesture (D : LEGO_MARIO_DATA) (sender : Z) (data : list Z)
    (w : World) :
  data !! 2%nat = Some 0x45 -> data !! 3%nat = Some 0x00 ->
  slice 4 6 data = slice_from 6 data ->
  _handle_events D sender data w =
  (Ok tt,
   add_effects
     (log_effects (self w) (gesture_of D (int_from_bytes_big (slice 4 6 data))) LF) w) /\
  called AccelerometerEventHooks
    (log_effects (self w) (gesture_of D (int_from_bytes_big (slice 4 6 data))) LF) = [] /\
  ((length data <= 4)%nat -> gesture_of D (int_from_bytes_big (slice 4 6 data)) = "").
Proof.
  intros H2 H3 Hg. split; [| split].
  - unfold _handle_events. cbv zeta.
    read H2. cbn [Z.eqb Pos.eqb]. read H3. cbn [Z.eqb Pos.eqb].
    rewrite (bool_decide_eq_true_2 _ Hg). apply _log_spec.
  - rewrite called_log_effects. by rewrite decide_False.
  - intros Hlen. unfold slice. rewrite drop_ge by done. simpl.
    apply gesture_of_zero.
Qed.

Lemma handle_events_gesture_witness :
  slice 4 6 [8; 0; 0x45; 0x00; 0x01; 0x02; 0x01; 0x02]
  = slice_from 6 [8; 0; 0x45; 0x00; 0x01; 0x02; 0x01; 0x02] /\
  _handle_events sample_data 0 [8; 0; 0x45; 0x00; 0x01; 0x02; 0x01; 0x02] sample_world =
  (Ok tt, add_effects (log_effects (self sample_world) "Shake" LF) sample_world).
Proof.
  split; [reflexivity |].
  exact (proj1 (handle_events_gesture sample_data 0
                  [8; 0; 0x45; 0x00; 0x01; 0x02; 0x01; 0x02] sample_world
                  eq_refl eq_refl eq_refl)).
Defined.

(** X12: a hub action frame needs only 4 bytes and is logged under the name
    of [data[3]]; the action 0x31 ("hub will disconnect"), and no other,
    schedules [disconnect].  The session itself is unchanged. *)
Theorem handle_events_hub_action (D : LEGO_MARIO_DATA) (sender : Z) (data : list Z)
    (d3 : Z) (w : World) :
  data !! 2%nat = Some 0x02 -> data !! 3%nat = Some d3 ->
  exists w', _handle_events D sender data w = (Ok tt, w') /\
    self w' = self w /\
    effects w' = effects w ++ log_effects (self w) (action_message D d3 data) LF /\
    tasks w' = tasks w ++ (if decide (d3 = 0x31) then [TaskDisconnect] else []).
Proof.
  intros H2 H3. unfold _handle_events. cbv zeta.
  read H2. cbn [Z.eqb Pos.eqb]. read H3.
  fold (action_message D d3 data).
  rewrite (bind_ok _ _ _ _ _ (_log_spec _ _ _)).
  destruct (Z.eqb_spec d3 0x31) as [-> | Hne].
  - eexists. split; [reflexivity |]. by rewrite decide_True.
  - eexists. split; [reflexivity |]. rewrite decide_False by done.
    simpl. by rewrite app_nil_r.
Qed.

Lemma handle_events_hub_action_witness :
  exists w', _handle_events sample_data 0 [4; 0; 0x02; 0x31] sample_world = (Ok tt, w') /\
    tasks w' = [TaskConnect; TaskDisconnect].
Proof.
  destruct (handle_events_hub_action sample_data 0 [4; 0; 0x02; 0x31] 0x31 sample_world
              eq_refl eq_refl) as (w' & Hrun & _ & _ & Htasks).
  exists w'. split; [exact Hrun | exact Htasks].
Defined.

(** X13: a port mode acknowledgment ([data[2] = 0x47]) is read up to
    [data[9]]: with fewer than 10 bytes [_handle_events] raises [IndexError]
    and the world is as before; with 10 bytes or more one line is logged,
    saying "without notifications" exactly when [data[9]] is 0, and the
    session is unchanged. *)
Theorem handle_events_port_mode (D : LEGO_MARIO_DATA) (sender : Z) (data : list Z)
    (w : World) :
  data !! 2%nat = Some 0x47 ->
  ((length data < 10)%nat -> _handle_events D sender data w = (Raise IndexError, w)) /\
  (forall d3 d4 d9,
     data !! 3%nat = Some d3 -> data !! 4%nat = Some d4 -> data !! 9%nat = Some d9 ->
     _handle_events D sender data w =
     (Ok tt, add_effects (log_effects (self w) (port_mode_message d3 d4 d9 data) LF) w)).
Proof.
  intros H2. split.
  - intros Hlen. unfold _handle_events. cbv zeta. read H2. cbn [Z.eqb Pos.eqb].
    assert (H9 : index data 9 w = (Raise IndexError, w)) by (apply index_short; lia).
    destruct (data !! 3%nat) as [d3 |] eqn:H3;
      [| apply bind_raise; unfold index; by rewrite H3].
    read H3.
    destruct (data !! 4%nat) as [d4 |] eqn:H4;
      [| apply bind_raise; unfold index; by rewrite H4].
    read H4. by apply bind_raise.
  - intros d3 d4 d9 H3 H4 H9. unfold _handle_events. cbv zeta.
    read H2. cbn [Z.eqb Pos.eqb]. read H3. read H4. read H9.
    apply _log_spec.
Qed.

Lemma handle_events_port_mode_witness :
  (length [10; 0; 0x47; 0x01; 0x00; 0x05; 0x00; 0x00; 0x00] < 10)%nat /\
  _handle_events sample_data 0 [10; 0; 0x47; 0x01; 0x00; 0x05; 0x00; 0x00; 0x00] sample_world
  = (Raise IndexError, sample_world) /\
  _handle_events sample_data 0 [10; 0; 0x47; 0x01; 0x00; 0x05; 0x00; 0x00; 0x00; 0x00]
    sample_world
  = (Ok tt,
     add_effects
       (log_effects (self sample_world)
          "Port 1 changed to mode 0 without notifications, Hex: 0a004701000500000000" LF)
       sample_world).
Proof.
  assert (Hlen : (length [10; 0; 0x47; 0x01; 0x00; 0x05; 0x00; 0x00; 0x00] < 10)%nat)
    by (simpl; lia).
  split; [exact Hlen |]. split.
  - exact (proj1 (handle_events_port_mode sample_data 0
                    [10; 0; 0x47; 0x01; 0x00; 0x05; 0x00; 0x00; 0x00] sample_world eq_refl)
             Hlen).
  - exact (proj2 (handle_events_port_mode sample_data 0
                    [10; 0; 0x47; 0x01; 0x00; 0x05; 0x00; 0x00; 0x00; 0x00] sample_world
                    eq_refl) 0x01 0x00 0x00 eq_refl eq_refl eq_refl).
Defined.

(** X14: a frame of at least 3 bytes whose [data[2]] is none of 0x45, 0x02,
    0x04, 0x47 and 0x01 is logged as an unknown message and has no other
    effect, however short it is. *)
Theorem handle_events_unknown (D : LEGO_MARIO_DATA) (sender : Z) (data : list Z)
    (d2 : Z) (w : World) :
  data !! 2%nat = Some d2 ->
  d2 <> 0x45 -> d2 <> 0x02 -> d2 <> 0x04 -> d2 <> 0x47 -> d2 <> 0x01 ->
  _handle_events D sender data w =
  (Ok tt,
   add_effects
     (log_effects (self w)
        ("Unknown message - check Lego Wireless Protocol, " +:+ "Hex: " +:+ bytes_hex data)
        LF) w).
Proof.
  intros H2 N1 N2 N3 N4 N5. unfold _handle_events. cbv zeta. read H2.
  rewrite !(proj2 (Z.eqb_neq d2 _)) by done.
  unfold mret at 1. unfold M_ret at 1. unfold mbind at 1. unfold M_bind at 1.
  apply _log_spec.
Qed.

Lemma handle_events_unknown_witness :
  _handle_events sample_data 0 [3; 0; 0x99] sample_world =
  (Ok tt,
   add_effects
     (log_effects (self sample_world)
        "Unknown message - check Lego Wireless Protocol, Hex: 030099" LF) sample_world).
Proof.
  assert (N1 : 0x99 <> 0x45) by discriminate. assert (N2 : 0x99 <> 0x02) by discriminate.
  assert (N3 : 0x99 <> 0x04) by discriminate. assert (N4 : 0x99 <> 0x47) by discriminate.
  assert (N5 : 0x99 <> 0x01) by discriminate.
  exact (handle_events_unknown sample_data 0 [3; 0; 0x99] 0x99 sample_world
           eq_refl N1 N2 N3 N4 N5).
Defined.

(** ** What the decoder leaves alone *)

Lemma kept_refl (m : Mario) : kept m m.
Proof. by repeat split. Qed.

Lemma kept_trans (m1 m2 m3 : Mario) : kept m1 m2 -> kept m2 m3 -> kept m1 m3.
Proof.
  intros (A0 & A1 & A2 & A3 & A4 & A5) (B0 & B1 & B2 & B3 & B4 & B5).
  unfold kept. split; [intros c; by rewrite B0, A0 |]. repeat split; congruence.
Qed.

Lemma decodes_stay {A : Type} (m : M A) :
  (forall w, exists r, m w = (r, w)) -> decodes m.
Proof.
  intros Hm w r w' Hrun. destruct (Hm w) as (r0 & H0).
  rewrite H0 in Hrun. injection Hrun as <- <-.
  split; [apply kept_refl |]. split; [done |].
  exists [], []. rewrite !app_nil_r. by repeat split.
Qed.

Lemma decodes_mret {A : Type} (a : A) : decodes (mret a : M A).
Proof. apply decodes_stay. intros w. by exists (Ok a). Qed.

Lemma decodes_index (data : list Z) (i : nat) : decodes (index data i).
Proof.
  apply decodes_stay. intros w. unfold index.
  destruct (data !! i) as [b |]; by eexists.
Qed.

Lemma decodes_bind {A B : Type} (m : M A) (k : A -> M B) :
  decodes m -> (forall a, decodes (k a)) -> decodes (m ≫= k).
Proof.
  intros Hm Hk w r w' Hrun. unfold mbind, M_bind in Hrun.
  destruct (m w) as [[a | e] w1] eqn:H1.
  - destruct (Hm w _ _ H1) as (K1 & R1 & n1 & t1 & E1 & T1 & L1 & Q1 & D1).
    destruct (Hk a w1 _ _ Hrun) as (K2 & R2 & n2 & t2 & E2 & T2 & L2 & Q2 & D2).
    split; [by apply (kept_trans _ (self w1)) |]. split; [congruence |].
    exists (n1 ++ n2), (t1 ++ t2).
    split; [by rewrite E2, E1, (assoc_L (++)) |].
    split; [by rewrite T2, T1, (assoc_L (++)) |].
    split; [by apply Forall_app |]. split; [| by apply Forall_app].
    intros Hq. apply Forall_app. split; [by apply Q1 |].
    apply Q2. destruct K1 as (_ & Hd & _). congruence.
  - injection Hrun as <- <-. by apply (Hm w _ _ H1).
Qed.

Lemma decodes_effects {A : Type} (m : M A) (a : A) (es : Mario -> list Effect) :
  (forall w, m w = (Ok a, add_effects (es (self w)) w)) ->
  (forall m0, Forall is_local (es m0)) ->
  (forall m0, _doLog m0 = false -> Forall (fun e => is_print e = false) (es m0)) ->
  decodes m.
Proof.
  intros Hm Hl Hq w r w' Hrun. rewrite Hm in Hrun. injection Hrun as <- <-.
  split; [apply kept_refl |]. split; [done |].
  exists (es (self w)), []. rewrite app_nil_r. repeat split; auto.
Qed.

Lemma local_hook_calls (c : HookList) (args : HookArgs) (m : Mario) :
  Forall is_local (hook_calls c args m) /\
  Forall (fun e => is_print e = false) (hook_calls c args m).
Proof. split; by apply Forall_hook_calls. Qed.

Lemma decodes_log (msg end_ : string) : decodes (_log msg end_).
Proof.
  apply (decodes_effects _ tt (fun m0 => log_effects m0 msg end_)).
  - apply _log_spec.
  - intros m0. unfold log_effects. apply Forall_app. split.
    + apply local_hook_calls.
    + destruct (_doLog m0); by repeat constructor.
  - intros m0 Hq. unfold log_effects. rewrite Hq, app_nil_r. apply local_hook_calls.
Qed.

Lemma decodes_cache (f : Mario -> Mario) :
  (forall m, kept m (f m)) -> decodes (update_self f).
Proof.
  intros Hf w r w' Hrun. injection Hrun as <- <-.
  split; [apply Hf |]. split; [done |].
  exists [], []. simpl. rewrite !app_nil_r. by repeat split.
Qed.

Lemma kept_set_ground (v : string) (m : Mario) : kept m (set_ground v m).
Proof. by repeat split. Qed.

Lemma kept_set_recentTile (v : string) (m : Mario) : kept m (set_recentTile v m).
Proof. by repeat split. Qed.

Lemma kept_set_acceleration (v : Z * Z * Z) (m : Mario) : kept m (set_acceleration v m).
Proof. by repeat split. Qed.

Lemma kept_set_pants (v : string) (m : Mario) : kept m (set_pants v m).
Proof. by repeat split. Qed.

Lemma decodes_call_hooks (c : HookList) (args : HookArgs) : decodes (call_hooks c args).
Proof.
  apply (decodes_effects _ tt (fun m0 => hook_calls c args m0)).
  - apply call_hooks_spec.
  - intros m0. apply local_hook_calls.
  - intros m0 _. apply local_hook_calls.
Qed.

Lemma decodes_callTileHooks (tile : string) : decodes (_callTileHooks tile).
Proof.
  apply decodes_bind; [apply decodes_cache, kept_set_ground |].
  intros _. apply decodes_call_hooks.
Qed.

Lemma decodes_callAccelerometerHooks (x y z : Z) : decodes (_callAccelerometerHooks x y z).
Proof.
  apply decodes_bind; [apply decodes_cache, kept_set_acceleration |].
  intros _. apply decodes_call_hooks.
Qed.

Lemma decodes_callPantsHooks (powerup : string) : decodes (_callPantsHooks powerup).
Proof.
  apply decodes_bind; [apply decodes_cache, kept_set_pants |].
  intros _. apply decodes_call_hooks.
Qed.

Lemma decodes_recentTile (v : string) : decodes (update_self (set_recentTile v)).
Proof. apply decodes_cache, kept_set_recentTile. Qed.

Lemma decodes_disconnect_task : decodes (create_task TaskDisconnect).
Proof.
  intros w r w' Hrun. injection Hrun as <- <-.
  split; [apply kept_refl |]. split; [done |].
  exists [], [TaskDisconnect]. simpl. rewrite app_nil_r.
  repeat split; by repeat constructor.
Qed.

#[local] Hint Resolve decodes_mret decodes_index decodes_log decodes_callTileHooks
  decodes_callAccelerometerHooks decodes_callPantsHooks decodes_recentTile
  decodes_disconnect_task : mario.

Ltac decoding :=
  repeat match goal with
    | |- decodes (if ?b then _ else _) => destruct b
    | |- decodes (_ ≫= _) => apply decodes_bind; [| intros ?]
    | |- decodes _ => solve [auto with mario]
    end.

Lemma _handle_events_decodes (D : LEGO_MARIO_DATA) (sender : Z) (data : list Z) :
  decodes (_handle_events D sender data).
Proof. unfold _handle_events. cbv zeta. decoding. Qed.

(** X15: whatever the frame, and whether it is decoded or raises,
    [_handle_events] leaves the four hook lists, [_doLog], [_run],
    [_autoReconnect], [_client], [defaultVolume] and the module's
    [REQUEST_RGB_COMMAND] as they were, and schedules nothing but
    [disconnect]: only the cached readings of the session can change. *)
Theorem handle_events_keeps_session (D : LEGO_MARIO_DATA) (sender : Z)
    (data : list Z) (w : World) :
  (forall c, hooks c (self (snd (_handle_events D sender data w))) = hooks c (self w)) /\
  _doLog (self (snd (_handle_events D sender data w))) = _doLog (self w) /\
  _run (self (snd (_handle_events D sender data w))) = _run (self w) /\
  _autoReconnect (self (snd (_handle_events D sender data w))) = _autoReconnect (self w) /\
  _client (self (snd (_handle_events D sender data w))) = _client (self w) /\
  defaultVolume (self (snd (_handle_events D sender data w))) = defaultVolume (self w) /\
  REQUEST_RGB_COMMAND (snd (_handle_events D sender data w)) = REQUEST_RGB_COMMAND w /\
  exists ts, tasks (snd (_handle_events D sender data w)) = tasks w ++ ts /\
             Forall (fun t => t = TaskDisconnect) ts.
Proof.
  destruct (_handle_events D sender data w) as [r w'] eqn:Hrun.
  destruct (_handle_events_decodes D sender data w r w' Hrun)
    as ((K0 & K1 & K2 & K3 & K4 & K5) & R & new & ts & _ & T & _ & _ & Dt).
  simpl. repeat (split; [done |]). by exists ts.
Qed.

(** X16: handling a frame never scans and never uses the transport: all it
    does outside the session is to call hooks and to print.  When [_doLog]
    is false it prints nothing. *)
Theorem handle_events_is_local (D : LEGO_MARIO_DATA) (sender : Z)
    (data : list Z) (w : World) :
  exists new,
    effects (snd (_handle_events D sender data w)) = effects w ++ new /\
    Forall is_local new /\
    (_doLog (self w) = false -> Forall (fun e => is_print e = false) new).
Proof.
  destruct (_handle_events D sender data w) as [r w'] eqn:Hrun.
  destruct (_handle_events_decodes D sender data w r w' Hrun)
    as (_ & _ & new & ts & Heff & _ & Hl & Hq & _).
  by exists new.
Qed.

(** ** Finding the device *)

Lemma lower_app (a b : string) : lower (a +:+ b) = lower a +:+ lower b.
Proof. induction a as [| c a IH]; [done |]. simpl. by rewrite IH. Qed.

Lemma prefix_app (p s : string) : String.prefix p (p +:+ s) = true.
Proof.
  induction p as [| c p IH]; simpl; [by destruct s |].
  destruct (Ascii.ascii_dec c c) as [_ | Hne]; [exact IH | done].
Qed.

(** X17: the name test of [connect] ignores case and looks at the beginning
    of the name only: a device whose name starts with "lego mario" or "lego
    luigi" in any mix of upper and lower case passes, whatever follows; a
    device without a name, or with the empty name, does not. *)
Theorem is_mario_ignores_case (name_start rest addr : string) :
  lower name_start = "lego mario" \/ lower name_start = "lego luigi" ->
  is_mario {| d_name := Some (name_start +:+ rest); d_address := addr |} = true /\
  is_mario {| d_name := None; d_address := addr |} = false /\
  is_mario {| d_name := Some ""; d_address := addr |} = false.
Proof.
  intros Hstart. split; [| by split].
  unfold is_mario, startswith. cbn [d_name].
  rewrite lower_app.
  assert (Hne : name_start +:+ rest <> "").
  { destruct name_start; [by destruct Hstart | done]. }
  rewrite (bool_decide_eq_false_2 _ Hne). cbn [negb andb].
  destruct Hstart as [-> | ->].
  - rewrite (prefix_app "lego mario"). apply orb_true_r.
  - by rewrite (prefix_app "lego luigi").
Qed.

Lemma is_mario_ignores_case_witness :
  lower "LEGO Mario" = "lego mario" /\
  is_mario {| d_name := Some "LEGO Mario_j_r"; d_address := "AA:BB" |} = true.
Proof.
  split; [reflexivity |].
  exact (proj1 (is_mario_ignores_case "LEGO Mario" "_j_r" "AA:BB" (or_introl eq_refl))).
Defined.

Lemma for_devices_skips (D : LEGO_MARIO_DATA) (E : Env)
    (before rest : list BLEDevice) (d : BLEDevice) (w : World) :
  forallb (fun d0 => negb (is_mario d0)) before = true -> is_mario d = true ->
  for_devices D E (before ++ d :: rest) w =
  (b ← connect_to D E d; mret (Returned b)) w.
Proof.
  intros Hbefore Hd. induction before as [| d0 before IH]; simpl.
  - by rewrite Hd.
  - simpl in Hbefore. apply andb_true_iff in Hbefore as [H0 Hbefore].
    apply negb_true_iff in H0. rewrite H0. by apply IH.
Qed.

(** X18: of the devices a scan returns, only the first one that passes the
    name test is tried: the loop over the devices behaves as the attempt on
    that device alone, and the devices after it play no part. *)
Theorem for_devices_first_match (D : LEGO_MARIO_DATA) (E : Env)
    (before after : list BLEDevice) (d : BLEDevice) (w : World) :
  forallb (fun d0 => negb (is_mario d0)) before = true -> is_mario d = true ->
  for_devices D E (before ++ d :: after) w =
  (b ← connect_to D E d; mret (Returned b)) w /\
  for_devices D E (before ++ d :: after) w = for_devices D E [d] w.
Proof.
  intros Hbefore Hd.
  split; [by apply for_devices_skips |].
  rewrite (for_devices_skips D E before after d w Hbefore Hd).
  symmetry. by apply (for_devices_skips D E [] [] d w).
Qed.

Lemma for_devices_first_match_witness :
  forallb (fun d0 => negb (is_mario d0))
    [{| d_name := None; d_address := "00:01" |}] = true /\
  is_mario {| d_name := Some "LEGO Mario_j_r"; d_address := "AA:BB" |} = true /\
  for_devices sample_data silent_radio
    ([{| d_name := None; d_address := "00:01" |}] ++
     {| d_name := Some "LEGO Mario_j_r"; d_address := "AA:BB" |} ::
     [{| d_name := Some "lego luigi"; d_address := "CC:DD" |}]) sample_world
  = for_devices sample_data silent_radio
      [{| d_name := Some "LEGO Mario_j_r"; d_address := "AA:BB" |}] sample_world.
Proof.
  split; [reflexivity |]. split; [reflexivity |].
  exact (proj2 (for_devices_first_match sample_data silent_radio
                  [{| d_name := None; d_address := "00:01" |}]
                  [{| d_name := Some "lego luigi"; d_address := "CC:DD" |}]
                  {| d_name := Some "LEGO Mario_j_r"; d_address := "AA:BB" |}
                  sample_world eq_refl eq_refl)).
Defined.

(** ** Connecting and disconnecting *)

Lemma bind_to {A B : Type} (m : M A) (k : A -> M B) (w w1 : World) (a : A)
    (res : result B * World) :
  m w = (Ok a, w1) -> k a w1 = res -> (m ≫= k) w = res.
Proof. intros H1 H2. by rewrite (bind_ok _ _ _ _ _ H1). Qed.

Lemma try_except_ok {A : Type} (body handler : M A) (catches : exn -> bool)
    (w w' : World) (a : A) :
  body w = (Ok a, w') -> try_except body catches handler w = (Ok a, w').
Proof. intros H. unfold try_except. by rewrite H. Qed.

Lemma try_except_caught {A : Type} (body handler : M A) (catches : exn -> bool)
    (w w' : World) (e : exn) :
  body w = (Raise e, w') -> catches e = true ->
  try_except body catches handler w = handler w'.
Proof. intros H Hc. unfold try_except. by rewrite H, Hc. Qed.

Lemma try_except_escapes {A : Type} (body handler : M A) (catches : exn -> bool)
    (w w' : World) (e : exn) :
  body w = (Raise e, w') -> catches e = false ->
  try_except body catches handler w = (Raise e, w').
Proof. intros H Hc. unfold try_except. by rewrite H, Hc. Qed.

Lemma io_done (E : Env) (e : Effect) (w : World) :
  transport E (length (effects w)) = None -> io E e w = (Ok tt, add_effect e w).
Proof. intros H. unfold io. by rewrite H. Qed.

Lemma io_fails (E : Env) (e : Effect) (err : exn) (w : World) :
  transport E (length (effects w)) = Some err -> io E e w = (Raise err, add_effect e w).
Proof. intros H. unfold io. by rewrite H. Qed.

Lemma World_ext (a b : World) :
  self a = self b -> effects a = effects b -> tasks a = tasks b ->
  REQUEST_RGB_COMMAND a = REQUEST_RGB_COMMAND b -> a = b.
Proof. destruct a, b. simpl. congruence. Qed.

(** Reads the fields of a world built by the primitive updates. *)
Ltac fields :=
  cbn [self effects tasks REQUEST_RGB_COMMAND add_task add_effect add_effects with_self].

Section Links.

Variable D : LEGO_MARIO_DATA.
Variable E : Env.

Lemma connect_to_ok (d : BLEDevice) (w : World) :
  reliable E -> Forall is_byte (MUTE_COMMAND D) ->
  connect_to D E d w =
  (Ok true,
   let client := {| address := d_address d |} in
   let m := set_client (Some client) (self w) in
   mkWorld m
     (effects w ++ [ClientConnect client] ++
      log_effects m ("Mario Connected: " +:+ d_address d) LF ++
      subscribe_effects D client)
     (tasks w ++ connected_tasks D client (defaultVolume (self w)))
     (REQUEST_RGB_COMMAND w)).
Proof.
  intros Hrel Hmute. unfold connect_to. apply try_except_ok. cbv zeta.
  eapply bind_to; [apply io_done, Hrel |].
  eapply bind_to; [reflexivity |].
  eapply bind_to; [apply _log_spec |].
  eapply bind_to; [apply io_done, Hrel |].
  eapply bind_to; [reflexivity |].
  eapply bind_to; [apply io_done, Hrel |].
  eapply bind_to; [reflexivity |].
  eapply bind_to; [apply io_done, Hrel |].
  eapply bind_to; [reflexivity |].
  eapply bind_to; [apply io_done, Hrel |].
  eapply bind_to; [reflexivity |].
  eapply bind_to; [reflexivity |].
  cbn [self effects tasks REQUEST_RGB_COMMAND add_task add_effect add_effects with_self].
  replace (defaultVolume (set_client (Some {| address := d_address d |}) (self w)))
    with (defaultVolume (self w)) by (by destruct (self w)).
  unfold connected_tasks, subscribe_effects.
  destruct (defaultVolume (self w)) as [v |].
  - eapply bind_to; [by apply set_volume_run |].
    cbn [self effects tasks REQUEST_RGB_COMMAND add_task add_effect add_effects with_self
         _client set_client].
    replace (_client (set_client (Some {| address := d_address d |}) (self w)))
      with (Some {| address := d_address d |}) by (by destruct (self w)).
    cbn [self effects tasks REQUEST_RGB_COMMAND add_task add_effect add_effects with_self].
    unfold mret, M_ret. f_equal.
    apply World_ext; fields; rewrite <- ?(assoc_L (++)); reflexivity.
  - eapply bind_to; [reflexivity |].
    unfold mret, M_ret. f_equal.
    apply World_ext; fields; rewrite <- ?(assoc_L (++)); reflexivity.
Qed.

End Links.

(** ** The bound on the scans of one [connect] *)

Lemma scanless_stay {A : Type} (m : M A) :
  (forall w, exists r w', m w = (r, w') /\ effects w' = effects w) -> scanless m.
Proof.
  intros Hm w r w' Hrun. destruct (Hm w) as (r0 & w0 & H0 & He).
  rewrite H0 in Hrun. injection Hrun as <- <-.
  exists []. by rewrite app_nil_r.
Qed.

Lemma scanless_mret {A : Type} (a : A) : scanless (mret a : M A).
Proof. apply scanless_stay. intros w. by exists (Ok a), w. Qed.

Lemma scanless_gets {A : Type} (f : World -> A) : scanless (gets f).
Proof. apply scanless_stay. intros w. by eexists _, w. Qed.

Lemma scanless_update_self (f : Mario -> Mario) : scanless (update_self f).
Proof. apply scanless_stay. intros w. by eexists _, _. Qed.

Lemma scanless_create_task (t : Task) : scanless (create_task t).
Proof. apply scanless_stay. intros w. by eexists _, _. Qed.

Lemma scanless_lift {A : Type} (r : result A) : scanless (lift r).
Proof. apply scanless_stay. intros w. destruct r; by eexists _, w. Qed.

Lemma scanless_bind {A B : Type} (m : M A) (k : A -> M B) :
  scanless m -> (forall a, scanless (k a)) -> scanless (m ≫= k).
Proof.
  intros Hm Hk w r w' Hrun. unfold mbind, M_bind in Hrun.
  destruct (m w) as [[a | e] w1] eqn:H1.
  - destruct (Hm w _ _ H1) as (n1 & E1 & S1).
    destruct (Hk a w1 _ _ Hrun) as (n2 & E2 & S2).
    exists (n1 ++ n2). split; [by rewrite E2, E1, (assoc_L (++)) |].
    rewrite scans_app. lia.
  - injection Hrun as <- <-. by apply (Hm w _ _ H1).
Qed.

Lemma scanless_try_except {A : Type} (body handler : M A) (catches : exn -> bool) :
  scanless body -> scanless handler -> scanless (try_except body catches handler).
Proof.
  intros Hb Hh w r w' Hrun. unfold try_except in Hrun.
  destruct (body w) as [[a | e] w1] eqn:H1.
  - injection Hrun as <- <-. by apply (Hb w _ _ H1).
  - destruct (Hb w _ _ H1) as (n1 & E1 & S1).
    destruct (catches e).
    + destruct (Hh w1 _ _ Hrun) as (n2 & E2 & S2).
      exists (n1 ++ n2). split; [by rewrite E2, E1, (assoc_L (++)) |].
      rewrite scans_app. lia.
    + injection Hrun as <- <-. by exists n1.
Qed.

Lemma scanless_log (msg end_ : string) : scanless (_log msg end_).
Proof.
  intros w r w' Hrun. rewrite _log_spec in Hrun. injection Hrun as <- <-.
  eexists. split; [reflexivity | apply scans_log_effects].
Qed.

Lemma scans_nil : scans [] = 0%nat.
Proof. reflexivity. Qed.

Lemma scans_single (e : Effect) : is_scan e = false -> scans [e] = 0%nat.
Proof.
  intros He. unfold scans. rewrite filter_cons_False; [done |].
  rewrite He. by intros [].
Qed.

Lemma scanless_emit (e : Effect) : is_scan e = false -> scanless (emit e).
Proof.
  intros He w r w' Hrun. injection Hrun as <- <-.
  exists [e]. split; [done | by apply scans_single].
Qed.

Lemma scanless_io (E : Env) (e : Effect) : is_scan e = false -> scanless (io E e).
Proof.
  intros He w r w' Hrun. unfold io in Hrun.
  destruct (transport E _); injection Hrun as <- <-;
    exists [e]; (split; [done | by apply scans_single]).
Qed.

#[local] Hint Resolve scanless_mret scanless_gets scanless_update_self
  scanless_create_task scanless_lift scanless_log : mario.

Ltac noscan :=
  repeat match goal with
    | |- scanless (if ?b then _ else _) => destruct b
    | |- scanless (match ?o with Some _ => _ | None => _ end) => destruct o
    | |- scanless (_ ≫= _) => apply scanless_bind; [| intros ?]
    | |- scanless (try_except _ _ _) => apply scanless_try_except
    | |- scanless (io _ _) => apply scanless_io; reflexivity
    | |- scanless (emit _) => apply scanless_emit; reflexivity
    | |- scanless _ => solve [auto with mario]
    end.

Section Bound.

Variable D : LEGO_MARIO_DATA.
Variable E : Env.

Lemma scanless_set_volume (v : Z) : scanless (set_volume D v).
Proof. unfold set_volume. cbv zeta. noscan. Qed.

Lemma scanless_disconnect : scanless (disconnect D E).
Proof. unfold disconnect. noscan. Qed.

Lemma scanless_connect_to (d : BLEDevice) : scanless (connect_to D E d).
Proof.
  unfold connect_to. cbv zeta. noscan;
    solve [apply scanless_set_volume | apply scanless_disconnect].
Qed.

Lemma scanless_for_devices (devices : list BLEDevice) : scanless (for_devices D E devices).
Proof.
  induction devices as [| d rest IH]; cbn [for_devices]; [apply scanless_mret |].
  destruct (is_mario d); [| exact IH].
  apply scanless_bind; [apply scanless_connect_to | intros b; apply scanless_mret].
Qed.

Lemma connect_loop_scans (fuel : nat) (retries : Z) (w w' : World)
    (r : result LoopExit) :
  0 <= retries -> connect_loop D E fuel retries w = (r, w') ->
  exists new, effects w' = effects w ++ new /\ (scans new <= Z.to_nat (3 - retries))%nat.
Proof.
  revert retries w. induction fuel as [| fuel IH]; intros retries w Hpos Hrun.
  - injection Hrun as <- <-. exists []. rewrite app_nil_r, scans_nil. split; [done | lia].
  - cbn [connect_loop] in Hrun. unfold mbind at 1 in Hrun. unfold M_bind at 1 in Hrun.
    unfold gets in Hrun.
    destruct (_run (self w)).
    2: { injection Hrun as <- <-. exists []. rewrite app_nil_r, scans_nil. split; [done | lia]. }
    destruct (Z.gtb_spec (retries + 1) 3) as [Hgt | Hle].
    + rewrite (bind_ok _ _ _ _ _ (_log_spec _ _ _)) in Hrun. injection Hrun as <- <-.
      eexists. split; [reflexivity |]. rewrite scans_log_effects. lia.
    + rewrite (bind_ok _ _ _ _ _ (_log_spec _ _ _)) in Hrun.
      unfold mbind at 1 in Hrun. unfold M_bind at 1 in Hrun. unfold scan at 1 in Hrun.
      unfold mbind at 1 in Hrun. unfold M_bind at 1 in Hrun.
      match type of Hrun with context [for_devices D E ?ds ?w1] =>
        destruct (for_devices D E ds w1) as [[x | e] w2] eqn:Hfor;
        destruct (scanless_for_devices ds w1 _ _ Hfor) as (n2 & E2 & S2)
      end; cbv beta iota in Hrun.
      * assert (Hbase : effects w2 =
                        effects w ++ (search_effects (self w) ++ n2)).
        { rewrite E2. cbn [effects add_effect add_effects]. unfold search_effects.
          by rewrite <- !(assoc_L (++)). }
        assert (Hs : scans (search_effects (self w) ++ n2) = 1%nat)
          by (rewrite scans_app, scans_search_effects; lia).
        destruct x as [b | |].
        -- unfold mret, M_ret in Hrun. injection Hrun as <- <-.
           eexists. split; [exact Hbase |]. lia.
        -- destruct (IH (retries + 1) w2 ltac:(lia) Hrun) as (n3 & E3 & S3).
           exists ((search_effects (self w) ++ n2) ++ n3).
           split; [by rewrite E3, Hbase, <- !(assoc_L (++)) |].
           rewrite scans_app. lia.
        -- destruct (IH (retries + 1) w2 ltac:(lia) Hrun) as (n3 & E3 & S3).
           exists ((search_effects (self w) ++ n2) ++ n3).
           split; [by rewrite E3, Hbase, <- !(assoc_L (++)) |].
           rewrite scans_app. lia.
      * injection Hrun as <- <-.
        exists (search_effects (self w) ++ n2). split.
        -- rewrite E2. cbn [effects add_effect add_effects]. unfold search_effects.
           by rewrite <- !(assoc_L (++)).
        -- rewrite scans_app, scans_search_effects. lia.
Qed.

(** X19: one call of [connect] scans at most three times, whatever the
    radio answers and however the call ends. *)
Theorem connect_scans_at_most_thrice (w : World) :
  exists new, effects (snd (connect D E w)) = effects w ++ new /\ (scans new <= 3)%nat.
Proof.
  destruct (connect D E w) as [r w'] eqn:Hrun. simpl.
  unfold connect in Hrun. unfold mbind at 1 in Hrun. unfold M_bind at 1 in Hrun.
  unfold update_self at 1 in Hrun. unfold modify at 1 in Hrun. cbv zeta in Hrun.
  unfold mbind at 1 in Hrun. unfold M_bind at 1 in Hrun.
  destruct (connect_loop D E 4 0 _) as [[x | e] w1] eqn:Hloop;
    destruct (connect_loop_scans 4 0 _ _ _ ltac:(lia) Hloop) as (n1 & E1 & S1);
    simpl in E1, S1.
  - destruct x as [b | |].
    + injection Hrun as <- <-. exists n1. split; [done | lia].
    + unfold mbind, M_bind in Hrun.
      destruct (disconnect D E w1) as [[[] | e] w2] eqn:Hdis;
        destruct (scanless_disconnect w1 _ _ Hdis) as (n2 & E2 & S2);
        injection Hrun as <- <-; exists (n1 ++ n2);
        (split; [by rewrite E2, E1, (assoc_L (++)) | rewrite scans_app; lia]).
    + injection Hrun as <- <-. exists n1. split; [done | lia].
  - injection Hrun as <- <-. exists n1. split; [done | lia].
Qed.

End Bound.

(** Reads the fields of a session built by the setters. *)
Ltac session :=
  cbn [_doLog _run _autoReconnect _client defaultVolume pants ground acceleration
       recentTile _accelerometerEventHooks _tileEventHooks _pantsEventHooks
       _logEventHooks set_run set_client set_autoReconnect set_pants set_ground
       set_acceleration set_recentTile hooks set_hooks].

Section Sessions.

Variable D : LEGO_MARIO_DATA.
Variable E : Env.

Lemma connect_loop_found (fuel : nat) (before after : list BLEDevice) (d : BLEDevice)
    (w : World) :
  _run (self w) = true ->
  (forall t, discover E t = before ++ d :: after) ->
  forallb (fun d0 => negb (is_mario d0)) before = true -> is_mario d = true ->
  connect_loop D E (S fuel) 0 w =
  (b ← connect_to D E d; mret (Returned b)) (add_effects (search_effects (self w)) w).
Proof.
  intros Hrun Hscan Hbefore Hd. cbn [connect_loop].
  unfold mbind at 1. unfold M_bind at 1. unfold gets. rewrite Hrun.
  change (0 + 1 >? 3) with false. cbv iota.
  rewrite (bind_ok _ _ _ _ _ (_log_spec _ _ _)).
  unfold mbind at 1. unfold M_bind at 1. unfold scan at 1.
  rewrite Hscan.
  rewrite add_effect_add_effects, add_effects_app. fold (search_effects (self w)).
  unfold mbind at 1. unfold M_bind at 1.
  rewrite (for_devices_skips D E before after d _ Hbefore Hd).
  unfold mbind, M_bind.
  by destruct (connect_to D E d _) as [[b | e] w2].
Qed.

(** X20: when the scan finds a device and the transport works, [connect]
    returns [True] after a single scan: the session is running with the
    client of the first device that passed the name test; on that client it
    has connected, started the notifications and written the three
    subscriptions, motion first, then camera, then pants, with a pause of
    0.1 s before each write; the connection watch is scheduled, and so is
    the write of the default volume, clamped, when one was given. *)
Theorem connect_succeeds (before after : list BLEDevice) (d : BLEDevice) (w : World) :
  reliable E -> Forall is_byte (MUTE_COMMAND D) ->
  (forall t, discover E t = before ++ d :: after) ->
  forallb (fun d0 => negb (is_mario d0)) before = true -> is_mario d = true ->
  exists w', connect D E w = (Ok (Some true), w') /\
    _run (self w') = true /\
    _client (self w') = Some {| address := d_address d |} /\
    effects w' =
      effects w ++ search_effects (set_run true (self w)) ++
      [ClientConnect {| address := d_address d |}] ++
      log_effects (set_client (Some {| address := d_address d |}) (set_run true (self w)))
        ("Mario Connected: " +:+ d_address d) LF ++
      subscribe_effects D {| address := d_address d |} /\
    tasks w' =
      tasks w ++ connected_tasks D {| address := d_address d |} (defaultVolume (self w)).
Proof.
  intros Hrel Hmute Hscan Hbefore Hd. unfold connect.
  unfold mbind at 1. unfold M_bind at 1. unfold update_self at 1. unfold modify at 1.
  cbv zeta. unfold mbind at 1. unfold M_bind at 1.
  destruct w as [m es ts rrc]. destruct m as [dl rn auto cl dv pa gr ac rt ha ht hp hl].
  rewrite (connect_loop_found 3 before after d) by done.
  rewrite (bind_ok _ _ _ _ _ (connect_to_ok D E d _ Hrel Hmute)).
  eexists. split; [reflexivity |]. cbv zeta. fields. session.
  repeat split. by rewrite <- ?(assoc_L (++)).
Qed.

Lemma connect_to_refused (d : BLEDevice) (err : exn) (w : World) :
  (forall t, transport E t = Some err) -> _client (self w) = None ->
  connect_to D E d w =
  (Ok false,
   let w1 := add_effects
               ([ClientConnect {| address := d_address d |}] ++
                log_effects (self w) "Error connecting" LF ++
                log_effects (self w) "Disconnecting... " LF) w in
   if _autoReconnect (self w) then add_task TaskConnect w1
   else with_self (set_run false) w1).
Proof.
  intros Hbad Hclient. unfold connect_to. cbv zeta.
  erewrite try_except_caught; [| apply bind_raise, io_fails, Hbad | reflexivity].
  eapply bind_to; [apply _log_spec |].
  eapply bind_to; [by apply disconnect_no_client |].
  unfold mret, M_ret. f_equal. cbv zeta. fields.
  rewrite add_effect_add_effects, !add_effects_app.
  by rewrite <- ?(assoc_L (++)).
Qed.

(** X21: when [client.connect()] raises, whatever the exception, [connect]
    does not raise: it logs "Error connecting", goes through [disconnect]
    and returns [False].  The call has scanned once and written nothing to
    the device; the session has no client, and a new [connect] is scheduled
    if [_autoReconnect] is true, else [_run] is false. *)
Theorem connect_refused (before after : list BLEDevice) (d : BLEDevice) (err : exn)
    (w : World) :
  (forall t, transport E t = Some err) -> _client (self w) = None ->
  (forall t, discover E t = before ++ d :: after) ->
  forallb (fun d0 => negb (is_mario d0)) before = true -> is_mario d = true ->
  exists w', connect D E w = (Ok (Some false), w') /\
    _client (self w') = None /\
    effects w' =
      effects w ++ search_effects (set_run true (self w)) ++
      [ClientConnect {| address := d_address d |}] ++
      log_effects (set_run true (self w)) "Error connecting" LF ++
      log_effects (set_run true (self w)) "Disconnecting... " LF /\
    (if _autoReconnect (self w)
     then tasks w' = tasks w ++ [TaskConnect] /\ _run (self w') = true
     else tasks w' = tasks w /\ _run (self w') = false).
Proof.
  intros Hbad Hclient Hscan Hbefore Hd. unfold connect.
  unfold mbind at 1. unfold M_bind at 1. unfold update_self at 1. unfold modify at 1.
  cbv zeta. unfold mbind at 1. unfold M_bind at 1.
  destruct w as [m es ts rrc]. destruct m as [dl rn auto cl dv pa gr ac rt ha ht hp hl].
  cbn [self _client] in Hclient. subst cl.
  rewrite (connect_loop_found 3 before after d) by done.
  match goal with |- context [(connect_to D E d ≫= _) ?w0] =>
    assert (Hnone : _client (self w0) = None) by reflexivity;
    rewrite (bind_ok _ _ _ _ _ (connect_to_refused d err w0 Hbad Hnone))
  end.
  eexists. split; [reflexivity |]. cbv zeta. fields. session.
  destruct auto; fields; session.
  - split; [done |]. split; [by rewrite <- ?(assoc_L (++)) | done].
  - split; [done |]. split; [by rewrite <- ?(assoc_L (++)) | done].
Qed.

(** What [disconnect] does when the transport raises nothing it does not
    catch. *)
Lemma disconnect_tame (w : World) :
  tame E ->
  exists w' new, disconnect D E w = (Ok tt, w') /\
    effects w' = effects w ++ new /\ scans new = 0%nat /\
    REQUEST_RGB_COMMAND w' = REQUEST_RGB_COMMAND w /\
    self w' = (if _autoReconnect (self w) then set_client None (self w)
               else set_run false (set_client None (self w))) /\
    tasks w' = tasks w ++ (if _autoReconnect (self w) then [TaskConnect] else []).
Proof.
  intros Htame.
  destruct (disconnect D E w) as [r w'] eqn:Hrun.
  destruct (scanless_disconnect D E w _ _ Hrun) as (new & Heff & Hscans).
  exists w', new.
  unfold disconnect in Hrun. unfold mbind at 1 in Hrun. unfold M_bind at 1 in Hrun.
  unfold try_except in Hrun.
  rewrite (bind_ok _ _ _ _ _ (_log_spec _ _ _)) in Hrun.
  unfold mbind at 1 in Hrun. unfold M_bind at 1 in Hrun. unfold gets at 1 in Hrun.
  cbn [self add_effects] in Hrun.
  set (w1 := add_effects (log_effects (self w) "Disconnecting... " LF) w) in *.
  assert (Hfinish : forall w2 : World,
             self w2 = self w -> tasks w2 = tasks w ->
             REQUEST_RGB_COMMAND w2 = REQUEST_RGB_COMMAND w ->
             forall r0 w0,
             (m ← gets self;
              if _autoReconnect m then create_task TaskConnect
              else update_self (set_run false))
               (with_self (set_client None) w2) = (r0, w0) ->
             r0 = Ok tt /\ REQUEST_RGB_COMMAND w0 = REQUEST_RGB_COMMAND w /\
             self w0 = (if _autoReconnect (self w) then set_client None (self w)
                        else set_run false (set_client None (self w))) /\
             tasks w0 = tasks w ++ (if _autoReconnect (self w) then [TaskConnect] else [])).
  { intros w2 Hs Ht Hr r0 w0 Hfin. unfold mbind, M_bind, gets in Hfin.
    cbn [self with_self] in Hfin. rewrite Hs in Hfin.
    replace (_autoReconnect (set_client None (self w))) with (_autoReconnect (self w))
      in Hfin by (by destruct (self w)).
    destruct (_autoReconnect (self w)); injection Hfin as <- <-; simpl;
      rewrite ?Hs, ?Ht, ?Hr, ?app_nil_r; by repeat split. }
  assert (Hnone : with_self (set_client None) w1 = w1 -> True) by done.
  destruct (_client (self w)) as [client |] eqn:Hclient.
  - unfold mbind at 1 in Hrun. unfold M_bind at 1 in Hrun.
    unfold io at 1 in Hrun.
    destruct (transport E (length (effects w1))) as [e1 |] eqn:Ht1.
    + rewrite (Htame _ _ Ht1) in Hrun.
      rewrite (bind_ok _ _ _ _ _ (_log_spec _ _ _)) in Hrun.
      unfold update_self at 1 in Hrun. unfold modify at 1 in Hrun.
      unfold mbind at 1 in Hrun. unfold M_bind at 1 in Hrun.
      match type of Hrun with
      | context [with_self (set_client None) ?w2] =>
          destruct (Hfinish w2 eq_refl eq_refl eq_refl _ _ Hrun) as (-> & ? & ? & ?)
      end.
      by repeat split.
    + unfold mbind at 1 in Hrun. unfold M_bind at 1 in Hrun.
      unfold io at 1 in Hrun.
      match type of Hrun with
      | context [transport E ?t] => destruct (transport E t) as [e2 |] eqn:Ht2
      end.
      * rewrite (Htame _ _ Ht2) in Hrun.
        rewrite (bind_ok _ _ _ _ _ (_log_spec _ _ _)) in Hrun.
        unfold update_self at 1 in Hrun. unfold modify at 1 in Hrun.
        unfold mbind at 1 in Hrun. unfold M_bind at 1 in Hrun.
        match type of Hrun with
        | context [with_self (set_client None) ?w2] =>
            destruct (Hfinish w2 eq_refl eq_refl eq_refl _ _ Hrun) as (-> & ? & ? & ?)
        end.
        by repeat split.
      * unfold update_self at 1 in Hrun. unfold modify at 1 in Hrun.
        unfold mbind at 1 in Hrun. unfold M_bind at 1 in Hrun.
        match type of Hrun with
        | context [with_self (set_client None) ?w2] =>
            destruct (Hfinish w2 eq_refl eq_refl eq_refl _ _ Hrun) as (-> & ? & ? & ?)
        end.
        by repeat split.
  - unfold mret at 1 in Hrun. unfold M_ret at 1 in Hrun.
    unfold mbind at 1 in Hrun. unfold M_bind at 1 in Hrun.
    assert (Hw1 : with_self (set_client None) w1 = w1).
    { apply World_ext; unfold w1; fields; try reflexivity.
      rewrite <- Hclient. by destruct (self w). }
    rewrite <- Hw1 in Hrun.
    destruct (Hfinish w1 eq_refl eq_refl eq_refl _ _ Hrun) as (-> & ? & ? & ?).
    by repeat split.
Qed.


(** X22: when the transport raises nothing but [OSError] and [BleakError],
    [disconnect] returns normally and leaves the session without a client,
    whether the farewell write and the closing of the link went through or
    not; it does not scan; it schedules [connect] again if [_autoReconnect]
    is true and sets [_run] to false otherwise; the hook lists and the
    cached readings are untouched. *)
Theorem disconnect_clears_client (w : World) :
  tame E ->
  exists w', disconnect D E w = (Ok tt, w') /\
    _client (self w') = None /\
    (forall c, hooks c (self w') = hooks c (self w)) /\
    ground (self w') = ground (self w) /\ pants (self w') = pants (self w) /\
    acceleration (self w') = acceleration (self w) /\
    scans (effects w') = scans (effects w) /\
    (if _autoReconnect (self w)
     then tasks w' = tasks w ++ [TaskConnect] /\ _run (self w') = _run (self w)
     else tasks w' = tasks w /\ _run (self w') = false).
Proof.
  intros Htame.
  destruct (disconnect_tame w Htame) as (w' & new & Hrun & Heff & Hsc & _ & Hself & Ht).
  exists w'. split; [exact Hrun |]. rewrite Hself, Ht, Heff, scans_app, Hsc.
  destruct (_autoReconnect (self w)); destruct (self w); simpl;
    rewrite ?app_nil_r; repeat split; try lia; by intros [].
Qed.

(** X23: an exception of the transport that is neither [OSError] nor
    [BleakError] leaves [disconnect] through its [except] clause: the
    session keeps its client, no reconnection is scheduled and [_run] is
    not cleared. *)
Theorem disconnect_escapes (client : BleakClient) (err : exn) (w : World) :
  _client (self w) = Some client ->
  (forall t, transport E t = Some err) -> OSError_or_BleakError err = false ->
  disconnect D E w =
  (Raise err,
   add_effects
     (log_effects (self w) "Disconnecting... " LF ++
      [WriteGattChar client (LEGO_CHARACTERISTIC_UUID D) (DISCONNECT_COMMAND D)]) w).
Proof.
  intros Hclient Hbad Herr. unfold disconnect.
  apply bind_raise. eapply try_except_escapes; [| exact Herr].
  eapply bind_to; [apply _log_spec |].
  unfold mbind at 1. unfold M_bind at 1. unfold gets at 1. cbn [self add_effects].
  rewrite Hclient. apply bind_raise. rewrite (io_fails E _ err) by apply Hbad.
  by rewrite add_effect_add_effects, add_effects_app.
Qed.

Lemma disconnect_reliable (client : BleakClient) (w : World) :
  reliable E -> _client (self w) = Some client ->
  disconnect D E w =
  (Ok tt,
   let w1 :=
     with_self (set_client None)
       (add_effects
          (log_effects (self w) "Disconnecting... " LF ++
           [WriteGattChar client (LEGO_CHARACTERISTIC_UUID D) (DISCONNECT_COMMAND D);
            ClientDisconnect client]) w) in
   if _autoReconnect (self w) then add_task TaskConnect w1
   else with_self (set_run false) w1).
Proof.
  intros Hrel Hclient. unfold disconnect.
  eapply bind_to.
  { apply try_except_ok. eapply bind_to; [apply _log_spec |].
    unfold mbind at 1. unfold M_bind at 1. unfold gets at 1. cbn [self add_effects].
    rewrite Hclient.
    eapply bind_to; [apply io_done, Hrel |].
    eapply bind_to; [apply io_done, Hrel |].
    reflexivity. }
  unfold mbind, M_bind, gets. cbv zeta. fields.
  replace (_autoReconnect (set_client None (self w))) with (_autoReconnect (self w))
    by (by destruct (self w)).
  rewrite !add_effect_add_effects, !add_effects_app, <- ?(assoc_L (++)).
  by destruct (_autoReconnect (self w)).
Qed.

(** X24: for an accepted port and a session with a client,
    [request_port_value] does not raise as long as the transport raises
    nothing but [OSError] and [BleakError].  It stores the port at index 3
    of the module's [REQUEST_RGB_COMMAND], where it stays for later calls,
    and its first act on the transport is the write of that command.  If the
    write raises, the session ends up without a client. *)
Theorem request_port_value_stores_port (port : Z) (client : BleakClient) (w : World) :
  tame E -> port ∈ [0; 1; 2; 3; 4; 6] -> _client (self w) = Some client ->
  (3 < length (REQUEST_RGB_COMMAND w))%nat -> Forall is_byte (REQUEST_RGB_COMMAND w) ->
  exists w' rest, request_port_value D E port w = (Ok tt, w') /\
    REQUEST_RGB_COMMAND w' = <[3%nat := port]> (REQUEST_RGB_COMMAND w) /\
    REQUEST_RGB_COMMAND w' !! 3%nat = Some port /\
    effects w' =
      effects w ++
      WriteGattChar client (LEGO_CHARACTERISTIC_UUID D)
        (<[3%nat := port]> (REQUEST_RGB_COMMAND w)) :: rest /\
    (transport E (length (effects w)) <> None -> _client (self w') = None).
Proof.
  intros Htame Hport Hclient Hlen Hbytes. unfold request_port_value.
  rewrite (bool_decide_eq_true_2 _ Hport). cbn [negb].
  unfold mbind at 1. unfold M_bind at 1. unfold gets. rewrite Hclient.
  assert (Hbyte : is_byte port).
  { unfold is_byte. repeat (apply elem_of_cons in Hport as [-> | Hport]; [lia |]).
    by apply elem_of_nil in Hport. }
  assert (Hstored : <[3%nat := port]> (REQUEST_RGB_COMMAND w) !! 3%nat = Some port)
    by (by apply list_lookup_insert_eq).
  unfold try_except.
  rewrite (bind_ok _ _ _ _ _ (store_port_ok _ _ Hlen)).
  rewrite bytearray_ok by (by apply Forall_insert).
  unfold lift. unfold mret at 1. unfold M_ret at 1.
  unfold mbind at 1. unfold M_bind at 1. unfold io. cbn [effects].
  destruct (transport E (length (effects w))) as [e |] eqn:Ht.
  - rewrite (Htame _ _ Ht).
    rewrite (bind_ok _ _ _ _ _ (_log_spec _ _ _)).
    match goal with |- context [disconnect D E ?w1] =>
      destruct (disconnect_tame w1 Htame) as (w' & new & Hrun & Heff & _ & Hr & Hself & _)
    end.
    exists w'. eexists. split; [exact Hrun |].
    split; [exact Hr |]. split; [by rewrite Hr |].
    split; [rewrite Heff; simpl; by rewrite <- ?(assoc_L (++)) |].
    intros _. rewrite Hself. simpl.
    destruct (_autoReconnect (self w)); by destruct (self w).
  - eexists _, []. split; [reflexivity |]. by repeat split.
Qed.

(** X25: [turn_off] on a session without a client logs "Turning Off... "
    and then raises [AttributeError], which its [except] clause does not
    catch: nothing is written and [disconnect] is not called. *)
Theorem turn_off_without_client (w : World) :
  _client (self w) = None ->
  turn_off D E w =
  (Raise AttributeError, add_effects (log_effects (self w) "Turning Off... " LF) w).
Proof.
  intros Hclient. unfold turn_off.
  eapply try_except_escapes; [| reflexivity].
  eapply bind_to; [apply _log_spec |].
  eapply bind_to; [reflexivity |]. fields. rewrite Hclient.
  by apply bind_raise.
Qed.

(** X26: [turn_off] on a connected session with a working transport writes
    the power-off command, then goes through [disconnect]: it writes the
    disconnect command, closes the link and drops the client.  With
    [_autoReconnect] true, a new [connect] is scheduled all the same. *)
Theorem turn_off_connected (client : BleakClient) (w : World) :
  reliable E -> _client (self w) = Some client ->
  exists w', turn_off D E w = (Ok tt, w') /\
    _client (self w') = None /\
    effects w' =
      effects w ++ log_effects (self w) "Turning Off... " LF ++
      [WriteGattChar client (LEGO_CHARACTERISTIC_UUID D) (TURN_OFF_COMMAND D)] ++
      log_effects (self w) "Disconnecting... " LF ++
      [WriteGattChar client (LEGO_CHARACTERISTIC_UUID D) (DISCONNECT_COMMAND D);
       ClientDisconnect client] /\
    (if _autoReconnect (self w)
     then tasks w' = tasks w ++ [TaskConnect]
     else tasks w' = tasks w /\ _run (self w') = false).
Proof.
  intros Hrel Hclient. unfold turn_off.
  eexists. split.
  { apply try_except_ok. eapply bind_to; [apply _log_spec |].
    eapply bind_to; [reflexivity |]. fields. rewrite Hclient.
    eapply bind_to; [apply io_done, Hrel |].
    by apply (disconnect_reliable client). }
  cbv zeta. fields.
  destruct (_autoReconnect (self w)); fields;
    (split; [by destruct (self w) |]);
    (split; [by rewrite <- ?(assoc_L (++)) |]); by try destruct (self w).
Qed.

(** ** The event loop *)

Lemma run_empty (k : nat) (w : World) : tasks w = [] -> run D E k w = (Ok true, w).
Proof.
  intros Hempty. destruct k as [| k]; simpl.
  - unfold mbind, M_bind, gets. by rewrite Hempty.
  - unfold mbind, M_bind, pop_task. by rewrite Hempty.
Qed.

(** Once [run] has emptied the queue within [k] tasks, more fuel
    changes nothing: the queue is empty and [run] with any larger budget
    ends in the same world. *)
Theorem run_settles (k n : nat) (w w' : World) :
  run D E k w = (Ok true, w') ->
  tasks w' = [] /\ run D E (k + n) w = (Ok true, w').
Proof.
  revert w. induction k as [| k IH]; intros w Hrun.
  - simpl in Hrun. unfold mbind, M_bind, gets, mret, M_ret in Hrun.
    destruct (tasks w) eqn:Hts; [| done]. injection Hrun as <-.
    split; [done | by apply run_empty].
  - cbn [run] in Hrun. unfold mbind at 1 in Hrun. unfold M_bind at 1 in Hrun.
    unfold pop_task in Hrun.
    destruct (tasks w) as [| t rest] eqn:Hts.
    + injection Hrun as <-. split; [done | by apply run_empty].
    + unfold mbind at 1 in Hrun. unfold M_bind at 1 in Hrun.
      match type of Hrun with context [run_task D E t ?w0] =>
        destruct (run_task D E t w0) as [[[] | e] w1] eqn:Htask
      end; [| done].
      destruct (IH w1 Hrun) as [Hempty Hmore]. split; [done |].
      cbn [Nat.add run]. unfold mbind at 1. unfold M_bind at 1.
      unfold pop_task. rewrite Hts.
      unfold mbind at 1. unfold M_bind at 1. by rewrite Htask.
Qed.

(** ** The connection watch *)

(** X28: one turn of the connection watch.  Without a client the watch
    ends and changes nothing.  With a client that is still connected it
    sleeps 3 s and goes on.  With a client that is no longer connected it
    logs the drop and goes through [disconnect], which leaves the session
    without a client (given a transport that raises nothing but [OSError]
    and [BleakError]). *)
Theorem check_connection_loop_turn (client : BleakClient) (w : World) :
  (_client (self w) = None -> check_connection_loop D E w = (Ok tt, w)) /\
  (_client (self w) = Some client -> is_connected E (length (effects w)) = true ->
   check_connection_loop D E w =
   (Ok tt, add_task TaskCheckConnectionLoop (add_effect (Sleep 3000) w))) /\
  (_client (self w) = Some client -> is_connected E (length (effects w)) = false ->
   tame E ->
   exists w' rest, check_connection_loop D E w = (Ok tt, w') /\
     _client (self w') = None /\
     effects w' =
       effects w ++
       log_effects (self w) "Disconnect detected during connection check" LF ++ rest).
Proof.
  split; [| split].
  - intros Hclient. unfold check_connection_loop, mbind, M_bind, gets.
    by rewrite Hclient.
  - intros Hclient Hlive. unfold check_connection_loop.
    unfold mbind at 1. unfold M_bind at 1. unfold gets at 1. rewrite Hclient.
    eapply bind_to; [| reflexivity].
    apply try_except_ok.
    unfold mbind at 1. unfold M_bind at 1. unfold gets at 1. rewrite Hlive.
    reflexivity.
  - intros Hclient Hdead Htame. unfold check_connection_loop.
    unfold mbind at 1. unfold M_bind at 1. unfold gets at 1. rewrite Hclient.
    match goal with |- context [disconnect D E] =>
      destruct (disconnect_tame
                  (add_effects
                     (log_effects (self w) "Disconnect detected during connection check" LF)
                     w) Htame)
        as (w1 & new & Hrun & Heff & _ & _ & Hself & _)
    end.
    eexists _, _. split.
    { eapply bind_to; [| reflexivity].
      apply try_except_ok.
      unfold mbind at 1. unfold M_bind at 1. unfold gets at 1. rewrite Hdead.
      cbn [negb].
      eapply bind_to.
      { eapply bind_to; [apply _log_spec | exact Hrun]. }
      reflexivity. }
    fields. split.
    + rewrite Hself. fields. by destruct (_autoReconnect (self w)); destruct (self w).
    + rewrite Heff. fields. by rewrite <- ?(assoc_L (++)).
Qed.

End Sessions.

(** ** Closed instances *)

Lemma silent_radio_reliable : reliable silent_radio.
Proof. intros t. reflexivity. Defined.

Lemma silent_radio_tame : tame silent_radio.
Proof. intros t e H. discriminate H. Defined.

Lemma friendly_radio_reliable : reliable friendly_radio.
Proof. intros t. reflexivity. Defined.



Lemma handle_events_is_local_witness :
  _doLog (self sample_world) = false /\
  exists new,
    effects (snd (_handle_events sample_data 0 [5; 0; 0x45; 0x02; 0x21] sample_world))
    = effects sample_world ++ new /\
    Forall (fun e => is_print e = false) new.
Proof.
  split; [reflexivity |].
  destruct (handle_events_is_local sample_data 0 [5; 0; 0x45; 0x02; 0x21] sample_world)
    as (new & Heff & _ & Hquiet).
  exists new. split; [exact Heff | exact (Hquiet eq_refl)].
Defined.

Lemma connect_succeeds_witness :
  reliable friendly_radio /\
  is_mario {| d_name := Some "LEGO Mario_j_r"; d_address := "AA:BB" |} = true /\
  exists w', connect sample_data friendly_radio sample_world = (Ok (Some true), w') /\
    _client (self w') = Some {| address := "AA:BB" |} /\
    tasks w' = [TaskConnect; TaskCheckConnectionLoop].
Proof.
  split; [exact friendly_radio_reliable |]. split; [reflexivity |].
  destruct (connect_succeeds sample_data friendly_radio
              [{| d_name := None; d_address := "00:01" |}] []
              {| d_name := Some "LEGO Mario_j_r"; d_address := "AA:BB" |} sample_world
              friendly_radio_reliable sample_mute_bytes (fun _ => eq_refl) eq_refl eq_refl)
    as (w' & Hrun & _ & Hclient & _ & Htasks).
  exists w'. split; [exact Hrun |]. split; [exact Hclient | exact Htasks].
Defined.

Lemma connect_refused_witness :
  (forall t, transport refusing_radio t = Some AttributeError) /\
  exists w', connect sample_data refusing_radio sample_world = (Ok (Some false), w') /\
    _client (self w') = None /\ tasks w' = [TaskConnect; TaskConnect].
Proof.
  split; [intros t; reflexivity |].
  destruct (connect_refused sample_data refusing_radio
              [{| d_name := None; d_address := "00:01" |}] []
              {| d_name := Some "LEGO Mario_j_r"; d_address := "AA:BB" |} AttributeError
              sample_world (fun _ => eq_refl) eq_refl (fun _ => eq_refl) eq_refl eq_refl)
    as (w' & Hrun & Hclient & _ & Htasks & _).
  exists w'. split; [exact Hrun |]. split; [exact Hclient | exact Htasks].
Defined.

Lemma disconnect_clears_client_witness :
  tame silent_radio /\
  exists w', disconnect sample_data silent_radio connected_world = (Ok tt, w') /\
    _client (self w') = None /\ tasks w' = [TaskConnect; TaskConnect].
Proof.
  split; [exact silent_radio_tame |].
  destruct (disconnect_clears_client sample_data silent_radio connected_world
              silent_radio_tame)
    as (w' & Hrun & Hclient & _ & _ & _ & _ & _ & Htasks & _).
  exists w'. split; [exact Hrun |]. split; [exact Hclient | exact Htasks].
Defined.

Lemma disconnect_escapes_witness :
  OSError_or_BleakError AttributeError = false /\
  fst (disconnect sample_data (broken_radio AttributeError) connected_world)
  = Raise AttributeError /\
  _client (self (snd (disconnect sample_data (broken_radio AttributeError) connected_world)))
  = Some {| address := "AA:BB" |}.
Proof.
  split; [reflexivity |].
  rewrite (disconnect_escapes sample_data (broken_radio AttributeError)
             {| address := "AA:BB" |} AttributeError connected_world
             eq_refl (fun _ => eq_refl) eq_refl).
  split; reflexivity.
Defined.

Lemma request_port_value_stores_port_witness :
  tame silent_radio /\ (6 ∈ [0; 1; 2; 3; 4; 6]) /\
  exists w' rest,
    request_port_value sample_data silent_radio 6 connected_world = (Ok tt, w') /\
    REQUEST_RGB_COMMAND w' = [0x05; 0x00; 0x21; 0x06; 0x00] /\
    effects w' =
      effects connected_world ++
      WriteGattChar {| address := "AA:BB" |} (LEGO_CHARACTERISTIC_UUID sample_data)
        [0x05; 0x00; 0x21; 0x06; 0x00] :: rest.
Proof.
  assert (Hport : 6 ∈ [0; 1; 2; 3; 4; 6]) by (by apply (bool_decide_unpack _)).
  assert (Hbytes : Forall is_byte (REQUEST_RGB_COMMAND connected_world))
    by (repeat constructor; unfold is_byte; lia).
  assert (Hlen : (3 < length (REQUEST_RGB_COMMAND connected_world))%nat)
    by (simpl; lia).
  split; [exact silent_radio_tame |]. split; [exact Hport |].
  destruct (request_port_value_stores_port sample_data silent_radio 6
              {| address := "AA:BB" |} connected_world
              silent_radio_tame Hport eq_refl Hlen Hbytes)
    as (w' & rest & Hrun & Hcmd & _ & Heff & _).
  exists w', rest. split; [exact Hrun |]. split; [exact Hcmd | exact Heff].
Defined.

Lemma turn_off_without_client_witness :
  _client (self sample_world) = None /\
  fst (turn_off sample_data silent_radio sample_world) = Raise AttributeError.
Proof.
  split; [reflexivity |].
  by rewrite (turn_off_without_client sample_data silent_radio sample_world eq_refl).
Defined.

Lemma turn_off_connected_witness :
  reliable silent_radio /\
  exists w', turn_off sample_data silent_radio connected_world = (Ok tt, w') /\
    _client (self w') = None /\ tasks w' = [TaskConnect] ++ [TaskConnect].
Proof.
  split; [exact silent_radio_reliable |].
  destruct (turn_off_connected sample_data silent_radio {| address := "AA:BB" |}
              connected_world silent_radio_reliable eq_refl)
    as (w' & Hrun & Hclient & _ & Htasks).
  exists w'. split; [exact Hrun |]. split; [exact Hclient | exact Htasks].
Defined.

Lemma run_settles_witness :
  run sample_data silent_radio 1 stopping_world
  = (Ok true, snd (run sample_data silent_radio 1 stopping_world)) /\
  tasks (snd (run sample_data silent_radio 1 stopping_world)) = [] /\
  run sample_data silent_radio (1 + 5) stopping_world
  = (Ok true, snd (run sample_data silent_radio 1 stopping_world)).
Proof.
  assert (Hrun : run sample_data silent_radio 1 stopping_world
                 = (Ok true, snd (run sample_data silent_radio 1 stopping_world)))
    by (vm_compute; reflexivity).
  split; [exact Hrun |].
  exact (run_settles sample_data silent_radio 1 5 stopping_world _ Hrun).
Defined.

Lemma check_connection_loop_turn_witness :
  _client (self sample_world) = None /\
  check_connection_loop sample_data silent_radio sample_world = (Ok tt, sample_world) /\
  check_connection_loop sample_data silent_radio connected_world
  = (Ok tt, add_task TaskCheckConnectionLoop (add_effect (Sleep 3000) connected_world)).
Proof.
  split; [reflexivity |]. split.
  - exact (proj1 (check_connection_loop_turn sample_data silent_radio
                    {| address := "AA:BB" |} sample_world) eq_refl).
  - exact (proj1 (proj2 (check_connection_loop_turn sample_data silent_radio
                           {| address := "AA:BB" |} connected_world)) eq_refl eq_refl).
Defined.

(** ** Two more consequences *)

(** X27: with [_autoReconnect] false, no client and a radio that never
    finds the device, the scheduled [connect] scans exactly three times and
    the session stops: [_run] is false, no task is left and [run] returns,
    on this and on every later call. *)
Theorem autoreconnect_off_stops (D : LEGO_MARIO_DATA) (E : Env) (w : World) :
  nothing_found E ->
  _autoReconnect (self w) = false -> _client (self w) = None ->
  tasks w = [TaskConnect] ->
  exists w', run D E 1 w = (Ok true, w') /\
    scans (effects w') = (scans (effects w) + 3)%nat /\
    _run (self w') = false /\ tasks w' = [] /\
    forall k, run D E k w' = (Ok true, w').
Proof.
  intros Hnothing Hauto Hclient Htasks.
  destruct (retry_bound_without_autoreconnect D E w Hnothing Hauto Hclient Htasks)
    as (w' & Hrun & Hscans & [Hstop Hempty] & Hlater).
  exists w'. by repeat split.
Qed.

Lemma autoreconnect_off_stops_witness :
  nothing_found silent_radio /\
  _autoReconnect (self stopping_world) = false /\
  exists w', run sample_data silent_radio 1 stopping_world = (Ok true, w') /\
    scans (effects w') = 3%nat /\ _run (self w') = false /\ tasks w' = [].
Proof.
  split; [exact silent_radio_finds_nothing |]. split; [reflexivity |].
  destruct (autoreconnect_off_stops sample_data silent_radio stopping_world
              silent_radio_finds_nothing eq_refl eq_refl eq_refl)
    as (w' & Hrun & Hscans & Hstop & Hempty & _).
  exists w'. split; [exact Hrun |]. split; [exact Hscans |].
  split; [exact Hstop | exact Hempty].
Defined.

(** X29: the name given to a tile code that has no entry in
    [HEX_TO_RGB_TILE] tells the code: two byte codes without an entry that
    get the same name are the same code. *)
Theorem unknown_tile_name_tells_code (D : LEGO_MARIO_DATA) (a b : Z) :
  is_byte a -> is_byte b ->
  HEX_TO_RGB_TILE D !! a = None -> HEX_TO_RGB_TILE D !! b = None ->
  tile_name D a = tile_name D b -> a = b.
Proof.
  intros Ha Hb Hna Hnb. unfold tile_name, dict_get. rewrite Hna, Hnb.
  by apply unknown_tile_carries_code.
Qed.

Lemma unknown_tile_name_tells_code_witness :
  is_byte 0x0a /\ is_byte 0xa0 /\
  HEX_TO_RGB_TILE sample_data !! 0x0a = None /\
  tile_name sample_data 0x0a = "Unkown Tile Code: 0xa" /\
  (tile_name sample_data 0x0a = tile_name sample_data 0xa0 -> 0x0a = 0xa0).
Proof.
  assert (Ha : is_byte 0x0a) by (unfold is_byte; lia).
  assert (Hb : is_byte 0xa0) by (unfold is_byte; lia).
  split; [exact Ha |]. split; [exact Hb |]. split; [reflexivity |].
  split; [reflexivity |].
  exact (unknown_tile_name_tells_code sample_data 0x0a 0xa0 Ha Hb eq_refl eq_refl).
Defined.
